(** * Signature/hover resolution engine of the ObjectScript language server

    A shallow embedding of
      - server/src/providers/signatureHelp.ts
      - server/src/ccs/signatureHelp/routineSupport.ts
      - server/src/ccs/hover/routineSupport.ts
      - server/src/ccs/hover/classSupport.ts
    and the properties of the engine stated in the specification.

    JavaScript strings are sequences of UTF-16 code units; they are modelled
    as lists of code units ([N]).  Indices and lengths are [Z], because the
    source computes with [-1] sentinels and passes negative indices to
    [slice]. *)

From Stdlib Require Import List ZArith NArith Bool Lia String Ascii.
Import ListNotations.
Open Scope Z_scope.

(* ================================================================== *)
(** ** JavaScript string primitives used by the sources *)
(* ================================================================== *)

Module JS.

Definition jsstring := list N.

(** A string literal of the source (ASCII only). *)
Definition js (s : string) : jsstring :=
  map N_of_ascii (list_ascii_of_string s).

(** A one-character literal of the source. *)
Definition cu (a : ascii) : N := N_of_ascii a.

(** The double quote character. *)
Definition quote : N := 34%N.

Definition length (s : jsstring) : Z := Z.of_nat (List.length s).

Fixpoint streq (a b : jsstring) : bool :=
  match a, b with
  | [], [] => true
  | x :: a', y :: b' => N.eqb x y && streq a' b'
  | _, _ => false
  end.

(** The character class [\s] of a regular expression, which is also the set
    removed by [trim] and [trimEnd] (WhiteSpace and LineTerminator). *)
Definition isWhitespace (c : N) : bool :=
  (((9 <=? c) && (c <=? 13)) || (c =? 32) || (c =? 160) || (c =? 5760)
   || ((8192 <=? c) && (c <=? 8202)) || (c =? 8232) || (c =? 8233)
   || (c =? 8239) || (c =? 8287) || (c =? 12288) || (c =? 65279))%N.

(** [s.replace(/\s+/g, "")] *)
Definition removeWhitespace (s : jsstring) : jsstring :=
  filter (fun c => negb (isWhitespace c)) s.

(** [s.replace(/\u00A0/g, " ")] *)
Definition replaceNbsp (s : jsstring) : jsstring :=
  map (fun c => if (c =? 160)%N then cu " " else c) s.

(** [s.replace(/,/g, ", ")] *)
Definition spaceAfterCommas (s : jsstring) : jsstring :=
  flat_map (fun c => if (c =? cu ",")%N then js ", " else [c]) s.

(** [s.replace(/\r?\n/g, " ")] *)
Fixpoint replaceNewlines (s : jsstring) : jsstring :=
  match s with
  | [] => []
  | c :: rest =>
      if (c =? 10)%N then cu " " :: replaceNewlines rest
      else if (c =? 13)%N then
        match rest with
        | d :: rest' =>
            if (d =? 10)%N then cu " " :: replaceNewlines rest'
            else c :: replaceNewlines rest
        | [] => [c]
        end
      else c :: replaceNewlines rest
  end.

(** [s.split(sep)] for a one-character separator. *)
Fixpoint splitAcc (sep : N) (cur : jsstring) (s : jsstring) : list jsstring :=
  match s with
  | [] => [rev cur]
  | c :: rest =>
      if (c =? sep)%N then rev cur :: splitAcc sep [] rest
      else splitAcc sep (c :: cur) rest
  end.

Definition split (sep : N) (s : jsstring) : list jsstring := splitAcc sep [] s.

(** [s.split(/\r?\n/)] *)
Fixpoint splitLinesAcc (cur : jsstring) (s : jsstring) : list jsstring :=
  match s with
  | [] => [rev cur]
  | c :: rest =>
      if (c =? 10)%N then rev cur :: splitLinesAcc [] rest
      else if (c =? 13)%N then
        match rest with
        | d :: rest' =>
            if (d =? 10)%N then rev cur :: splitLinesAcc [] rest'
            else splitLinesAcc (c :: cur) rest
        | [] => [rev (c :: cur)]
        end
      else splitLinesAcc (c :: cur) rest
  end.

Definition splitLines (s : jsstring) : list jsstring := splitLinesAcc [] s.

(** Position of the first [c] in [s], counted from the head. *)
Fixpoint find (c : N) (s : jsstring) : option nat :=
  match s with
  | [] => None
  | d :: rest =>
      if (d =? c)%N then Some O
      else match find c rest with Some n => Some (S n) | None => None end
  end.

(** [s.indexOf(c, from)] for a one-character [c]: the search starts at
    [from] clamped to [[0, s.length]], the result is [-1] when absent. *)
Definition indexOf (c : N) (s : jsstring) (from : Z) : Z :=
  let k := Z.to_nat (Z.max 0 from) in
  match find c (skipn k s) with
  | Some n => Z.of_nat (k + n)
  | None => -1
  end.

(** Position of the last [c] in [s]. *)
Fixpoint findLast (c : N) (s : jsstring) : option nat :=
  match s with
  | [] => None
  | d :: rest =>
      match findLast c rest with
      | Some n => Some (S n)
      | None => if (d =? c)%N then Some O else None
      end
  end.

(** [s.lastIndexOf(c)] *)
Definition lastIndexOf (c : N) (s : jsstring) : Z :=
  match findLast c s with
  | Some n => Z.of_nat n
  | None => -1
  end.

(** [s.slice(b, e)]: a negative index counts from the end, both are clamped
    to [[0, s.length]], and the result is empty when they cross. *)
Definition slice (s : jsstring) (b e : Z) : jsstring :=
  let len := length s in
  let from := if b <? 0 then Z.max (len + b) 0 else Z.min b len in
  let to := if e <? 0 then Z.max (len + e) 0 else Z.min e len in
  firstn (Z.to_nat (to - from)) (skipn (Z.to_nat from) s).

(** [s.slice(b)] *)
Definition sliceFrom (s : jsstring) (b : Z) : jsstring :=
  slice s b (length s).

(** [s.charAt(i)]: the empty string when [i] is out of range. *)
Definition charAt (s : jsstring) (i : Z) : jsstring :=
  if (0 <=? i) && (i <? length s) then firstn 1 (skipn (Z.to_nat i) s) else [].

Fixpoint startsWith (s p : jsstring) : bool :=
  match p, s with
  | [], _ => true
  | x :: p', y :: s' => N.eqb x y && startsWith s' p'
  | _ :: _, [] => false
  end.

Definition endsWith (s p : jsstring) : bool := startsWith (rev s) (rev p).

Fixpoint dropWhile (f : N -> bool) (s : jsstring) : jsstring :=
  match s with
  | [] => []
  | c :: rest => if f c then dropWhile f rest else s
  end.

Definition trimStart (s : jsstring) : jsstring := dropWhile isWhitespace s.
Definition trimEnd (s : jsstring) : jsstring := rev (dropWhile isWhitespace (rev s)).
Definition trim (s : jsstring) : jsstring := trimEnd (trimStart s).

(** [l.join(sep)] *)
Fixpoint join (sep : jsstring) (l : list jsstring) : jsstring :=
  match l with
  | [] => []
  | [x] => x
  | x :: rest => x ++ sep ++ join sep rest
  end.

(** [s.replace(new RegExp(pat, "g"), rep)] for a pattern without
    metacharacters: every occurrence of [pat], leftmost first and without
    overlap, is replaced.  [skip] counts the characters of a matched
    occurrence that are still to be passed over. *)
Fixpoint replaceAllAux (pat rep : jsstring) (skip : nat) (s : jsstring) : jsstring :=
  match s with
  | [] => []
  | c :: rest =>
      match skip with
      | S k => replaceAllAux pat rep k rest
      | O =>
          if startsWith s pat
          then rep ++ replaceAllAux pat rep (List.length pat - 1) rest
          else c :: replaceAllAux pat rep O rest
      end
  end.

Definition replaceAll (pat rep s : jsstring) : jsstring :=
  replaceAllAux pat rep O s.

(** [Array.from(s)]: iteration by code point, so that a high surrogate
    followed by a low surrogate is one element. *)
Definition isHighSurrogate (c : N) : bool := ((55296 <=? c) && (c <=? 56319))%N.
Definition isLowSurrogate (c : N) : bool := ((56320 <=? c) && (c <=? 57343))%N.

Fixpoint arrayFrom (s : jsstring) : list jsstring :=
  match s with
  | [] => []
  | c :: rest =>
      match rest with
      | d :: rest' =>
          if isHighSurrogate c && isLowSurrogate d
          then [c; d] :: arrayFrom rest'
          else [c] :: arrayFrom rest
      | [] => [[c]]
      end
  end.

End JS.
Import JS.

(* ================================================================== *)
(** ** signatureHelp.ts: argument emphasis *)
(* ================================================================== *)

(** Placeholder for the Markdown emphasis characters before an argument. *)
Definition emphasizePrefix : jsstring := js "%%%%%".

(** Placeholder for the Markdown emphasis characters after an argument. *)
Definition emphasizeSuffix : jsstring := js "@@@@@".

(** The [while] loop of [emphasizeArgument] ("find the unknown positions").
    One unit of [fuel] pays for one evaluation of the loop condition; [None]
    means the fuel ran out before the loop was left. *)
Fixpoint emphasizeSearch (fuel : nat) (arglist normalized : jsstring) (arg : Z)
    (end_ spacesfound lastspace : Z) : option jsstring :=
  match fuel with
  | O => None
  | S fuel' =>
      if indexOf (cu " ") normalized (lastspace + 1) =? -1 then Some arglist
      else
        let thisspace := indexOf (cu " ") normalized lastspace in
        let spacesfound := spacesfound + 1 in
        if arg =? spacesfound + 1 then
          (* This is the space before the argument *)
          let start := thisspace + 1 in
          let end_ :=
            if end_ =? -1 then indexOf (cu " ") normalized start - 1 else end_ in
          Some (slice arglist 0 start ++ emphasizePrefix ++ slice arglist start end_
                ++ emphasizeSuffix ++ sliceFrom arglist end_)
        else emphasizeSearch fuel' arglist normalized arg end_ spacesfound thisspace
  end.

(** [emphasizeArgument(arglist, arg)]; [arg] is the one-indexed number of the
    argument (callers pass an integer). *)
Definition emphasizeArgument (fuel : nat) (arglist : jsstring) (arg : Z)
  : option jsstring :=
  let normalized := replaceNbsp arglist in
  let numargs := Z.of_nat (List.length (split (cu " ") normalized)) in
  if arg >? numargs then
    (* The given argument doesn't exist in the list *)
    Some (removeWhitespace normalized)
  else
    let start := -1 in
    let end_ := -1 in
    let '(start, end_) :=
      if arg =? numargs then
        (* The last argument always ends at the second-to-last position *)
        (if numargs >? 1 then lastIndexOf (cu " ") normalized + 1 else start,
         length normalized - 1)
      else (start, end_) in
    let '(start, end_) :=
      if arg =? 1 then
        (* The first argument always starts at position 1 *)
        (1, if end_ =? -1 then indexOf (cu " ") normalized 0 - 1 else end_)
      else (start, end_) in
    if negb (start =? -1) && negb (end_ =? -1) then
      (* Do the replacement *)
      Some (removeWhitespace
              (slice arglist 0 start ++ emphasizePrefix ++ slice arglist start end_
               ++ emphasizeSuffix ++ sliceFrom arglist end_))
    else
      (* Find the unknown positions *)
      match emphasizeSearch fuel arglist normalized arg end_ 0 0 with
      | Some result => Some (removeWhitespace result)
      | None => None
      end.

(** Use HTML to display [exp] as a code block with the emphasized argument
    rendered bold, italic and underlined. *)
Definition markdownifyExpansion (exp : list jsstring) : jsstring :=
  js "<pre>" ++ [10%N]
  ++ replaceAll emphasizeSuffix (js "</u></i></b>")
       (replaceAll emphasizePrefix (js "<b><i><u>")
          (join [10%N] (map trimEnd exp)))
  ++ [10%N] ++ js "</pre>".


(* ================================================================== *)
(** ** Regular expressions of the sources *)
(* ================================================================== *)

(** A backtracking matcher for the constructs the sources' regular
    expressions are written with: character classes, greedy repetition of a
    class, an optional group, capture groups, [\b] and [$]. *)
Module Regex.

Inductive re : Type :=
| Chr (p : N -> bool)            (* one character of a class *)
| Star (p : N -> bool)           (* [p*], greedy *)
| Plus (p : N -> bool)           (* [p+], greedy *)
| Seq (a b : re)
| Opt (a : re)                   (* [(?:a)?], greedy *)
| Group (n : nat) (a : re)       (* the capture group number [n] *)
| WordBoundary                   (* [\b] *)
| EndOfInput.                    (* [$] *)

Definition captures := list (nat * jsstring).

Definition inRange (lo hi : ascii) (c : N) : bool :=
  ((cu lo <=? c) && (c <=? cu hi))%N.

Definition isChar (a : ascii) (c : N) : bool := (c =? cu a)%N.

(** [\w] *)
Definition isWord (c : N) : bool :=
  inRange "A" "Z" c || inRange "a" "z" c || inRange "0" "9" c || isChar "_" c.

Definition isWordOpt (c : option N) : bool :=
  match c with Some c => isWord c | None => false end.

(** [m r prev s caps k]: match [r] at the head of [s], [prev] being the
    character before it, then continue with [k]; backtrack when [k] fails. *)
Fixpoint m {A : Type} (r : re) (prev : option N) (s : jsstring) (caps : captures)
    (k : option N -> jsstring -> captures -> option A) {struct r} : option A :=
  match r with
  | Chr p =>
      match s with
      | c :: s' => if p c then k (Some c) s' caps else None
      | [] => None
      end
  | Star p =>
      (fix star (prev : option N) (s : jsstring) {struct s} : option A :=
         match s with
         | c :: s' =>
             if p c then
               match star (Some c) s' with
               | Some r => Some r
               | None => k prev s caps
               end
             else k prev s caps
         | [] => k prev s caps
         end) prev s
  | Plus p =>
      match s with
      | c :: s' =>
          if p c then
            (fix star (prev : option N) (s : jsstring) {struct s} : option A :=
               match s with
               | c :: s' =>
                   if p c then
                     match star (Some c) s' with
                     | Some r => Some r
                     | None => k prev s caps
                     end
                   else k prev s caps
               | [] => k prev s caps
               end) (Some c) s'
          else None
      | [] => None
      end
  | Seq a b => m a prev s caps (fun prev' s' caps' => m b prev' s' caps' k)
  | Opt a =>
      match m a prev s caps k with
      | Some r => Some r
      | None => k prev s caps
      end
  | Group n a =>
      m a prev s caps
        (fun prev' s' caps' =>
           k prev' s' ((n, firstn (List.length s - List.length s') s) :: caps'))
  | WordBoundary =>
      if xorb (isWordOpt prev) (isWordOpt (hd_error s)) then k prev s caps else None
  | EndOfInput =>
      match s with [] => k prev s caps | _ :: _ => None end
  end.

(** [s.match(r)] without the [g] flag: the leftmost position where [r]
    matches, with the captures of that match. *)
Fixpoint searchFrom (r : re) (prev : option N) (s : jsstring) : option captures :=
  match m r prev s [] (fun _ _ caps => Some caps) with
  | Some caps => Some caps
  | None =>
      match s with
      | [] => None
      | c :: s' => searchFrom r (Some c) s'
      end
  end.

Definition match_ (r : re) (s : jsstring) : option captures := searchFrom r None s.

(** The text of capture group [n]; [None] is [undefined]. *)
Fixpoint group (n : nat) (caps : captures) : option jsstring :=
  match caps with
  | [] => None
  | (k, t) :: rest => if Nat.eqb k n then Some t else group n rest
  end.

End Regex.

Declare Scope re_scope.
Delimit Scope re_scope with re.
Notation "a ';;' b" := (Regex.Seq a b) (at level 61, right associativity) : re_scope.

(* ================================================================== *)
(** ** Protocol types (vscode-languageserver) and token lines *)
(* ================================================================== *)

Module Position.
Record t := create { line : Z; character : Z }.
End Position.

Module Range.
Record t := create { start : Position.t; end_ : Position.t }.
End Range.

Inductive MarkupKind := PlainText | Markdown.

Record MarkupContent := { kind : MarkupKind; value : jsstring }.

(** The label of a [ParameterInformation]: a [[start, end]] pair of offsets
    into the signature label, or a substring of it. *)
Inductive ParameterLabel :=
| Span (s e : Z)
| Text (t : jsstring).

Module ParameterInformation.
Record t := { label : ParameterLabel }.
Definition create (l : ParameterLabel) : t := {| label := l |}.
End ParameterInformation.

Module SignatureInformation.
Record t := {
  label : jsstring;
  parameters : option (list ParameterInformation.t);
  documentation : option MarkupContent
}.
End SignatureInformation.

Module SignatureHelp.
Record t := {
  signatures : list SignatureInformation.t;
  activeSignature : option Z;
  activeParameter : option Z
}.
End SignatureHelp.

Inductive SignatureHelpTriggerKind := Invoked | TriggerCharacter | ContentChange.

Module SignatureHelpContext.
Record t := {
  triggerKind : SignatureHelpTriggerKind;
  triggerCharacter : option jsstring;
  isRetrigger : bool;
  activeSignatureHelp : option SignatureHelp.t
}.
End SignatureHelpContext.

Module SignatureHelpParams.
Record t := {
  uri : jsstring;                          (* [params.textDocument.uri] *)
  position : Position.t;
  context : option SignatureHelpContext.t
}.
End SignatureHelpParams.

Definition isChar (o : option jsstring) (c : jsstring) : bool :=
  match o with Some x => streq x c | None => false end.

(** A block of the function either falls through with a value or returns
    from the function. *)
Inductive flow (A : Type) : Type :=
| Continue (a : A)
| Return (r : option SignatureHelp.t).
Arguments Continue {A} a.
Arguments Return {A} r.

(** One classified token of a line ([compressedline] is an array of them):
    [p] position, [c] length, [l] language, [s] attribute. *)
Module Token.
Record t := { p : Z; c : Z; l : Z; s : Z }.
End Token.

Definition compressedline := list Token.t.

(** [a[i]] on an array: [None] is [undefined]. *)
Definition at_ {A : Type} (a : list A) (i : Z) : option A :=
  if i <? 0 then None else nth_error a (Z.to_nat i).

(* ================================================================== *)
(** ** ccs/signatureHelp/routineSupport.ts: splitters *)
(* ================================================================== *)

(** Remove anything following the first semicolon in a routine line. *)
Definition stripRoutineComment (line : jsstring) : jsstring :=
  let commentIdx := indexOf (cu ";") line 0 in
  if commentIdx =? -1 then line else slice line 0 commentIdx.

Module SplitRoutine.
Record state := {
  result : list jsstring;
  current : jsstring;
  inQuote : bool;
  parenDepth : Z
}.
End SplitRoutine.

(** One iteration of the [for] loop of [splitRoutineParams]; [prev] is
    [normalized.charAt(i - 1)], the empty string at [i = 0]. *)
Definition splitRoutineStep (st : SplitRoutine.state) (prev : jsstring) (char : N)
  : SplitRoutine.state :=
  let 'SplitRoutine.Build_state result current inQuote parenDepth := st in
  if (char =? quote)%N && negb (streq prev (js "\")) then
    SplitRoutine.Build_state result (current ++ [char]) (negb inQuote) parenDepth
  else if negb inQuote && (char =? cu "(")%N then
    SplitRoutine.Build_state result (current ++ [char]) inQuote (parenDepth + 1)
  else if negb inQuote && (char =? cu ")")%N && (parenDepth >? 0) then
    SplitRoutine.Build_state result (current ++ [char]) inQuote (parenDepth - 1)
  else if negb inQuote && (char =? cu ",")%N && (parenDepth =? 0) then
    SplitRoutine.Build_state (result ++ [trim current]) [] inQuote parenDepth
  else
    SplitRoutine.Build_state result (current ++ [char]) inQuote parenDepth.

Fixpoint splitRoutineLoop (st : SplitRoutine.state) (prev : jsstring) (s : jsstring)
  : SplitRoutine.state :=
  match s with
  | [] => st
  | char :: rest => splitRoutineLoop (splitRoutineStep st prev char) [char] rest
  end.

(** Split a routine parameter list into individual parameters. *)
Definition splitRoutineParams (paramStr : jsstring) : list jsstring :=
  let normalized := replaceNewlines paramStr in
  if streq (trim normalized) [] then []
  else
    let st := splitRoutineLoop (SplitRoutine.Build_state [] [] false 0) [] normalized in
    let finalParam := trim (SplitRoutine.current st) in
    let result :=
      if 0 <? length finalParam
      then SplitRoutine.result st ++ [finalParam]
      else SplitRoutine.result st in
    filter (fun param => 0 <? length param) result.

Module RoutineCallContext.
Record t := { label : jsstring; routine : jsstring }.
End RoutineCallContext.

Definition identStart (c : N) : bool :=
  Regex.isChar "%" c || Regex.inRange "A" "Z" c || Regex.inRange "a" "z" c.

Definition identRest (c : N) : bool := Regex.isWord c || Regex.isChar "%" c.

(** [[%A-Za-z]] followed by [[\w%]*] *)
Definition identifier : Regex.re :=
  (Regex.Chr identStart ;; Regex.Star identRest)%re.

(** [\b[Dd][Oo]\b] *)
Definition doKeyword : Regex.re :=
  (Regex.WordBoundary
   ;; Regex.Chr (fun c => Regex.isChar "D" c || Regex.isChar "d" c)
   ;; Regex.Chr (fun c => Regex.isChar "O" c || Regex.isChar "o" c)
   ;; Regex.WordBoundary)%re.

(** The optional routine part: non-capturing, [\s* \^ \s* ([%A-Za-z][\w%]* )],
    followed by [?]. *)
Definition optionalRoutine : Regex.re :=
  Regex.Opt (Regex.Star isWhitespace ;; Regex.Chr (Regex.isChar "^")
             ;; Regex.Star isWhitespace ;; Regex.Group 2 identifier)%re.

(** [\$\$] [([%A-Za-z][\w%]* )] [optionalRoutine] [$] *)
Definition extrinsicRe : Regex.re :=
  (Regex.Chr (Regex.isChar "$") ;; Regex.Chr (Regex.isChar "$")
   ;; Regex.Group 1 identifier ;; optionalRoutine ;; Regex.EndOfInput)%re.

(** [\b[Dd][Oo]\b] [\s+] [([%A-Za-z][\w%]* )] [optionalRoutine] [$] *)
Definition doLabelRe : Regex.re :=
  (doKeyword ;; Regex.Plus isWhitespace
   ;; Regex.Group 1 identifier ;; optionalRoutine ;; Regex.EndOfInput)%re.

(** [\b[Dd][Oo]\b] [\s*] [\^] [\s*] [([%A-Za-z][\w%]* )] [$] *)
Definition doRoutineRe : Regex.re :=
  (doKeyword ;; Regex.Star isWhitespace ;; Regex.Chr (Regex.isChar "^")
   ;; Regex.Star isWhitespace ;; Regex.Group 1 identifier ;; Regex.EndOfInput)%re.

Definition orEmpty (o : option jsstring) : jsstring :=
  match o with Some t => t | None => [] end.

Definition extractRoutineCall (callPrefix : jsstring)
  : option RoutineCallContext.t :=
  let prefix := trimEnd callPrefix in
  match Regex.match_ extrinsicRe prefix with
  | Some extrinsicMatch =>
      Some {| RoutineCallContext.label := orEmpty (Regex.group 1 extrinsicMatch);
              RoutineCallContext.routine := orEmpty (Regex.group 2 extrinsicMatch) |}
  | None =>
      match Regex.match_ doLabelRe prefix with
      | Some doLabelMatch =>
          Some {| RoutineCallContext.label := orEmpty (Regex.group 1 doLabelMatch);
                  RoutineCallContext.routine := orEmpty (Regex.group 2 doLabelMatch) |}
      | None =>
          match Regex.match_ doRoutineRe prefix with
          | Some doRoutineMatch =>
              Some {| RoutineCallContext.label := orEmpty (Regex.group 1 doRoutineMatch);
                      RoutineCallContext.routine := orEmpty (Regex.group 1 doRoutineMatch) |}
          | None => None
          end
      end
  end.

(** The [forEach] of [routineParameterInfos]: [currentPos] is threaded
    through, [idx] is the index of [param] and [n] is [params.length]. *)
Fixpoint routineParameterLoop (params : list jsstring) (idx n currentPos : Z)
  : list ParameterInformation.t :=
  match params with
  | [] => []
  | param :: rest =>
      let trimmed := trim param in
      let start := currentPos in
      let end_ := start + length trimmed in
      let currentPos := end_ in
      let currentPos :=
        if idx <? n - 1
        then currentPos + 2 (* Account for the comma and following space *)
        else currentPos in
      ParameterInformation.create (Span start end_)
        :: routineParameterLoop rest (idx + 1) n currentPos
  end.

(** Build the ParameterInformation array for a routine signature label. *)
Definition routineParameterInfos (signatureLabel : jsstring) (params : list jsstring)
  : list ParameterInformation.t :=
  if Z.of_nat (List.length params) =? 0 then []
  else
    let currentPos := indexOf (cu "(") signatureLabel 0 + 1 in
    routineParameterLoop params 0 (Z.of_nat (List.length params)) currentPos.

Module FormalSpec.
Record state := {
  result : list ParameterInformation.t;
  currentParamStart : Z;
  openParenCount : Z;
  openBraceCount : Z;
  inQuote : bool
}.
End FormalSpec.

(** The callback of the [forEach] of [formalSpecToParamsArr]: the [switch]
    on [char], an element of [Array.from(formalSpec)] at index [idx]. *)
Definition formalSpecStep (st : FormalSpec.state) (char : jsstring) (idx : Z)
  : FormalSpec.state :=
  let 'FormalSpec.Build_state result currentParamStart openParenCount
         openBraceCount inQuote := st in
  if streq char (js "{") then
    FormalSpec.Build_state result currentParamStart openParenCount
      (if negb inQuote then openBraceCount + 1 else openBraceCount) inQuote
  else if streq char (js "}") then
    FormalSpec.Build_state result currentParamStart openParenCount
      (if negb inQuote then openBraceCount - 1 else openBraceCount) inQuote
  else if streq char (js "(") then
    FormalSpec.Build_state result currentParamStart
      (if negb inQuote then openParenCount + 1 else openParenCount)
      openBraceCount inQuote
  else if streq char (js ")") then
    FormalSpec.Build_state result currentParamStart
      (if negb inQuote then openParenCount - 1 else openParenCount)
      openBraceCount inQuote
  else if streq char [quote] then
    FormalSpec.Build_state result currentParamStart openParenCount
      openBraceCount (negb inQuote)
  else if streq char (js ",") then
    if negb inQuote && (openBraceCount =? 0) && (openParenCount =? 1) then
      FormalSpec.Build_state
        (result ++ [ParameterInformation.create (Span currentParamStart idx)])
        (idx + 1) openParenCount openBraceCount inQuote
    else st
  else st.

Fixpoint formalSpecLoop (st : FormalSpec.state) (chars : list jsstring) (idx : Z)
  : FormalSpec.state :=
  match chars with
  | [] => st
  | char :: rest => formalSpecLoop (formalSpecStep st char idx) rest (idx + 1)
  end.

(** Returns the [start,end] tuples for all parameters in a formal spec string. *)
Definition formalSpecToParamsArr (formalSpec : jsstring)
  : list ParameterInformation.t :=
  if streq (removeWhitespace formalSpec) (js "()") then []
  else
    let st :=
      formalSpecLoop (FormalSpec.Build_state [] 1 0 0 false) (arrayFrom formalSpec) 0 in
    FormalSpec.result st
      ++ [ParameterInformation.create
            (Span (FormalSpec.currentParamStart st) (length formalSpec - 1))].


(* ================================================================== *)
(** ** ccs/signatureHelp/routineSupport.ts: documentation *)
(* ================================================================== *)

Inductive DocContext := hover | signature.

Record DocOptions := {
  context : option DocContext;
  boldParameter : option bool;
  showHeaderInHover : option bool
}.

(** The character of a template literal's inline code. *)
Definition backtick : jsstring := [96%N].

(** [s.replace(/[<&>]/g, ...)] with the three HTML entities. *)
Definition esc (s : jsstring) : jsstring :=
  flat_map (fun c =>
              if (c =? cu "<")%N then js "&lt;"
              else if (c =? cu ">")%N then js "&gt;"
              else if (c =? cu "&")%N then js "&amp;"
              else [c]) s.

(** [s.indexOf(needle)] for a string [needle]. *)
Fixpoint indexOfString (s needle : jsstring) (i : Z) : Z :=
  if startsWith s needle then i
  else match s with
       | [] => -1
       | _ :: rest => indexOfString rest needle (i + 1)
       end.

Definition inlineCode (boldParam : bool) (t : jsstring) : jsstring :=
  if boldParam then js "**" ++ backtick ++ t ++ backtick ++ js "**"
  else backtick ++ t ++ backtick.

(** The localized line naming the parameter. *)
Definition parametroNaOrigem : jsstring := js "Par" ++ [226%N] ++ js "metro na origem:".

Definition buildRoutineDocumentation (signature : SignatureInformation.t)
    (activeIndex : option Z) (options : option DocOptions) : option MarkupContent :=
  let paramInfos :=
    match SignatureInformation.parameters signature with
    | Some l => l
    | None => []
    end in
  let optContext := match options with Some o => context o | None => None end in
  let isHover := match optContext with Some hover => true | _ => false end in
  let isSignature := match optContext with Some signature => true | _ => false end in
  let boldParam :=
    match options with
    | Some o => match boldParameter o with Some true => true | _ => false end
    | None => false
    end in
  let showHeaderInHover :=
    match options with
    | Some o => match showHeaderInHover o with Some b => b | None => true end
    | None => true
    end in
  let len := Z.of_nat (List.length paramInfos) in
  let clamp (i : Z) := if negb (len =? 0) then Z.min (Z.max i 0) (len - 1) else 0 in
  let getParamText (i : Z) : jsstring :=
    match at_ paramInfos i with
    | None => []
    | Some info =>
        match ParameterInformation.label info with
        | Span s e =>
            if s <? e then slice (SignatureInformation.label signature) s e else []
        | Text t => t
        end
    end in
  let renderSignatureWithInlineParam (label : jsstring) (i : Z) : jsstring :=
    match at_ paramInfos i with
    | None => esc label
    | Some info =>
        match ParameterInformation.label info with
        | Span s e =>
            if s <? e then
              let pre := esc (slice label 0 s) in
              let mid := esc (slice label s e) in
              let pos := esc (sliceFrom label e) in
              pre ++ inlineCode boldParam mid ++ pos
            else esc label
        | Text t =>
            if negb (streq t []) then
              let safeLabel := esc label in
              let needle := esc t in
              let k := indexOfString safeLabel needle 0 in
              if k >=? 0 then
                let pre := slice safeLabel 0 k in
                let pos := sliceFrom safeLabel (k + length needle) in
                pre ++ inlineCode boldParam needle ++ pos
              else esc label
            else esc label
        end
    end in
  let idx := clamp (match activeIndex with Some i => i | None => 0 end) in
  let pText := getParamText idx in
  let pEsc := esc pText in
  let pInline := inlineCode boldParam pEsc in
  let lines : list jsstring :=
    (if isHover && showHeaderInHover
     then [js "```"; SignatureInformation.label signature; js "```"; []]
     else [])
    ++ (if negb isSignature
        then [renderSignatureWithInlineParam (SignatureInformation.label signature) idx; []]
        else [])
    ++ [if negb (streq pText [])
        then parametroNaOrigem ++ js " " ++ pInline
        else parametroNaOrigem] in
  Some {| kind := Markdown; value := join [10%N] lines |}.

(* ================================================================== *)
(** ** The session state, the remote service and the collaborators *)
(* ================================================================== *)

(** What [getMacroContext] returns. *)
Module MacroContext.
Record t := {
  docname : jsstring;
  superclasses : list jsstring;
  includes : list jsstring;
  includegenerators : list jsstring;
  imports : list jsstring;
  mode : jsstring
}.
End MacroContext.

(** The body of a [/action/getmacrosignature] request. *)
Module MacroSignatureInput.
Record t := {
  docname : jsstring;
  macroname : jsstring;
  superclasses : list jsstring;
  includes : list jsstring;
  includegenerators : list jsstring;
  imports : list jsstring;
  mode : jsstring
}.
End MacroSignatureInput.

(** The macro context info required to do a macro expansion, which is also
    the body of a [/action/getmacroexpansion] request. *)
Module SignatureHelpMacroContext.
Record t := {
  docname : jsstring;
  macroname : jsstring;
  superclasses : list jsstring;
  includes : list jsstring;
  includegenerators : list jsstring;
  imports : list jsstring;
  mode : jsstring;
  arguments : jsstring
}.
Definition withArguments (c : t) (a : jsstring) : t :=
  {| docname := docname c; macroname := macroname c;
     superclasses := superclasses c; includes := includes c;
     includegenerators := includegenerators c; imports := imports c;
     mode := mode c; arguments := a |}.
End SignatureHelpMacroContext.

Inductive DocCacheType := macro | method | routine.

Module SignatureHelpDocCache.
Record t := { type : DocCacheType; doc : option MarkupContent }.
End SignatureHelpDocCache.

(** A row of [%Dictionary.CompiledMethod] and of its subtables; a column
    that was not selected is the empty string. *)
Module Row.
Record t := {
  FormalSpec : jsstring;
  ReturnType : jsstring;
  Description : jsstring;
  Stub : jsstring;
  Origin : jsstring
}.
End Row.

(** An entry of the [/action/index] response; [others] is [None] when it is
    not an array. *)
Module RoutineEntry.
Record t := { status : jsstring; others : option (list jsstring) }.
End RoutineEntry.

(** The requests sent to the remote service. *)
Inductive Request :=
| GetMacroSignature (inputdata : MacroSignatureInput.t)
| GetMacroExpansion (expinputdata : SignatureHelpMacroContext.t)
| Query (query : jsstring) (parameters : list jsstring)
| Index (names : list jsstring).

(** The three module variables of signatureHelp.ts, and the requests sent
    so far (most recent last). *)
Record World := {
  signatureHelpMacroCache : option SignatureHelpMacroContext.t;
  signatureHelpDocumentationCache : option SignatureHelpDocCache.t;
  signatureHelpStartPosition : option Position.t;
  requests : list Request
}.

Module TextDocument.
Record t := {
  languageId : jsstring;
  getText : Range.t -> jsstring;  (* [doc.getText(range)] *)
  getFullText : jsstring          (* [doc.getText()] *)
}.
End TextDocument.

(** The constants of utils/languageDefinitions. *)
Record LanguageDefinitions := {
  cos_langindex : Z;
  cos_comment_attrindex : Z;
  cos_dcom_attrindex : Z;
  cos_str_attrindex : Z;
  cos_macro_attrindex : Z;
  cos_method_attrindex : Z;
  cos_mem_attrindex : Z
}.

(** The collaborators of the engine: the document store, the token stream,
    utils/functions and the remote service.  A response of the remote
    service is [None] when the request failed; the content of a query or
    index response is [None] too when it is not an array. *)
Record Env := {
  ld : LanguageDefinitions;
  ServerSpec : Type;
  documents_get : jsstring -> option TextDocument.t;
  getParsedDocument : jsstring -> option (list compressedline);
  getServerSpec : jsstring -> ServerSpec;
  signaturehelp_documentation : jsstring -> bool;
  getMacroContext : TextDocument.t -> list compressedline -> Z -> MacroContext.t;
  findFullRange : Z -> list compressedline -> Z -> Z -> Z -> Range.t;
  getClassMemberContext :
    TextDocument.t -> list compressedline -> Z -> Z -> ServerSpec -> jsstring;
  beautifyFormalSpec : jsstring -> jsstring;
  documaticHtmlToMarkdown : jsstring -> jsstring;
  findOpenParen : TextDocument.t -> list compressedline -> Z -> Z -> Z * Z;
  quoteUDLIdentifier : jsstring -> Z -> jsstring;
  determineActiveParam : jsstring -> option Z;
  createDefinitionUri : jsstring -> jsstring -> jsstring -> jsstring;
  getTextForUri : jsstring -> ServerSpec -> option (list jsstring);
  getmacrosignature : ServerSpec -> MacroSignatureInput.t -> option jsstring;
  getmacroexpansion :
    ServerSpec -> SignatureHelpMacroContext.t -> option (list jsstring);
  query : ServerSpec -> jsstring -> list jsstring -> option (list Row.t);
  index : ServerSpec -> list jsstring -> option (list RoutineEntry.t)
}.

(** How a call ends: with a value, with a [TypeError] (a property of
    [undefined] was read), or without an answer within the fuel. *)
Inductive outcome (A : Type) : Type :=
| Ret (a : A)
| Throw
| OutOfFuel.
Arguments Ret {A} a.
Arguments Throw {A}.
Arguments OutOfFuel {A}.

(** State and error monad of the engine. *)
Definition M (A : Type) : Type := World -> outcome A * World.

Definition ret {A : Type} (a : A) : M A := fun w => (Ret a, w).

Definition bind {A B : Type} (m : M A) (k : A -> M B) : M B :=
  fun w =>
    match m w with
    | (Ret a, w') => k a w'
    | (Throw, w') => (Throw, w')
    | (OutOfFuel, w') => (OutOfFuel, w')
    end.

Definition throw {A : Type} : M A := fun w => (Throw, w).
Definition outOfFuel {A : Type} : M A := fun w => (OutOfFuel, w).
Definition get : M World := fun w => (Ret w, w).

Notation "'let*' x ':=' m 'in' k" := (bind m (fun x => k))
  (at level 10, x name, m at level 100, k at level 200).

Definition setMacroCache (c : SignatureHelpMacroContext.t) : M unit :=
  fun w => (Ret tt,
            {| signatureHelpMacroCache := Some c;
               signatureHelpDocumentationCache := signatureHelpDocumentationCache w;
               signatureHelpStartPosition := signatureHelpStartPosition w;
               requests := requests w |}).

Definition setDocumentationCache (c : option SignatureHelpDocCache.t) : M unit :=
  fun w => (Ret tt,
            {| signatureHelpMacroCache := signatureHelpMacroCache w;
               signatureHelpDocumentationCache := c;
               signatureHelpStartPosition := signatureHelpStartPosition w;
               requests := requests w |}).

Definition setStartPosition (p : option Position.t) : M unit :=
  fun w => (Ret tt,
            {| signatureHelpMacroCache := signatureHelpMacroCache w;
               signatureHelpDocumentationCache := signatureHelpDocumentationCache w;
               signatureHelpStartPosition := p;
               requests := requests w |}).

Definition send (r : Request) : M unit :=
  fun w => (Ret tt,
            {| signatureHelpMacroCache := signatureHelpMacroCache w;
               signatureHelpDocumentationCache := signatureHelpDocumentationCache w;
               signatureHelpStartPosition := signatureHelpStartPosition w;
               requests := requests w ++ [r] |}).

(** A value that must not be [undefined] where it is dereferenced. *)
Definition defined {A : Type} (o : option A) : M A :=
  match o with Some a => ret a | None => throw end.

(** The result of [emphasizeArgument] when the fuel sufficed. *)
Definition emphasized (o : option jsstring) : M jsstring :=
  match o with Some a => ret a | None => outOfFuel end.

(* ================================================================== *)
(** ** ccs/signatureHelp/routineSupport.ts: the routine resolver *)
(* ================================================================== *)

Module RoutineSignatureDetails.
Record t := {
  signature : SignatureInformation.t;
  start : Position.t;
  parameters : list jsstring
}.
End RoutineSignatureDetails.

Module MethodSignatureDetails.
Record t := {
  signature : SignatureInformation.t;
  start : Position.t
}.
End MethodSignatureDetails.

(** [/^[A-Za-z%]/.test(c)] *)
Definition startsLabel (c : jsstring) : bool :=
  match c with
  | x :: _ => Regex.inRange "A" "Z" x || Regex.inRange "a" "z" x || Regex.isChar "%" x
  | [] => false
  end.

(** The test of the [for] loop that looks for the label line: [line]
    starts with [label], and the label is followed by the end of the line,
    whitespace, an open parenthesis or a comment marker. *)
Definition isLabelLine (label line : jsstring) : bool :=
  if negb (startsWith line label) then false
  else
    let trimmed := trimEnd line in
    let afterLabel := sliceFrom line (length label) in
    (length trimmed =? length label)
    || startsWith afterLabel (js " ")
    || startsWith afterLabel [9%N]
    || startsWith afterLabel (js "(")
    || startsWith afterLabel (js ";")
    || startsWith afterLabel (js "##;")
    || startsWith afterLabel (js "//")
    || startsWith afterLabel (js "/*").

(** The [for] loop that looks for the label line; [i] is the index of the
    head of [routineLines].  The result is [labelLineIndex]. *)
Fixpoint findLabelLine (label : jsstring) (routineLines : list jsstring) (i : Z) : Z :=
  match routineLines with
  | [] => -1
  | line :: rest =>
      if isLabelLine label line then i
      else findLabelLine label rest (i + 1)
  end.

(** A continuation line starts with something other than a letter or [%],
    which would start a new label ([nextLineRaw] is the line without its
    comment). *)
Definition continues (raw : jsstring) : bool :=
  let nextLineRaw := stripRoutineComment raw in
  negb ((0 <? length nextLineRaw) && startsLabel (charAt nextLineRaw 0)).

(** [remainder] extended by the trimmed continuation line [nextTrimmed]. *)
Definition appendContinuation (remainder nextTrimmed : jsstring) : jsstring :=
  if 0 <? length nextTrimmed then
    (if (0 <? length remainder) && negb (endsWith remainder (js " "))
        && negb (startsWith nextTrimmed (js ","))
     then remainder ++ js " "
     else remainder) ++ nextTrimmed
  else remainder.

(** The [while (closeIdx === -1)] loop, entered with [closeIdx = -1];
    [following] are the lines after [searchIdx].  The result is the final
    [(remainder, closeIdx)]. *)
Fixpoint continuation (remainder : jsstring) (following : list jsstring)
  : jsstring * Z :=
  match following with
  | [] => (remainder, -1)
  | raw :: rest =>
      let nextLineRaw := stripRoutineComment raw in
      if negb (continues raw) then (remainder, -1)
      else
        let nextTrimmed := trim nextLineRaw in
        let remainder := appendContinuation remainder nextTrimmed in
        let closeIdx := indexOf (cu ")") remainder 0 in
        if closeIdx =? -1 then continuation remainder rest
        else (remainder, closeIdx)
  end.

(** The parameter text of the label line ([paramString] in the source):
    [labelLine] is [routineLines[labelLineIndex]] and [following] are the
    lines after it. *)
Definition labelParamString (labelLine : jsstring) (following : list jsstring)
  : jsstring :=
  let noComment := stripRoutineComment labelLine in
  let openParenIdx := indexOf (cu "(") noComment 0 in
  if openParenIdx >=? 0 then
    let remainder := sliceFrom noComment (openParenIdx + 1) in
    let closeIdx := indexOf (cu ")") remainder 0 in
    let '(remainder, closeIdx) :=
      if closeIdx =? -1 then continuation remainder following
      else (remainder, closeIdx) in
    if negb (closeIdx =? -1) then slice remainder 0 closeIdx
    else trim remainder
  else [].

(** The signature of the label whose line is [routineLines[labelLineIndex]]
    (the end of [getRoutineSignatureDetails], from [labelLine] on):
    [parenPos] is the position of the call's open parenthesis. *)
Definition signatureOfLabel (label : jsstring) (routineLines : list jsstring)
    (labelLineIndex parenLine parenPos : Z) : M RoutineSignatureDetails.t :=
  let* labelLine := defined (at_ routineLines labelLineIndex) in
  let paramString :=
    labelParamString labelLine
      (skipn (Z.to_nat (labelLineIndex + 1)) routineLines) in
  let params := splitRoutineParams paramString in
  let paramsText := join (js ", ") params in
  let signatureLabel := label ++ js "(" ++ paramsText ++ js ")" in
  let signature :=
    {| SignatureInformation.label := signatureLabel;
       SignatureInformation.parameters :=
         Some (routineParameterInfos signatureLabel params);
       SignatureInformation.documentation := None |} in
  ret {| RoutineSignatureDetails.signature := signature;
         RoutineSignatureDetails.start := Position.create parenLine (parenPos + 1);
         RoutineSignatureDetails.parameters := params |}.

(** [s.toLowerCase()] on the letters A to Z (no other character becomes
    one of [m], [a], [c]). *)
Definition toLowerCase (s : jsstring) : jsstring :=
  map (fun c => if Regex.inRange "A" "Z" c then (c + 32)%N else c) s.

Section Engine.

Variable env : Env.

Definition isRoutineLanguage (doc : TextDocument.t) : bool :=
  streq (TextDocument.languageId doc) (js "objectscript")
  || streq (TextDocument.languageId doc) (js "objectscript-int").

Definition makeIndexRequest (server : ServerSpec env) (names : list jsstring)
  : M (option (list RoutineEntry.t)) :=
  let* _ := send (Index names) in ret (index env server names).

Definition makeQueryRequest (server : ServerSpec env) (q : jsstring)
    (ps : list jsstring) : M (option (list Row.t)) :=
  let* _ := send (Query q ps) in ret (query env server q ps).

Definition makeMacroSignatureRequest (server : ServerSpec env)
    (d : MacroSignatureInput.t) : M (option jsstring) :=
  let* _ := send (GetMacroSignature d) in ret (getmacrosignature env server d).

Definition makeMacroExpansionRequest (server : ServerSpec env)
    (d : SignatureHelpMacroContext.t) : M (option (list jsstring)) :=
  let* _ := send (GetMacroExpansion d) in ret (getmacroexpansion env server d).

(** The lines of the routine [routineName]: the live buffer for the current
    routine, the fetched source otherwise; [None] when it cannot be had. *)
Definition routineLinesOf (doc : TextDocument.t) (routineName currentRoutine : jsstring)
    (paramsUri : jsstring) (server : ServerSpec env) : M (option (list jsstring)) :=
  if streq routineName currentRoutine && isRoutineLanguage doc then
    ret (Some (splitLines (TextDocument.getFullText doc)))
  else
    let* indexResp := makeIndexRequest server [routineName ++ js ".int"] in
    match indexResp with
    | None | Some [] => ret None
    | Some (routineEntry :: _) =>
        if negb (streq (RoutineEntry.status routineEntry) []) then ret None
        else
          let ext :=
            match RoutineEntry.others routineEntry with
            | Some others =>
                if existsb (fun other =>
                              streq (toLowerCase (sliceFrom other (-3))) (js "mac"))
                     others
                then js ".mac" else js ".int"
            | None => js ".int"
            end in
          let routineUri := createDefinitionUri env paramsUri routineName ext in
          if streq routineUri [] then ret None
          else
            match getTextForUri env routineUri server with
            | None | Some [] => ret None
            | Some routineLines => ret (Some routineLines)
            end
    end.

(** The name of the routine the document is, when it is one
    ([currentRoutine]). *)
Definition currentRoutineOf (doc : TextDocument.t) (parsed : list compressedline)
  : jsstring :=
  if isRoutineLanguage doc then
    match at_ parsed 0 with
    | Some tokens0 =>
        if Z.of_nat (List.length tokens0) >? 1 then
          match at_ tokens0 1 with
          | Some tk =>
              TextDocument.getText doc
                (Range.create
                   (Position.create 0 (Token.p tk))
                   (Position.create 0 (Token.p tk + Token.c tk)))
          | None => []
          end
        else []
    | None => []
    end
  else [].

(** Try to build signature help details for an extrinsic routine call
    preceding the paren at (line, token). *)
Definition getRoutineSignatureDetails (doc : TextDocument.t)
    (parsed : list compressedline) (parenLine parenToken : Z) (paramsUri : jsstring)
    (server : ServerSpec env) : M (option RoutineSignatureDetails.t) :=
  match match at_ parsed parenLine with
        | Some tokens => at_ tokens parenToken
        | None => None
        end with
  | None => ret None
  | Some parenTok =>
      let parenPos := Token.p parenTok in
      let callPrefix :=
        TextDocument.getText doc
          (Range.create (Position.create parenLine 0)
                        (Position.create parenLine parenPos)) in
      match extractRoutineCall callPrefix with
      | None => ret None
      | Some callContext =>
          let label := RoutineCallContext.label callContext in
          let routineName := RoutineCallContext.routine callContext in
          let currentRoutine := currentRoutineOf doc parsed in
          let routineName :=
            if streq routineName [] then currentRoutine else routineName in
          if streq routineName [] then ret None
          else
            let* fetched := routineLinesOf doc routineName currentRoutine paramsUri server in
            match fetched with
            | None => ret None
            | Some routineLines =>
                let labelLineIndex := findLabelLine label routineLines 0 in
                if labelLineIndex =? -1 then ret None
                else
                  let* details :=
                    signatureOfLabel label routineLines labelLineIndex parenLine
                      (Token.p parenTok) in
                  ret (Some details)
            end
      end
  end.

(* ------------------------------------------------------------------ *)
(** *** providers/signatureHelp.ts: [onSignatureHelp] *)

(** The [for] loop over the tokens of the cursor's line: the index of the
    first token whose span contains [character], else of the last token
    visited, else [thistoken] as it was. *)
Fixpoint locateToken (tokens : compressedline) (i character thistoken : Z) : Z :=
  match tokens with
  | [] => thistoken
  | tk :: rest =>
      let symbolstart := Token.p tk in
      let symbolend := Token.p tk + Token.c tk in
      let thistoken := i in
      if (character >=? symbolstart) && (character <=? symbolend)
      then thistoken (* We found the right symbol in the line *)
      else locateToken rest (i + 1) character thistoken
  end.

(** [[cos_comment_attrindex, cos_dcom_attrindex, cos_str_attrindex].includes(a)] *)
Definition commentOrString (a : Z) : bool :=
  (a =? cos_comment_attrindex (ld env)) || (a =? cos_dcom_attrindex (ld env))
  || (a =? cos_str_attrindex (ld env)).

Definition isMacroToken (tk : Token.t) : bool :=
  (Token.l tk =? cos_langindex (ld env)) && (Token.s tk =? cos_macro_attrindex (ld env)).

Definition isMemberToken (tk : Token.t) : bool :=
  (Token.l tk =? cos_langindex (ld env))
  && ((Token.s tk =? cos_method_attrindex (ld env))
      || (Token.s tk =? cos_mem_attrindex (ld env))).

Definition withDocumentation (sig : SignatureInformation.t) (d : option MarkupContent)
  : SignatureInformation.t :=
  {| SignatureInformation.label := SignatureInformation.label sig;
     SignatureInformation.parameters := SignatureInformation.parameters sig;
     SignatureInformation.documentation := d |}.

Definition withActiveParameter (h : SignatureHelp.t) (a : option Z) : SignatureHelp.t :=
  {| SignatureHelp.signatures := SignatureHelp.signatures h;
     SignatureHelp.activeSignature := SignatureHelp.activeSignature h;
     SignatureHelp.activeParameter := a |}.

(** [h.signatures[0].documentation = d]; a [TypeError] when there is no
    signature. *)
Definition setDocumentation0 (h : SignatureHelp.t) (d : option MarkupContent)
  : M SignatureHelp.t :=
  match SignatureHelp.signatures h with
  | [] => throw
  | sig :: rest =>
      ret {| SignatureHelp.signatures := withDocumentation sig d :: rest;
             SignatureHelp.activeSignature := SignatureHelp.activeSignature h;
             SignatureHelp.activeParameter := SignatureHelp.activeParameter h |}
  end.

(** [signatureHelpDocumentationCache?.doc] *)
Definition cachedDoc (w : World) : option MarkupContent :=
  match signatureHelpDocumentationCache w with
  | Some c => SignatureHelpDocCache.doc c
  | None => None
  end.

Definition macroSignatureInput (maccon : MacroContext.t) (macroname : jsstring)
  : MacroSignatureInput.t :=
  {| MacroSignatureInput.docname := MacroContext.docname maccon;
     MacroSignatureInput.macroname := macroname;
     MacroSignatureInput.superclasses := MacroContext.superclasses maccon;
     MacroSignatureInput.includes := MacroContext.includes maccon;
     MacroSignatureInput.includegenerators := MacroContext.includegenerators maccon;
     MacroSignatureInput.imports := MacroContext.imports maccon;
     MacroSignatureInput.mode := MacroContext.mode maccon |}.

Definition macroCacheOf (maccon : MacroContext.t) (macroname arguments : jsstring)
  : SignatureHelpMacroContext.t :=
  {| SignatureHelpMacroContext.docname := MacroContext.docname maccon;
     SignatureHelpMacroContext.macroname := macroname;
     SignatureHelpMacroContext.superclasses := MacroContext.superclasses maccon;
     SignatureHelpMacroContext.includes := MacroContext.includes maccon;
     SignatureHelpMacroContext.includegenerators := MacroContext.includegenerators maccon;
     SignatureHelpMacroContext.imports := MacroContext.imports maccon;
     SignatureHelpMacroContext.mode := MacroContext.mode maccon;
     SignatureHelpMacroContext.arguments := arguments |}.

Definition queryNewAndOnNew : jsstring :=
  js "SELECT FormalSpec, ReturnType, Description, Stub, Origin FROM %Dictionary.CompiledMethod WHERE Parent = ? AND (Name = ? OR Name = ?)".
Definition queryMethod : jsstring :=
  js "SELECT FormalSpec, ReturnType, Description, Stub FROM %Dictionary.CompiledMethod WHERE Parent = ? AND Name = ?".
Definition queryIndexMethod : jsstring :=
  js "SELECT Description, FormalSpec, ReturnType FROM %Dictionary.CompiledIndexMethod WHERE Name = ? AND parent->Parent = ? AND parent->Name = ?".
Definition queryQueryMethod : jsstring :=
  js "SELECT Description, FormalSpec, ReturnType FROM %Dictionary.CompiledQueryMethod WHERE Name = ? AND parent->Parent = ? AND parent->Name = ?".
Definition queryPropertyMethod : jsstring :=
  js "SELECT Description, FormalSpec, ReturnType FROM %Dictionary.CompiledPropertyMethod WHERE Name = ? AND parent->Parent = ? AND parent->Name = ?".
Definition queryConstraintMethod : jsstring :=
  js "SELECT Description, FormalSpec, ReturnType FROM %Dictionary.CompiledConstraintMethod WHERE Name = ? AND parent->Parent = ? AND parent->Name = ?".

(** The member query: for [%New], the information for both [%New] and
    [%OnNew]. *)
Definition makeMemberQuery (server : ServerSpec env) (member baseclass unquotedname : jsstring)
  : M (option (list Row.t)) :=
  if streq member (js "%New")
  then makeQueryRequest server queryNewAndOnNew [baseclass; unquotedname; js "%OnNew"]
  else makeQueryRequest server queryMethod [baseclass; unquotedname].

Definition isKind (stubarr : list jsstring) (k : jsstring) : bool :=
  match at_ stubarr 2 with Some x => streq x k | None => false end.

(** The metadata of a method generated by member inheritance comes from the
    proper subtable (the block under [Stub !== ""], the same in both
    places of [onSignatureHelp]). *)
Definition resolveStub (server : ServerSpec env) (baseclass : jsstring) (row0 : Row.t)
  : M Row.t :=
  let memobj := row0 in
  if negb (streq (Row.Stub row0) []) then
    let stubarr := split (cu ".") (Row.Stub row0) in
    let stubquery : jsstring := [] in
    let stubquery := if isKind stubarr (js "i") then queryIndexMethod else stubquery in
    let stubquery := if isKind stubarr (js "q") then queryQueryMethod else stubquery in
    let stubquery := if isKind stubarr (js "a") then queryPropertyMethod else stubquery in
    let stubquery := if isKind stubarr (js "n") then queryConstraintMethod else stubquery in
    if negb (streq stubquery []) then
      let* stubrespdata :=
        makeQueryRequest server stubquery
          [orEmpty (at_ stubarr 1); baseclass; orEmpty (at_ stubarr 0)] in
      match stubrespdata with
      | Some (r :: _) => ret r (* We got data back *)
      | _ => ret memobj
      end
    else ret memobj
  else ret memobj.

(** [Math.min(Math.max(a, 0), n - 1)] *)
Definition clampIndex (a n : Z) : Z := Z.min (Z.max a 0) (n - 1).

Definition paramCount (sig : SignatureInformation.t) : Z :=
  match SignatureInformation.parameters sig with
  | Some l => Z.of_nat (List.length l)
  | None => 0
  end.

Definition isOpenOrOpenId (member : jsstring) : bool :=
  streq member (js "%Open") || streq member (js "%OpenId").

(** The label with its [As] suffix, for a member that is not [%New]. *)
Definition memberLabel (raw member baseclass returnType : jsstring) : jsstring :=
  if isOpenOrOpenId member then raw ++ js " As " ++ baseclass
  else if negb (streq returnType []) then raw ++ js " As " ++ returnType
  else raw.

Definition markdown (v : jsstring) : MarkupContent := {| kind := Markdown; value := v |}.

Definition signatureOptions : option DocOptions :=
  Some {| context := Some signature; boldParameter := None; showHeaderInHover := None |}.

Definition newSignature (sig : SignatureInformation.t) (a : option Z) : SignatureHelp.t :=
  {| SignatureHelp.signatures := [sig];
     SignatureHelp.activeSignature := Some 0;
     SignatureHelp.activeParameter := a |}.

(** [doc.getText(Range.create(Position.create(line, character - 1), position))] *)
Definition charBefore (doc : TextDocument.t) (position : Position.t) : jsstring :=
  TextDocument.getText doc
    (Range.create
       (Position.create (Position.line position) (Position.character position - 1))
       position).

(** [Math.min(Math.max(a ?? 0, 0), n - 1)] when there are parameters, else
    [null]. *)
Definition boundedIndexOf (active : option Z) (n : Z) : option Z :=
  if negb (n =? 0)
  then Some (clampIndex (match active with Some a => a | None => 0 end) n)
  else None.

(** The branch of a retrigger that is not an open parenthesis
    ([isRetrigger && triggerCharacter !== "("]). *)
Definition retrigger (fuel : nat) (doc : TextDocument.t) (server : ServerSpec env)
    (position : Position.t) (activeSignatureHelp : option SignatureHelp.t)
  : M (option SignatureHelp.t) :=
  let* w := get in
  match activeSignatureHelp, signatureHelpStartPosition w with
  | Some ash, Some startPosition =>
      let prevchar := charBefore doc position in
      if streq prevchar (js ")") then
        (* The user closed the signature *)
        let* _ := setDocumentationCache None in
        let* _ := setStartPosition None in
        ret None
      else
        (* Determine the active parameter *)
        let active :=
          determineActiveParam env
            (TextDocument.getText doc (Range.create startPosition position)) in
        let ash := withActiveParameter ash active in
        match signatureHelpDocumentationCache w with
        | Some cache =>
            match SignatureHelpDocCache.type cache, active with
            | macro, Some a =>
                (* This is a macro with active parameter *)
                let* macroCache := defined (signatureHelpMacroCache w) in
                let* arguments :=
                  emphasized
                    (emphasizeArgument fuel
                       (SignatureHelpMacroContext.arguments macroCache) (a + 1)) in
                let expinputdata :=
                  SignatureHelpMacroContext.withArguments macroCache arguments in
                let* exprespdata := makeMacroExpansionRequest server expinputdata in
                match exprespdata with
                | Some (e :: es) =>
                    let d := Some (markdown (markdownifyExpansion (e :: es))) in
                    let* _ :=
                      setDocumentationCache
                        (Some {| SignatureHelpDocCache.type := macro;
                                 SignatureHelpDocCache.doc := d |}) in
                    let* ash := setDocumentation0 ash d in
                    ret (Some ash)
                | _ => ret (Some ash)
                end
            | routine, _ =>
                let* signatureInfo := defined (hd_error (SignatureHelp.signatures ash)) in
                let boundedIndex := boundedIndexOf active (paramCount signatureInfo) in
                let ash := withActiveParameter ash boundedIndex in
                let docContent :=
                  buildRoutineDocumentation signatureInfo boundedIndex signatureOptions in
                let* _ :=
                  setDocumentationCache
                    (Some {| SignatureHelpDocCache.type := routine;
                             SignatureHelpDocCache.doc := docContent |}) in
                let* ash := setDocumentation0 ash docContent in
                ret (Some ash)
            | _, _ =>
                (* This is a method or a macro without an active parameter *)
                let* ash := setDocumentation0 ash (SignatureHelpDocCache.doc cache) in
                ret (Some ash)
            end
        | None => ret (Some ash)
        end
  | _, _ =>
      (* Can't do anything with a retrigger that lacks an active signature *)
      ret None
  end.

(** The macro resolver (the block under "This is a macro", the same in
    both places of [onSignatureHelp] but for the active parameter and the
    start position): the signature of the macro named by [macrotok] on
    [line].  [startAt] computes the start position of the session and
    [active] the active parameter, which is the one emphasized in the
    expansion request.  [None] when the macro signature was not found. *)
Definition resolveMacro (fuel : nat) (doc : TextDocument.t) (parsed : list compressedline)
    (server : ServerSpec env) (line tokenIndex : Z) (macrotok : Token.t)
    (startAt : M Position.t)
    (active : Position.t -> SignatureInformation.t -> option Z)
  : M (option SignatureHelp.t) :=
  (* Get the details of this class *)
  let maccon := getMacroContext env doc parsed line in
  (* Get the full range of the macro *)
  let macrorange :=
    findFullRange env line parsed tokenIndex (Token.p macrotok)
      (Token.p macrotok + Token.c macrotok) in
  let macroname := sliceFrom (TextDocument.getText doc macrorange) 3 in
  (* Get the macro signature from the server *)
  let* respdata :=
    makeMacroSignatureRequest server (macroSignatureInput maccon macroname) in
  match respdata with
  | Some sigResp =>
      if negb (streq sigResp []) then
        (* The macro signature was found *)
        let sigtext := spaceAfterCommas (removeWhitespace sigResp) in
        let sig :=
          {| SignatureInformation.label := sigtext;
             SignatureInformation.parameters := Some (formalSpecToParamsArr sigtext);
             SignatureInformation.documentation := None |} in
        let* startPosition := startAt in
        let activeparam := active startPosition sig in
        (* Get the macro expansion with the parameter emphasized *)
        let macroCache := macroCacheOf maccon macroname sigtext in
        let* _ := setMacroCache macroCache in
        let* arguments :=
          emphasized
            (emphasizeArgument fuel sigtext
               (match activeparam with Some a => a + 1 | None => 1 end)) in
        let expinputdata := SignatureHelpMacroContext.withArguments macroCache arguments in
        let* exprespdata := makeMacroExpansionRequest server expinputdata in
        let* sig :=
          match exprespdata with
          | Some (e :: es) =>
              let d := Some (markdown (markdownifyExpansion (e :: es))) in
              let* _ :=
                setDocumentationCache
                  (Some {| SignatureHelpDocCache.type := macro;
                           SignatureHelpDocCache.doc := d |}) in
              ret (withDocumentation sig d)
          | _ => ret sig
          end in
        let* _ := setStartPosition (Some startPosition) in
        ret (Some (newSignature sig activeparam))
      else ret None
  | None => ret None
  end.

(** The signature of a class member built from a formal spec: the cache of
    its description when documentation is enabled, the parameters of [raw]
    and the label [label]. *)
Definition memberSignature (uri raw label description : jsstring)
  : M SignatureInformation.t :=
  let sig :=
    {| SignatureInformation.label := raw;
       SignatureInformation.parameters := Some [];
       SignatureInformation.documentation := None |} in
  let* sig :=
    if signaturehelp_documentation env uri then
      let d := Some (markdown (documaticHtmlToMarkdown env description)) in
      let* _ :=
        setDocumentationCache
          (Some {| SignatureHelpDocCache.type := method;
                   SignatureHelpDocCache.doc := d |}) in
      ret (withDocumentation sig d)
    else ret sig in
  ret {| SignatureInformation.label := label;
         SignatureInformation.parameters := Some (formalSpecToParamsArr raw);
         SignatureInformation.documentation := SignatureInformation.documentation sig |}.

(** [%OnNew] has been overridden for this class: the second row of the
    response, whose origin is not the library default. *)
Definition onNewOverridden (rows : list Row.t) : option Row.t :=
  match rows with
  | [_; onNew] =>
      if negb (streq (Row.Origin onNew) (js "%Library.RegisteredObject"))
      then Some onNew else None
  | _ => None
  end.

(** The description shown for [%New]: that of [%OnNew] unless it is blank. *)
Definition newDescription (rows : list Row.t) (onNew : Row.t) : jsstring :=
  if negb (length (trim (Row.Description onNew)) =? 0)
  then Row.Description onNew
  else match rows with r0 :: _ => Row.Description r0 | [] => [] end.

(** [Math.min(Math.max(a, 0), n - 1)] when there are parameters and [a] is
    not [null], else [null]. *)
Definition boundedActive (active : option Z) (n : Z) : option Z :=
  match active with
  | Some a => if n >? 0 then Some (clampIndex a n) else None
  | None => None
  end.

(** The class-member resolver when a [(] was typed after [membertok], the
    token before the cursor's. *)
Definition memberOpen (doc : TextDocument.t) (parsed : list compressedline)
    (server : ServerSpec env) (uri : jsstring) (position : Position.t)
    (thistoken : Z) (membertok : Token.t) : M (flow (option SignatureHelp.t)) :=
  let line := Position.line position in
  (* Get the full text of the member *)
  let member :=
    TextDocument.getText doc
      (Range.create (Position.create line (Token.p membertok))
                    (Position.create line (Token.p membertok + Token.c membertok))) in
  let unquotedname := quoteUDLIdentifier env member 0 in
  (* Get the base class that this member is in *)
  let baseclass := getClassMemberContext env doc parsed (thistoken - 2) line server in
  if streq baseclass [] then
    (* If we couldn't determine the class, don't return anything *)
    ret (Return None)
  else
    (* Get the method signature *)
    let* respdata := makeMemberQuery server member baseclass unquotedname in
    match respdata with
    | Some (row0 :: rows') =>
        (* We got data back *)
        if streq member (js "%New") then
          match onNewOverridden (row0 :: rows') with
          | Some onNew =>
              let raw := beautifyFormalSpec env (Row.FormalSpec onNew) in
              let* sig :=
                memberSignature uri raw (raw ++ js " As " ++ baseclass)
                  (newDescription (row0 :: rows') onNew) in
              let* _ := setStartPosition (Some position) in
              ret (Continue (Some (newSignature sig (Some 0))))
          | None =>
              (* If there's no %OnNew, then %New shouldn't have arguments *)
              ret (Continue None)
          end
        else
          let* memobj := resolveStub server baseclass row0 in
          if negb (streq (Row.FormalSpec memobj) []) then
            let raw := beautifyFormalSpec env (Row.FormalSpec memobj) in
            let* sig :=
              memberSignature uri raw
                (memberLabel raw member baseclass (Row.ReturnType memobj))
                (Row.Description memobj) in
            let* _ := setStartPosition (Some position) in
            ret (Continue (Some (newSignature sig (Some 0))))
          else ret (Continue None)
    | _ => ret (Continue None)
    end.

(** The routine resolver when a [(] was typed, tried when the other two
    found nothing. *)
Definition routineOpen (doc : TextDocument.t) (parsed : list compressedline)
    (server : ServerSpec env) (uri : jsstring) (line thistoken : Z)
  : M (option SignatureHelp.t) :=
  let* routineDetails := getRoutineSignatureDetails doc parsed line thistoken uri server in
  match routineDetails with
  | Some routineDetails =>
      let sig := RoutineSignatureDetails.signature routineDetails in
      let initialActive := if negb (paramCount sig =? 0) then Some 0 else None in
      let initialDoc := buildRoutineDocumentation sig initialActive signatureOptions in
      let* _ :=
        setDocumentationCache
          (Some {| SignatureHelpDocCache.type := routine;
                   SignatureHelpDocCache.doc := initialDoc |}) in
      let* _ := setStartPosition (Some (RoutineSignatureDetails.start routineDetails)) in
      ret (Some (newSignature (withDocumentation sig initialDoc) initialActive))
  | None => ret None
  end.

(** The branch of an open parenthesis: this is potentially the start of a
    signature.  [prevtok] is the token before the cursor's. *)
Definition openParen (fuel : nat) (doc : TextDocument.t) (parsed : list compressedline)
    (server : ServerSpec env) (uri : jsstring) (position : Position.t)
    (thistoken : Z) (prevtok : Token.t) (activeSignatureHelp : option SignatureHelp.t)
  : M (option SignatureHelp.t) :=
  let line := Position.line position in
  let* newsignature :=
    if isMacroToken prevtok then
      (* This is a macro *)
      let* r :=
        resolveMacro fuel doc parsed server line (thistoken - 1) prevtok
          (ret position) (fun _ _ => Some 0) in
      ret (Continue r)
    else if isMemberToken prevtok then
      (* This is a method or multidimensional property *)
      memberOpen doc parsed server uri position thistoken prevtok
    else ret (Continue None) in
  match newsignature with
  | Return r => ret r
  | Continue newsignature =>
      let* newsignature :=
        match newsignature with
        | Some s => ret (Some s)
        | None => routineOpen doc parsed server uri line thistoken
        end in
      match newsignature with
      | Some s => ret (Some s)
      | None =>
          match activeSignatureHelp with
          | Some ash =>
              let* w := get in
              match signatureHelpDocumentationCache w with
              | Some cache =>
                  let* ash := setDocumentation0 ash (SignatureHelpDocCache.doc cache) in
                  ret (Some ash)
              | None => ret (Some ash)
              end
          | None => ret None
          end
      end
  end.

(** The class-member resolver in the argument list that opens at
    [parentok]; [membertok] is the token before it. *)
Definition memberInvoked (doc : TextDocument.t) (parsed : list compressedline)
    (server : ServerSpec env) (uri : jsstring) (position : Position.t)
    (sigstartln sigstarttkn : Z) (membertok : Token.t) (parentok : option Token.t)
  : M (option SignatureHelp.t) :=
  (* Get the full text of the member *)
  let member :=
    TextDocument.getText doc
      (Range.create (Position.create sigstartln (Token.p membertok))
                    (Position.create sigstartln (Token.p membertok + Token.c membertok))) in
  let unquotedname := quoteUDLIdentifier env member 0 in
  (* Get the base class that this member is in *)
  let baseclass :=
    getClassMemberContext env doc parsed (sigstarttkn - 2) sigstartln server in
  if streq baseclass [] then
    (* If we couldn't determine the class, don't return anything *)
    ret None
  else
    (* Get the method signature *)
    let* respdata := makeMemberQuery server member baseclass unquotedname in
    match respdata with
    | Some (row0 :: rows') =>
        (* We got data back *)
        if streq member (js "%New") then
          match onNewOverridden (row0 :: rows') with
          | Some onNew =>
              let raw := beautifyFormalSpec env (Row.FormalSpec onNew) in
              let* sig :=
                memberSignature uri raw (raw ++ js " As " ++ baseclass)
                  (newDescription (row0 :: rows') onNew) in
              let* parentok := defined parentok in
              let startPosition := Position.create sigstartln (Token.p parentok + 1) in
              let* _ := setStartPosition (Some startPosition) in
              (* [newsignature] is assigned here and never returned *)
              ret None
          | None =>
              (* If there's no %OnNew, then %New shouldn't have arguments *)
              ret None
          end
        else
          let* memobj := resolveStub server baseclass row0 in
          if negb (streq (Row.FormalSpec memobj) []) then
            let raw := beautifyFormalSpec env (Row.FormalSpec memobj) in
            let* sig :=
              memberSignature uri raw
                (memberLabel raw member baseclass (Row.ReturnType memobj))
                (Row.Description memobj) in
            let* parentok := defined parentok in
            let startPosition := Position.create sigstartln (Token.p parentok + 1) in
            let active :=
              determineActiveParam env
                (TextDocument.getText doc (Range.create startPosition position)) in
            let* _ := setStartPosition (Some startPosition) in
            ret (Some (newSignature sig (boundedActive active (paramCount sig))))
          else ret None
    | _ => ret None
    end.

Definition before (a b : Position.t) : bool :=
  (Position.line a <? Position.line b)
  || ((Position.line a =? Position.line b)
      && (Position.character a <? Position.character b)).

(** The routine resolver in the argument list that opens at
    [(sigstartln, sigstarttkn)]. *)
Definition routineInvoked (doc : TextDocument.t) (parsed : list compressedline)
    (server : ServerSpec env) (uri : jsstring) (position : Position.t)
    (sigstartln sigstarttkn : Z) : M (option SignatureHelp.t) :=
  let* routineDetails :=
    getRoutineSignatureDetails doc parsed sigstartln sigstarttkn uri server in
  match routineDetails with
  | Some routineDetails =>
      let startPos := RoutineSignatureDetails.start routineDetails in
      let beforeStart := before position startPos in
      let activeParamValue :=
        if beforeStart then Some 0
        else determineActiveParam env
               (TextDocument.getText doc (Range.create startPos position)) in
      let sig := RoutineSignatureDetails.signature routineDetails in
      let boundedIndex := boundedIndexOf activeParamValue (paramCount sig) in
      let docContent := buildRoutineDocumentation sig boundedIndex signatureOptions in
      let* _ :=
        setDocumentationCache
          (Some {| SignatureHelpDocCache.type := routine;
                   SignatureHelpDocCache.doc := docContent |}) in
      let* _ := setStartPosition (Some startPos) in
      ret (Some (newSignature (withDocumentation sig docContent) boundedIndex))
  | None => ret None
  end.

(** The branch of a comma or of an invocation: this is potentially the
    argument list for a signature. *)
Definition invoked (fuel : nat) (doc : TextDocument.t) (parsed : list compressedline)
    (server : ServerSpec env) (uri : jsstring) (position : Position.t) (thistoken : Z)
  : M (option SignatureHelp.t) :=
  (* Loop backwards in the file and look for the first open parenthesis
     that isn't closed *)
  let '(sigstartln, sigstarttkn) :=
    findOpenParen env doc parsed (Position.line position) thistoken in
  if negb (sigstartln =? -1) && negb (sigstarttkn =? -1) then
    (* We found an open parenthesis token that wasn't closed *)
    let* tokens := defined (at_ parsed sigstartln) in
    (* Check the language and attribute of the token before the paren *)
    let* prevtok := defined (at_ tokens (sigstarttkn - 1)) in
    if isMacroToken prevtok then
      (* This is a macro *)
      resolveMacro fuel doc parsed server sigstartln (sigstarttkn - 1) prevtok
        (let* parentok := defined (at_ tokens sigstarttkn) in
         ret (Position.create sigstartln (Token.p parentok + 1)))
        (fun startPosition sig =>
           match determineActiveParam env
                   (TextDocument.getText doc (Range.create startPosition position)) with
           | Some a =>
               if paramCount sig >? 0 then Some (clampIndex a (paramCount sig))
               else Some a
           | None => None
           end)
    else if isMemberToken prevtok then
      (* This is a method or multidimensional property *)
      memberInvoked doc parsed server uri position sigstartln sigstarttkn prevtok
        (at_ tokens sigstarttkn)
    else routineInvoked doc parsed server uri position sigstartln sigstarttkn
  else ret None.

Definition onSignatureHelp (fuel : nat) (params : SignatureHelpParams.t)
  : M (option SignatureHelp.t) :=
  let uri := SignatureHelpParams.uri params in
  let position := SignatureHelpParams.position params in
  match SignatureHelpParams.context params with
  | None => ret None
  | Some context =>
  match documents_get env uri with
  | None => ret None
  | Some doc =>
  match getParsedDocument env uri with
  | None => ret None
  | Some parsed =>
      let server := getServerSpec env uri in
      (* We always base our return value on the triggerCharacter *)
      let triggerCharacter :=
        match SignatureHelpContext.triggerKind context with
        | Invoked => Some (charBefore doc position)
        | _ => SignatureHelpContext.triggerCharacter context
        end in
      let activeSignatureHelp := SignatureHelpContext.activeSignatureHelp context in
      let* tokens := defined (at_ parsed (Position.line position)) in
      let thistoken := locateToken tokens 0 (Position.character position) (-1) in
      if thistoken =? -1 then ret None
      else
        let* tk := defined (at_ tokens thistoken) in
        let triggerlang := Token.l tk in
        let triggerattr := Token.s tk in
        let quotes :=
          Z.of_nat
            (List.length
               (split quote
                  (TextDocument.getText doc
                     (Range.create (Position.create (Position.line position) 0)
                                   position)))) - 1 in
        if (* Only compute signature help in ObjectScript *)
           negb (triggerlang =? cos_langindex (ld env))
           (* Don't compute signature help inside of a string literal *)
           || (quotes mod 2 =? 1)
        then
          match activeSignatureHelp with
          | Some ash =>
              let* w := get in
              let* ash := setDocumentation0 ash (cachedDoc w) in
              ret (Some ash)
          | None => ret None
          end
        else if SignatureHelpContext.isRetrigger context
                && negb (isChar triggerCharacter (js "("))
        then retrigger fuel doc server position activeSignatureHelp
        else if isChar triggerCharacter (js "(")
                && (triggerlang =? cos_langindex (ld env))
                && negb (commentOrString triggerattr)
                && (thistoken >? 0)
        then
          let* prevtok := defined (at_ tokens (thistoken - 1)) in
          openParen fuel doc parsed server uri position thistoken prevtok
            activeSignatureHelp
        else if negb (SignatureHelpContext.isRetrigger context)
                && (triggerlang =? cos_langindex (ld env))
                && negb (commentOrString triggerattr)
                && (isChar triggerCharacter (js ",")
                    || match SignatureHelpContext.triggerKind context with
                       | Invoked => true
                       | _ => false
                       end)
        then invoked fuel doc parsed server uri position thistoken
        else ret None
  end end end.

(* ------------------------------------------------------------------ *)
(** *** ccs/hover/routineSupport.ts and ccs/hover/classSupport.ts *)

Record Hover := { contents : MarkupContent; range : Range.t }.

Definition hoverOptions : option DocOptions :=
  Some {| context := Some hover; boldParameter := None;
          showHeaderInHover := Some false |}.

Definition hoverOf (docContent : option MarkupContent) (position : Position.t)
  : option Hover :=
  match docContent with
  | None => None
  | Some d => Some {| contents := d; range := Range.create position position |}
  end.

(** The active parameter computed by [getRoutineHover] ([activeIndex]). *)
Definition routineHoverIndex (doc : TextDocument.t) (position startPos : Position.t)
    (sig : SignatureInformation.t) : option Z :=
  if before position startPos then Some 0
  else
    let spanText := TextDocument.getText doc (Range.create startPos position) in
    let computed := determineActiveParam env spanText in
    if paramCount sig >? 0
    then Some (clampIndex (match computed with Some a => a | None => 0 end)
                          (paramCount sig))
    else None.

(** Try to build a hover result for an extrinsic routine call parameter at
    the given location. *)
Definition getRoutineHover (doc : TextDocument.t) (parsed : list compressedline)
    (position : Position.t) (tokenIndex : Z) (uri : jsstring) (server : ServerSpec env)
  : M (option Hover) :=
  match match at_ parsed (Position.line position) with
        | Some tokens => at_ tokens tokenIndex
        | None => None
        end with
  | None => ret None
  | Some token =>
      if negb (Token.l token =? cos_langindex (ld env)) then ret None
      else if commentOrString (Token.s token) then ret None
      else
        let '(parenLine, parenToken) :=
          findOpenParen env doc parsed (Position.line position) tokenIndex in
        if (parenLine =? -1) || (parenToken =? -1) then ret None
        else
          let* routineDetails :=
            getRoutineSignatureDetails doc parsed parenLine parenToken uri server in
          match routineDetails with
          | None => ret None
          | Some routineDetails =>
              let activeIndex :=
                routineHoverIndex doc position (RoutineSignatureDetails.start routineDetails)
                  (RoutineSignatureDetails.signature routineDetails) in
              let docContent :=
                buildRoutineDocumentation (RoutineSignatureDetails.signature routineDetails) activeIndex
                  hoverOptions in
              ret (hoverOf docContent position)
          end
  end.

(** The [else if] chain of [getMethodSignatureDetails] that picks the
    subtable of a stub. *)
Definition stubQueryOf (kind : jsstring) : jsstring :=
  if streq kind (js "i") then queryIndexMethod
  else if streq kind (js "q") then queryQueryMethod
  else if streq kind (js "a") then queryPropertyMethod
  else if streq kind (js "n") then queryConstraintMethod
  else [].

(** The columns of a row are strings here, so the [typeof] guards of the
    source keep them as they are. *)
Definition getMethodSignatureDetails (doc : TextDocument.t)
    (parsed : list compressedline) (parenLine parenToken : Z) (server : ServerSpec env)
  : M (option MethodSignatureDetails.t) :=
  match at_ parsed parenLine with
  | None => ret None
  | Some tokens =>
  match at_ tokens parenToken with
  | None => ret None
  | Some parenTok =>
  match at_ tokens (parenToken - 1) with
  | None => ret None
  | Some calleeToken =>
      if negb (isMemberToken calleeToken) then ret None
      else
        let member :=
          TextDocument.getText doc
            (Range.create
               (Position.create parenLine (Token.p calleeToken))
               (Position.create parenLine (Token.p calleeToken + Token.c calleeToken))) in
        let unquotedName := quoteUDLIdentifier env member 0 in
        let baseclass :=
          getClassMemberContext env doc parsed (parenToken - 2) parenLine server in
        if streq baseclass [] then ret None
        else
          let* rows := makeMemberQuery server member baseclass unquotedName in
          match rows with
          | None | Some [] => ret None
          | Some (row0 :: rows') =>
              let start := Position.create parenLine (Token.p parenTok + 1) in
              if streq member (js "%New") then
                match onNewOverridden (row0 :: rows') with
                | Some onNew =>
                    let formalSpec := Row.FormalSpec onNew in
                    if streq formalSpec [] then ret None
                    else
                      let raw := beautifyFormalSpec env formalSpec in
                      ret (Some
                             {| MethodSignatureDetails.signature :=
                                  {| SignatureInformation.label :=
                                       raw ++ js " As " ++ baseclass;
                                     SignatureInformation.parameters :=
                                       Some (formalSpecToParamsArr raw);
                                     SignatureInformation.documentation := None |};
                                MethodSignatureDetails.start := start |})
                | None => ret None
                end
              else
                let methodRow := row0 in
                let stubValue := Row.Stub methodRow in
                let* methodRow :=
                  if negb (streq stubValue []) then
                    let stubParts := split (cu ".") stubValue in
                    if Z.of_nat (List.length stubParts) >=? 3 then
                      let stubQuery := stubQueryOf (orEmpty (at_ stubParts 2)) in
                      if negb (streq stubQuery []) then
                        let* stubRows :=
                          makeQueryRequest server stubQuery
                            [orEmpty (at_ stubParts 1); baseclass;
                             orEmpty (at_ stubParts 0)] in
                        match stubRows with
                        | Some (r :: _) => ret r
                        | _ => ret methodRow
                        end
                      else ret methodRow
                    else ret methodRow
                  else ret methodRow in
                let formalSpec := Row.FormalSpec methodRow in
                if streq formalSpec [] then ret None
                else
                  let raw := beautifyFormalSpec env formalSpec in
                  ret (Some
                         {| MethodSignatureDetails.signature :=
                              {| SignatureInformation.label :=
                                   memberLabel raw member baseclass
                                     (Row.ReturnType methodRow);
                                 SignatureInformation.parameters :=
                                   Some (formalSpecToParamsArr raw);
                                 SignatureInformation.documentation := None |};
                            MethodSignatureDetails.start := start |})
          end
  end end end.

(** The active parameter computed by [getClassMethodHover] ([activeIndex]). *)
Definition methodHoverIndex (doc : TextDocument.t) (position startPos : Position.t)
    (sig : SignatureInformation.t) : option Z :=
  if before position startPos then
    if paramCount sig >? 0 then Some 0 else None
  else
    let spanText := TextDocument.getText doc (Range.create startPos position) in
    let computed := determineActiveParam env spanText in
    if paramCount sig >? 0
    then Some (clampIndex (match computed with Some a => a | None => 0 end)
                          (paramCount sig))
    else None.

Definition getClassMethodHover (doc : TextDocument.t) (parsed : list compressedline)
    (position : Position.t) (tokenIndex : Z) (server : ServerSpec env)
  : M (option Hover) :=
  let '(parenLine, parenToken) :=
    findOpenParen env doc parsed (Position.line position) tokenIndex in
  if (parenLine =? -1) || (parenToken =? -1) then ret None
  else
    let* details := getMethodSignatureDetails doc parsed parenLine parenToken server in
    match details with
    | None => ret None
    | Some details =>
        let activeIndex :=
          methodHoverIndex doc position (MethodSignatureDetails.start details)
            (MethodSignatureDetails.signature details) in
        let docContent :=
          buildRoutineDocumentation (MethodSignatureDetails.signature details) activeIndex
            hoverOptions in
        ret (hoverOf docContent position)
    end.

End Engine.

(* ================================================================== *)
(** ** Collaborators that are not among the sources *)
(* ================================================================== *)

(** The scan of [determineActiveParam]: [n] commas were counted so far,
    [prev] is the previous character (empty at the start). *)
Fixpoint countTopLevelCommas (inQuote : bool) (parenDepth n : Z) (prev : jsstring)
    (text : jsstring) : Z :=
  match text with
  | [] => n
  | char :: rest =>
      if (char =? quote)%N && negb (streq prev (js "\")) then
        countTopLevelCommas (negb inQuote) parenDepth n [char] rest
      else if negb inQuote && (char =? cu "(")%N then
        countTopLevelCommas inQuote (parenDepth + 1) n [char] rest
      else if negb inQuote && (char =? cu ")")%N && (parenDepth >? 0) then
        countTopLevelCommas inQuote (parenDepth - 1) n [char] rest
      else if negb inQuote && (char =? cu ",")%N && (parenDepth =? 0) then
        countTopLevelCommas inQuote parenDepth (n + 1) [char] rest
      else countTopLevelCommas inQuote parenDepth n [char] rest
  end.

(** Modelled from the spec: [determineActiveParam] of utils/functions, which
    is not among the sources.  "Pure function over the text typed between
    the signature's start position and the cursor. Counts unescaped
    top-level commas outside quoted regions and outside nested parens (same
    discipline as 4.3/4.4) to produce a raw index." *)
Definition determineActiveParamOfSpec (text : jsstring) : option Z :=
  Some (countTopLevelCommas false 0 0 [] text).

(** Documents, tokens and a remote service to run the engine on. *)
Module Example.

(** The offsets at which the lines of [content] start, after the first. *)
Fixpoint lineStarts (content : jsstring) (i : Z) : list Z :=
  match content with
  | [] => []
  | c :: rest =>
      if (c =? 10)%N then (i + 1) :: lineStarts rest (i + 1)
      else lineStarts rest (i + 1)
  end.

Definition offsetAt (content : jsstring) (pos : Position.t) : Z :=
  let lineOffsets := 0 :: lineStarts content 0 in
  let n := Z.of_nat (List.length lineOffsets) in
  let line := Position.line pos in
  if line >=? n then length content
  else if line <? 0 then 0
  else
    let lineOffset := nth (Z.to_nat line) lineOffsets 0 in
    let nextLineOffset :=
      if line + 1 <? n then nth (Z.to_nat (line + 1)) lineOffsets 0
      else length content in
    Z.max (Z.min (lineOffset + Position.character pos) nextLineOffset) lineOffset.

(** A text document with line feeds as line ends: [getText] resolves
    positions to offsets as the TextDocument of the language server
    library does. *)
Definition textDocument (languageId content : jsstring) : TextDocument.t :=
  {| TextDocument.languageId := languageId;
     TextDocument.getText := fun r =>
       let a := offsetAt content (Range.start r) in
       let b := offsetAt content (Range.end_ r) in
       slice content (Z.min a b) (Z.max a b);
     TextDocument.getFullText := content |}.

Definition languageDefinitions : LanguageDefinitions :=
  {| cos_langindex := 1;
     cos_comment_attrindex := 3;
     cos_dcom_attrindex := 4;
     cos_str_attrindex := 5;
     cos_macro_attrindex := 6;
     cos_method_attrindex := 7;
     cos_mem_attrindex := 8 |}.

Definition token (p c s : Z) : Token.t :=
  {| Token.p := p; Token.c := c; Token.l := 1; Token.s := s |}.

Definition macroContext : MacroContext.t :=
  {| MacroContext.docname := js "Demo.Person.cls";
     MacroContext.superclasses := [js "%Persistent"];
     MacroContext.includes := [js "%occStatus"];
     MacroContext.includegenerators := [];
     MacroContext.imports := [];
     MacroContext.mode := [] |}.

(** The remote service of an example: the answers to the four requests. *)
Record Remote := {
  macrosignature : option jsstring;
  macroexpansion : option (list jsstring);
  rows : option (list Row.t);
  routineLines : option (list jsstring)
}.

Definition noRemote : Remote :=
  {| macrosignature := None; macroexpansion := None; rows := None;
     routineLines := None |}.

(** The collaborators of an example: one document with its token lines,
    the open parenthesis [openParenAt] found by [findOpenParen], the class
    [baseclass] of the member and the remote service [remote]. *)
Definition env (doc : TextDocument.t) (parsed : list compressedline)
    (openParenAt : Z * Z) (baseclass : jsstring) (remote : Remote) : Env :=
  {| ld := languageDefinitions;
     ServerSpec := unit;
     documents_get := fun _ => Some doc;
     getParsedDocument := fun _ => Some parsed;
     getServerSpec := fun _ => tt;
     signaturehelp_documentation := fun _ => true;
     getMacroContext := fun _ _ _ => macroContext;
     findFullRange := fun line _ _ s e =>
       Range.create (Position.create line s) (Position.create line e);
     getClassMemberContext := fun _ _ _ _ _ => baseclass;
     beautifyFormalSpec := fun s => js "(" ++ s ++ js ")";
     documaticHtmlToMarkdown := fun s => s;
     findOpenParen := fun _ _ _ _ => openParenAt;
     quoteUDLIdentifier := fun s _ => s;
     determineActiveParam := determineActiveParamOfSpec;
     createDefinitionUri := fun _ name ext => js "isfs://demo/" ++ name ++ ext;
     getTextForUri := fun _ _ => routineLines remote;
     getmacrosignature := fun _ _ => macrosignature remote;
     getmacroexpansion := fun _ _ => macroexpansion remote;
     query := fun _ _ _ => rows remote;
     index := fun _ _ =>
       match routineLines remote with
       | Some _ => Some [{| RoutineEntry.status := []; RoutineEntry.others := None |}]
       | None => None
       end |}.

Definition idle : World :=
  {| signatureHelpMacroCache := None;
     signatureHelpDocumentationCache := None;
     signatureHelpStartPosition := None;
     requests := [] |}.

End Example.

(* ================================================================== *)
(** ** ccs/signatureHelp/routineSupport.ts: [escapeHtml] *)
(* ================================================================== *)

(** [s.replace(/c/g, rep)] for one character [c]. *)
Definition replaceChar (c : N) (rep : jsstring) (s : jsstring) : jsstring :=
  flat_map (fun d => if (d =? c)%N then rep else [d]) s.

(** The apostrophe. *)
Definition apostrophe : N := 39%N.

Definition escapeHtml (text : jsstring) : jsstring :=
  replaceChar apostrophe (js "&#39;")
    (replaceChar quote (js "&quot;")
       (replaceChar (cu ">") (js "&gt;")
          (replaceChar (cu "<") (js "&lt;")
             (replaceChar (cu "&") (js "&amp;") text)))).

(* ================================================================== *)
(** ** client/src/ccs/formattingControl.ts *)
(* ================================================================== *)

(** A [Set<string>]: the members in insertion order, each once. *)
Module UriSet.

Definition t := list jsstring.

Definition empty : t := [].

Definition has (s : t) (uri : jsstring) : bool := existsb (streq uri) s.

Definition add (s : t) (uri : jsstring) : t :=
  if has s uri then s else s ++ [uri].

Definition delete (s : t) (uri : jsstring) : t :=
  filter (fun x => negb (streq uri x)) s.

End UriSet.

(** A [Map<string, number>]: the entries in insertion order, a key once. *)
Module UriMap.

Definition t := list (jsstring * Z).

Definition empty : t := [].

Fixpoint get (m : t) (uri : jsstring) : option Z :=
  match m with
  | [] => None
  | (k, v) :: rest => if streq uri k then Some v else get rest uri
  end.

Definition has (m : t) (uri : jsstring) : bool :=
  match get m uri with Some _ => true | None => false end.

Fixpoint set (m : t) (uri : jsstring) (v : Z) : t :=
  match m with
  | [] => [(uri, v)]
  | (k, x) :: rest =>
      if streq uri k then (k, v) :: rest else (k, x) :: set rest uri v
  end.

Definition delete (m : t) (uri : jsstring) : t :=
  filter (fun e => negb (streq uri (fst e))) m.

End UriMap.

Module FormattingControl.

(** The four module variables. *)
Record state := {
  skipUris : UriSet.t;
  autoSkipUris : UriSet.t;
  manualAllowances : UriMap.t;
  compileBlocks : UriMap.t
}.

Definition initial : state :=
  {| skipUris := UriSet.empty; autoSkipUris := UriSet.empty;
     manualAllowances := UriMap.empty; compileBlocks := UriMap.empty |}.

Definition manualAllowanceMs : Z := 1000.
Definition compileBlockMs : Z := 8000.

Definition withSkipUris (st : state) (s : UriSet.t) : state :=
  {| skipUris := s; autoSkipUris := autoSkipUris st;
     manualAllowances := manualAllowances st; compileBlocks := compileBlocks st |}.

Definition withAutoSkipUris (st : state) (s : UriSet.t) : state :=
  {| skipUris := skipUris st; autoSkipUris := s;
     manualAllowances := manualAllowances st; compileBlocks := compileBlocks st |}.

Definition withManualAllowances (st : state) (m : UriMap.t) : state :=
  {| skipUris := skipUris st; autoSkipUris := autoSkipUris st;
     manualAllowances := m; compileBlocks := compileBlocks st |}.

Definition withCompileBlocks (st : state) (m : UriMap.t) : state :=
  {| skipUris := skipUris st; autoSkipUris := autoSkipUris st;
     manualAllowances := manualAllowances st; compileBlocks := m |}.

Definition purgeExpiredEntries (uri : jsstring) (now : Z) (st : state) : state :=
  let st :=
    match UriMap.get (manualAllowances st) uri with
    | Some manualExpiry =>
        if manualExpiry <? now
        then withManualAllowances st (UriMap.delete (manualAllowances st) uri)
        else st
    | None => st
    end in
  match UriMap.get (compileBlocks st) uri with
  | Some compileExpiry =>
      if compileExpiry <? now
      then withCompileBlocks st (UriMap.delete (compileBlocks st) uri)
      else st
  | None => st
  end.

Definition scheduleFormatSkip (uri : jsstring) (st : state) : state :=
  let st := withSkipUris st (UriSet.add (skipUris st) uri) in
  let st := withAutoSkipUris st (UriSet.add (autoSkipUris st) uri) in
  withManualAllowances st (UriMap.delete (manualAllowances st) uri).

(** [now] is the value of [Date.now()]. *)
Definition consumeFormatSkip (uri : jsstring) (now : Z) (st : state) : bool * state :=
  let st := purgeExpiredEntries uri now st in
  let manualExpiry := UriMap.get (manualAllowances st) uri in
  if match manualExpiry with Some e => e >=? now | None => false end then
    let st := withSkipUris st (UriSet.delete (skipUris st) uri) in
    let st := withAutoSkipUris st (UriSet.delete (autoSkipUris st) uri) in
    (false, st)
  else if UriMap.has (compileBlocks st) uri then (true, st)
  else if UriSet.has (skipUris st) uri then
    let st := withSkipUris st (UriSet.delete (skipUris st) uri) in
    let st := withAutoSkipUris st (UriSet.delete (autoSkipUris st) uri) in
    (true, st)
  else (false, st).

Definition clearFormatSkip (uri : jsstring) (st : state) : state :=
  let st := withSkipUris st (UriSet.delete (skipUris st) uri) in
  let st := withAutoSkipUris st (UriSet.delete (autoSkipUris st) uri) in
  withManualAllowances st (UriMap.delete (manualAllowances st) uri).

Definition removeFormatSkip (uri : jsstring) (st : state) : state :=
  let st := withSkipUris st (UriSet.delete (skipUris st) uri) in
  let st := withAutoSkipUris st (UriSet.delete (autoSkipUris st) uri) in
  let st := withManualAllowances st (UriMap.delete (manualAllowances st) uri) in
  withCompileBlocks st (UriMap.delete (compileBlocks st) uri).

(** [now] is the value of [Date.now()]. *)
Definition blockFormatAfterCompile (uri : jsstring) (now : Z) (st : state) : state :=
  let st := withSkipUris st (UriSet.add (skipUris st) uri) in
  let st := withAutoSkipUris st (UriSet.delete (autoSkipUris st) uri) in
  let st := withCompileBlocks st (UriMap.set (compileBlocks st) uri (now + compileBlockMs)) in
  withManualAllowances st (UriMap.delete (manualAllowances st) uri).

(** [now] is the value of [Date.now()]. *)
Definition allowManualFormat (uri : jsstring) (now : Z) (st : state) : state :=
  if UriSet.has (autoSkipUris st) uri then st
  else
    let st :=
      withManualAllowances st (UriMap.set (manualAllowances st) uri (now + manualAllowanceMs)) in
    let st := withCompileBlocks st (UriMap.delete (compileBlocks st) uri) in
    withSkipUris st (UriSet.delete (skipUris st) uri).

(** A call of one of the exported functions. *)
Inductive call :=
| ScheduleFormatSkip (uri : jsstring)
| ConsumeFormatSkip (uri : jsstring) (now : Z)
| ClearFormatSkip (uri : jsstring)
| RemoveFormatSkip (uri : jsstring)
| BlockFormatAfterCompile (uri : jsstring) (now : Z)
| AllowManualFormat (uri : jsstring) (now : Z).

Definition target (c : call) : jsstring :=
  match c with
  | ScheduleFormatSkip uri | ConsumeFormatSkip uri _ | ClearFormatSkip uri
  | RemoveFormatSkip uri | BlockFormatAfterCompile uri _ | AllowManualFormat uri _ => uri
  end.

Definition perform (st : state) (c : call) : state :=
  match c with
  | ScheduleFormatSkip uri => scheduleFormatSkip uri st
  | ConsumeFormatSkip uri now => snd (consumeFormatSkip uri now st)
  | ClearFormatSkip uri => clearFormatSkip uri st
  | RemoveFormatSkip uri => removeFormatSkip uri st
  | BlockFormatAfterCompile uri now => blockFormatAfterCompile uri now st
  | AllowManualFormat uri now => allowManualFormat uri now st
  end.

(** The state after a sequence of calls, from the initial state. *)
Definition after (calls : list call) : state := fold_left perform calls initial.

(** What the module holds about [uri]. *)
Definition view (st : state) (uri : jsstring) : bool * bool * option Z * option Z :=
  (UriSet.has (skipUris st) uri, UriSet.has (autoSkipUris st) uri,
   UriMap.get (manualAllowances st) uri, UriMap.get (compileBlocks st) uri).

(** An expiry time once the entries that expired before [now] are purged. *)
Definition purged (now : Z) (expiry : option Z) : option Z :=
  match expiry with
  | Some e => if e <? now then None else Some e
  | None => None
  end.

(** The answer of [consumeFormatSkip] at [now] and what it leaves about the
    URI, from what was held about it ([view]). *)
Definition consumed (now : Z) (v : bool * bool * option Z * option Z)
  : bool * (bool * bool * option Z * option Z) :=
  let '(skip, auto, manual, compile) := v in
  let manual := purged now manual in
  let compile := purged now compile in
  match manual with
  | Some _ => (false, (false, false, manual, compile))
  | None =>
      match compile with
      | Some _ => (true, (skip, auto, manual, compile))
      | None =>
          if skip then (true, (false, false, manual, compile))
          else (false, (skip, auto, manual, compile))
      end
  end.

(** The entries of [uri] agree with each other: an automatic skip is a
    pending skip, and a manual allowance excludes a pending skip and a
    compile block. *)
Definition consistent (st : state) (uri : jsstring) : Prop :=
  let '(skip, auto, manual, compile) := view st uri in
  (auto = true -> skip = true)
  /\ (manual <> None -> skip = false /\ compile = None).

End FormattingControl.

(** The requests and sessions the statements below are run on. *)
Module Scenario.

Import Example.

Definition uri : jsstring := js "isfs://demo/Demo.Person.cls".

Definition classLanguage : jsstring := js "objectscript-class".

(** Attributes of the tokens, other than those of [languageDefinitions]. *)
Definition command : Z := 32.
Definition delimiter : Z := 13.
Definition localVariable : Z := 14.
Definition label_ : Z := 17.
Definition routineName : Z := 18.

Definition request (line character : Z) (context : SignatureHelpContext.t)
  : SignatureHelpParams.t :=
  {| SignatureHelpParams.uri := uri;
     SignatureHelpParams.position := Position.create line character;
     SignatureHelpParams.context := Some context |}.

(** An open parenthesis was typed. *)
Definition typedOpenParen : SignatureHelpContext.t :=
  {| SignatureHelpContext.triggerKind := TriggerCharacter;
     SignatureHelpContext.triggerCharacter := Some (js "(");
     SignatureHelpContext.isRetrigger := false;
     SignatureHelpContext.activeSignatureHelp := None |}.

(** [c] was typed while [active] is shown. *)
Definition retriggered (c : jsstring) (active : SignatureHelp.t)
  : SignatureHelpContext.t :=
  {| SignatureHelpContext.triggerKind := TriggerCharacter;
     SignatureHelpContext.triggerCharacter := Some c;
     SignatureHelpContext.isRetrigger := true;
     SignatureHelpContext.activeSignatureHelp := Some active |}.

(** *** A routine call: [ DO Label^Routine(] *)

Definition callDocument : TextDocument.t :=
  textDocument classLanguage (js " DO Label^Routine(").

Definition callTokens : list compressedline :=
  [[token 1 2 command; token 4 5 label_; token 9 1 delimiter;
    token 10 7 routineName; token 17 1 delimiter]].

Definition routineRemote : Remote :=
  {| macrosignature := None; macroexpansion := None; rows := None;
     routineLines := Some [js "Label(p1,p2)"; []] |}.

Definition callEnv : Env := env callDocument callTokens (0, 4) [] routineRemote.

(** *** A method call with more commas than parameters: [ do ..Save(a,b,] *)

Definition saveDocument : TextDocument.t :=
  textDocument classLanguage (js " do ..Save(a,b,").

Definition saveTokens : list compressedline :=
  [[token 1 2 command; token 4 2 delimiter; token 6 4 7; token 10 1 delimiter;
    token 11 1 localVariable; token 12 1 delimiter; token 13 1 localVariable;
    token 14 1 delimiter]].

Definition saveEnv : Env :=
  env saveDocument saveTokens (0, 3) (js "Demo.Person") noRemote.

Definition saveDescription : MarkupContent := markdown (js "Saves the object.").

(** The signature of a method with two parameters, as [onSignatureHelp]
    builds it. *)
Definition saveSignature : SignatureInformation.t :=
  {| SignatureInformation.label := js "(x As %String, y As %String) As %Status";
     SignatureInformation.parameters :=
       Some (formalSpecToParamsArr (js "(x As %String, y As %String)"));
     SignatureInformation.documentation := Some saveDescription |}.

Definition saveActive : SignatureHelp.t := newSignature saveSignature (Some 1).

(** The session of [saveSignature], which started after the parenthesis. *)
Definition saveSession : World :=
  {| signatureHelpMacroCache := None;
     signatureHelpDocumentationCache :=
       Some {| SignatureHelpDocCache.type := method;
               SignatureHelpDocCache.doc := Some saveDescription |};
     signatureHelpStartPosition := Some (Position.create 0 11);
     requests := [] |}.

(** *** A constructor call: [ set p=##class(Demo.Person).%New(] *)

Definition newDocument : TextDocument.t :=
  textDocument classLanguage (js " set p=##class(Demo.Person).%New(").

Definition newTokens : list compressedline :=
  [[token 1 3 command; token 5 1 localVariable; token 6 1 delimiter;
    token 7 7 delimiter; token 14 1 delimiter; token 15 11 delimiter;
    token 26 1 delimiter; token 27 1 delimiter; token 28 4 7;
    token 32 1 delimiter]].

(** The rows of a class that inherits both [%New] and [%OnNew]. *)
Definition inheritedRows : list Row.t :=
  [{| Row.FormalSpec := js "initvalue:%Library.String";
      Row.ReturnType := js "%Library.RegisteredObject";
      Row.Description := js "Creates a new instance of object in memory.";
      Row.Stub := [];
      Row.Origin := js "%Library.RegisteredObject" |};
   {| Row.FormalSpec := [];
      Row.ReturnType := js "%Library.Status";
      Row.Description := js "This callback method is invoked by the %New method.";
      Row.Stub := [];
      Row.Origin := js "%Library.RegisteredObject" |}].

Definition newEnv : Env :=
  env newDocument newTokens (0, 9) (js "Demo.Person")
    {| macrosignature := None; macroexpansion := None;
       rows := Some inheritedRows; routineLines := None |}.

(** *** A macro call: [ write $$$MyMacro(] *)

Definition macroDocument : TextDocument.t :=
  textDocument classLanguage (js " write $$$MyMacro(").

Definition macroTokens : list compressedline :=
  [[token 1 5 command; token 7 10 6; token 17 1 delimiter]].

Definition expansion : list jsstring := [js "set x = arg1 + arg2"].

(** The remote service answers [signature] for the macro. *)
Definition macroEnv (signature : jsstring) : Env :=
  env macroDocument macroTokens (0, 2) []
    {| macrosignature := Some signature; macroexpansion := Some expansion;
       rows := None; routineLines := None |}.

(** *** A closed argument list: [ write $$$MyMacro(1,2)] *)

Definition closedDocument : TextDocument.t :=
  textDocument classLanguage (js " write $$$MyMacro(1,2)").

Definition closedTokens : list compressedline :=
  [[token 1 5 command; token 7 10 6; token 17 1 delimiter; token 18 1 delimiter;
    token 19 1 delimiter; token 20 1 delimiter; token 21 1 delimiter]].

Definition closedEnv : Env :=
  env closedDocument closedTokens (-1, -1) [] noRemote.

Definition macroArguments : SignatureHelpMacroContext.t :=
  macroCacheOf macroContext (js "MyMacro") (js "(arg1, arg2)").

Definition macroDocumentation : MarkupContent :=
  markdown (markdownifyExpansion expansion).

Definition macroSignature : SignatureInformation.t :=
  {| SignatureInformation.label := js "(arg1, arg2)";
     SignatureInformation.parameters := Some (formalSpecToParamsArr (js "(arg1, arg2)"));
     SignatureInformation.documentation := Some macroDocumentation |}.

(** The session of the macro's signature. *)
Definition macroSession : World :=
  {| signatureHelpMacroCache := Some macroArguments;
     signatureHelpDocumentationCache :=
       Some {| SignatureHelpDocCache.type := macro;
               SignatureHelpDocCache.doc := Some macroDocumentation |};
     signatureHelpStartPosition := Some (Position.create 0 18);
     requests := [] |}.

(** *** A constructor call in a class that overrides [%OnNew] *)

Definition overriddenRows : list Row.t :=
  [{| Row.FormalSpec := js "initvalue:%Library.String";
      Row.ReturnType := js "%Library.RegisteredObject";
      Row.Description := js "Creates a new instance of object in memory.";
      Row.Stub := [];
      Row.Origin := js "%Library.RegisteredObject" |};
   {| Row.FormalSpec := js "name:%Library.String";
      Row.ReturnType := js "%Library.Status";
      Row.Description := js "Sets the name of the person.";
      Row.Stub := [];
      Row.Origin := js "Demo.Person" |}].

Definition overriddenEnv : Env :=
  env newDocument newTokens (0, 9) (js "Demo.Person")
    {| macrosignature := None; macroexpansion := None;
       rows := Some overriddenRows; routineLines := None |}.

(** *** The method of [saveDocument], known to the remote service *)

Definition saveRows : list Row.t :=
  [{| Row.FormalSpec := js "x:%String,y:%String";
      Row.ReturnType := js "%Status";
      Row.Description := js "Saves the object.";
      Row.Stub := [];
      Row.Origin := js "Demo.Person" |}].

Definition savedEnv : Env :=
  env saveDocument saveTokens (0, 3) (js "Demo.Person")
    {| macrosignature := None; macroexpansion := None;
       rows := Some saveRows; routineLines := None |}.

(** What [savedEnv] answers after [a,b,] was typed: the second parameter is
    the active one. *)
Definition savedHelp : SignatureHelp.t :=
  newSignature
    {| SignatureInformation.label := js "(x:%String,y:%String) As %Status";
       SignatureInformation.parameters :=
         Some (formalSpecToParamsArr (js "(x:%String,y:%String)"));
       SignatureInformation.documentation := Some saveDescription |}
    (Some 1).

Definition savedSession : World :=
  {| signatureHelpMacroCache := None;
     signatureHelpDocumentationCache :=
       Some {| SignatureHelpDocCache.type := method;
               SignatureHelpDocCache.doc := Some saveDescription |};
     signatureHelpStartPosition := Some (Position.create 0 11);
     requests := [Query queryMethod [js "Demo.Person"; js "Save"]] |}.

(** *** A cursor inside a string literal that was opened and not closed *)




End Scenario.

(* ================================================================== *)
(** ** Vocabulary of the statements *)
(* ================================================================== *)

(** No character of [s] is whitespace. *)
Definition noWhitespace (s : jsstring) : Prop :=
  Forall (fun c => isWhitespace c = false) s.

(** [t] occurs in [s]. *)
Fixpoint occursIn (t s : jsstring) : bool :=
  startsWith s t || match s with [] => false | _ :: rest => occursIn t rest end.

Fixpoint takeWhile {A : Type} (f : A -> bool) (l : list A) : list A :=
  match l with
  | [] => []
  | x :: rest => if f x then x :: takeWhile f rest else []
  end.

(** The text of a parameter list that starts on [labelLine] after its open
    parenthesis, joined with the continuation lines among [following]:
    the lines up to the first one that starts a new label. *)
Definition joinedParameterText (labelLine : jsstring) (following : list jsstring)
  : jsstring :=
  let noComment := stripRoutineComment labelLine in
  fold_left appendContinuation
    (map (fun raw => trim (stripRoutineComment raw)) (takeWhile continues following))
    (sliceFrom noComment (indexOf (cu "(") noComment 0 + 1)).

(** The entity [escapeHtml] writes for a character, or the character. *)
Definition htmlEntity (c : N) : jsstring :=
  if (c =? cu "&")%N then js "&amp;"
  else if (c =? cu "<")%N then js "&lt;"
  else if (c =? cu ">")%N then js "&gt;"
  else if (c =? quote)%N then js "&quot;"
  else if (c =? apostrophe)%N then js "&#39;"
  else [c].

(** [tk] spans the character offset [character] (both ends included). *)
Definition spans (tk : Token.t) (character : Z) : bool :=
  (character >=? Token.p tk) && (character <=? Token.p tk + Token.c tk).


(** An identifier of the routine call patterns: [[%A-Za-z][\w%]*]. *)
Definition isIdentifier (s : jsstring) : bool :=
  match s with
  | c :: rest => identStart c && forallb identRest rest
  | [] => false
  end.

(** The expression has no capture group. *)
Fixpoint groupless (r : Regex.re) : bool :=
  match r with
  | Regex.Seq a b => groupless a && groupless b
  | Regex.Opt a => groupless a
  | Regex.Group _ _ => false
  | _ => true
  end.

(** The session variables of signatureHelp.ts are the same in [w] and [w']. *)
Definition sameSession (w w' : World) : Prop :=
  signatureHelpMacroCache w' = signatureHelpMacroCache w
  /\ signatureHelpDocumentationCache w' = signatureHelpDocumentationCache w
  /\ signatureHelpStartPosition w' = signatureHelpStartPosition w.

(** Every span of [infos] cuts the parameter of the same index out of
    [signatureLabel]. *)
Definition spansCut (signatureLabel : jsstring) (infos : list ParameterInformation.t)
    (params : list jsstring) : Prop :=
  Forall2
    (fun info param =>
       exists s e,
         ParameterInformation.label info = Span s e
         /\ slice signatureLabel s e = param)
    infos params.

(** [details] is the signature of a label with the parameters it lists,
    for a call whose open parenthesis is the token [parenTok] of line
    [parenLine]. *)
Definition routineDetailsOf (details : RoutineSignatureDetails.t) (parenLine : Z)
    (parenTok : Token.t) : Prop :=
  let sig := RoutineSignatureDetails.signature details in
  let params := RoutineSignatureDetails.parameters details in
  exists label infos,
    isIdentifier label = true
    /\ SignatureInformation.label sig = label ++ js "(" ++ join (js ", ") params ++ js ")"
    /\ SignatureInformation.parameters sig = Some infos
    /\ spansCut (SignatureInformation.label sig) infos params
    /\ SignatureInformation.documentation sig = None
    /\ RoutineSignatureDetails.start details
       = Position.create parenLine (Token.p parenTok + 1).

(** [w'] is [w] after at most [n] requests were sent, all of them SQL
    queries, and with the same session. *)
Definition afterQueries (n : nat) (w w' : World) : Prop :=
  sameSession w w'
  /\ exists sent,
       requests w' = requests w ++ sent
       /\ (List.length sent <= n)%nat
       /\ Forall (fun r => exists q ps, r = Query q ps) sent.

(** [h] shows the one signature [sig], and its active parameter is an index
    of the parameters of [sig], or none when [sig] has no parameter. *)
Definition showsOne (h : SignatureHelp.t) (sig : SignatureInformation.t) : Prop :=
  SignatureHelp.signatures h = [sig]
  /\ SignatureHelp.activeSignature h = Some 0
  /\ match SignatureHelp.activeParameter h with
     | Some i => 0 <= i < paramCount sig
     | None => paramCount sig = 0
     end.

(** What the routine resolver leaves behind for the open parenthesis at the
    token [thistoken] of [line]: without a result the session is as it was;
    with a result the session holds the documentation that the result shows
    and starts after the parenthesis. *)
Definition routineAnswer (parsed : list compressedline) (line thistoken : Z)
    (result : option SignatureHelp.t) (w w' : World) : Prop :=
  signatureHelpMacroCache w' = signatureHelpMacroCache w
  /\ match result with
     | None => sameSession w w'
     | Some h =>
         exists sig v tokens parenTok,
           showsOne h sig
           /\ SignatureInformation.documentation sig
              = Some {| kind := Markdown; value := v |}
           /\ signatureHelpDocumentationCache w'
              = Some {| SignatureHelpDocCache.type := routine;
                        SignatureHelpDocCache.doc :=
                          SignatureInformation.documentation sig |}
           /\ at_ parsed line = Some tokens
           /\ at_ tokens thistoken = Some parenTok
           /\ signatureHelpStartPosition w'
              = Some (Position.create line (Token.p parenTok + 1))
     end.




(** [s] has neither [<] nor [>]. *)
Definition noAngleBracket (s : jsstring) : Prop :=
  Forall (fun c => c <> cu "<" /\ c <> cu ">") s.

(** The options ask for the code block with the raw signature label at the
    head of a hover. *)
Definition showsHeader (options : option DocOptions) : bool :=
  match options with
  | Some o =>
      match context o with
      | Some hover => match showHeaderInHover o with Some b => b | None => true end
      | _ => false
      end
  | None => false
  end.

(** The quote flag after the code points [pre]: a quoted substring is in
    progress when an odd number of double quotes was passed. *)
Definition quoteFlagAfter (pre : list jsstring) : bool :=
  Nat.odd (List.length (filter (fun c => streq c [quote]) pre)).

(** The number of occurrences of the code point [c] among [rest] that are
    outside a quoted substring, [seen] being the code points before
    [rest]. *)
Fixpoint outsideQuotes (c : jsstring) (seen rest : list jsstring) : Z :=
  match rest with
  | [] => 0
  | x :: rest' =>
      (if streq x c && negb (quoteFlagAfter seen) then 1 else 0)
      + outsideQuotes c (seen ++ [x]) rest'
  end.

(** The brace depth after [pre]: the open braces less the closing braces,
    those inside quoted substrings apart. *)
Definition braceDepthAfter (pre : list jsstring) : Z :=
  outsideQuotes (js "{") [] pre - outsideQuotes (js "}") [] pre.

(** The paren depth after [pre]. *)
Definition parenDepthAfter (pre : list jsstring) : Z :=
  outsideQuotes (js "(") [] pre - outsideQuotes (js ")") [] pre.

(** The code point at index [i] of [chars] is a comma of the outermost
    list: the text before it leaves the quote flag false, the brace depth
    zero and the paren depth exactly 1. *)
Definition topLevelComma (chars : list jsstring) (i : nat) : bool :=
  match nth_error chars i with
  | Some c =>
      streq c (js ",")
      && negb (quoteFlagAfter (firstn i chars))
      && (braceDepthAfter (firstn i chars) =? 0)
      && (parenDepthAfter (firstn i chars) =? 1)
  | None => false
  end.

(** The indices below [n] of the commas of the outermost list. *)
Definition topLevelCommas (chars : list jsstring) (n : nat) : list Z :=
  map Z.of_nat (filter (topLevelComma chars) (seq 0 n)).

(** The spans that end at the commas [cuts], the first from [start] and
    each next one from the offset after the comma before it. *)
Fixpoint closedSpans (start : Z) (cuts : list Z) : list ParameterInformation.t :=
  match cuts with
  | [] => []
  | c :: rest => ParameterInformation.create (Span start c) :: closedSpans (c + 1) rest
  end.

(** The offset after the last of the commas [cuts], or [start]. *)
Fixpoint lastStart (start : Z) (cuts : list Z) : Z :=
  match cuts with
  | [] => start
  | c :: rest => lastStart (c + 1) rest
  end.

(** The formal-spec parameter splitter in the words of the specification
    (4.3): a comma terminates a parameter when, and only when, the quote
    flag is false, the brace depth is zero and the paren depth is exactly
    1; the first parameter begins at offset 1 and the last one ends before
    the last character; the string [()], whitespace apart, has no
    parameter.  This is the definition the source is compared with. *)
Definition splitParametersOfSpec (formalSpec : jsstring)
  : list ParameterInformation.t :=
  if streq (removeWhitespace formalSpec) (js "()") then []
  else
    let chars := arrayFrom formalSpec in
    let cuts := topLevelCommas chars (List.length chars) in
    closedSpans 1 cuts
      ++ [ParameterInformation.create (Span (lastStart 1 cuts) (length formalSpec - 1))].

(** The formal spec [(a, {b,c}, d)]. *)
Definition bracedSpec : jsstring := js "(a, {b,c}, d)".

(** The rows of the subtable query for the stub of the member row [row0]:
    the query is made when the row has a stub of three parts or more whose
    third part names a subtable ([i], [q], [a] or [n]). *)
Definition stubRowsOf (env : Env) (server : ServerSpec env) (baseclass : jsstring)
    (row0 : Row.t) : option (list Row.t) :=
  let stubParts := split (cu ".") (Row.Stub row0) in
  let stubQuery := stubQueryOf (orEmpty (at_ stubParts 2)) in
  if negb (streq (Row.Stub row0) [])
     && (Z.of_nat (List.length stubParts) >=? 3)
     && negb (streq stubQuery [])
  then query env server stubQuery
         [orEmpty (at_ stubParts 1); baseclass; orEmpty (at_ stubParts 0)]
  else None.

(** [methodRow] is the row the signature of [member] is built from: for
    [%New], the row of an overridden [%OnNew] among the rows of the query
    for both; for another member, the first row of the subtable of its
    stub when that query has rows, and else the first row of the member
    query. *)
Definition memberRowOf (env : Env) (server : ServerSpec env)
    (member baseclass : jsstring) (methodRow : Row.t) : Prop :=
  let unquotedName := quoteUDLIdentifier env member 0 in
  if streq member (js "%New") then
    exists rows,
      query env server queryNewAndOnNew [baseclass; unquotedName; js "%OnNew"]
      = Some rows
      /\ onNewOverridden rows = Some methodRow
  else
    exists row0 rows',
      query env server queryMethod [baseclass; unquotedName] = Some (row0 :: rows')
      /\ methodRow
         = match stubRowsOf env server baseclass row0 with
           | Some (r :: _) => r
           | _ => row0
           end.

(** [details] are the details of the class member called at the open
    parenthesis [(parenLine, parenToken)]: the token before the parenthesis
    is a method or member token, the class of the member is known, the
    formal spec of the member's row is not empty, the parameters are the
    spans of the beautified formal spec, the label is that spec followed by
    [ As ] and the class (for [%New], [%Open] and [%OpenId]) or the return
    type of the row (when it has one), there is no documentation, and the
    start position is the offset after the parenthesis. *)
Definition memberDetailsOf (env : Env) (doc : TextDocument.t)
    (parsed : list compressedline) (parenLine parenToken : Z)
    (server : ServerSpec env) (details : MethodSignatureDetails.t) : Prop :=
  exists tokens parenTok calleeToken methodRow,
    at_ parsed parenLine = Some tokens
    /\ at_ tokens parenToken = Some parenTok
    /\ at_ tokens (parenToken - 1) = Some calleeToken
    /\ isMemberToken env calleeToken = true
    /\ let member :=
         TextDocument.getText doc
           (Range.create
              (Position.create parenLine (Token.p calleeToken))
              (Position.create parenLine (Token.p calleeToken + Token.c calleeToken))) in
       let baseclass :=
         getClassMemberContext env doc parsed (parenToken - 2) parenLine server in
       let raw := beautifyFormalSpec env (Row.FormalSpec methodRow) in
       baseclass <> []
       /\ memberRowOf env server member baseclass methodRow
       /\ Row.FormalSpec methodRow <> []
       /\ details
          = {| MethodSignatureDetails.signature :=
                 {| SignatureInformation.label :=
                      if streq member (js "%New") then raw ++ js " As " ++ baseclass
                      else memberLabel raw member baseclass (Row.ReturnType methodRow);
                    SignatureInformation.parameters := Some (formalSpecToParamsArr raw);
                    SignatureInformation.documentation := None |};
               MethodSignatureDetails.start :=
                 Position.create parenLine (Token.p parenTok + 1) |}.

(** The formal spec [(a, b(x,y), "c,d")]. *)
Definition nestedAndQuoted : jsstring :=
  js "(a, b(x,y), " ++ [quote] ++ js "c,d" ++ [quote] ++ js ")".

(* ================================================================== *)
(** ** Lemmas on the string primitives *)
(* ================================================================== *)

Lemma streq_refl (s : jsstring) : streq s s = true.
Proof.
  induction s as [|c s IH]; simpl; [reflexivity|].
  rewrite N.eqb_refl. exact IH.
Qed.

Lemma streq_eq (a b : jsstring) : streq a b = true <-> a = b.
Proof.
  split.
  - revert b. induction a as [|x a IH]; intros [|y b] H; simpl in H;
      try discriminate; [reflexivity|].
    apply andb_true_iff in H. destruct H as [Hxy Hab].
    apply N.eqb_eq in Hxy. subst. f_equal. apply IH. exact Hab.
  - intros ->. apply streq_refl.
Qed.

Lemma removeWhitespace_clean (s : jsstring) : noWhitespace (removeWhitespace s).
Proof.
  unfold noWhitespace, removeWhitespace. apply Forall_forall.
  intros c Hc. apply filter_In in Hc. destruct Hc as [_ Hc].
  apply negb_true_iff in Hc. exact Hc.
Qed.

Lemma dropWhile_idem (f : N -> bool) (s : jsstring) :
  dropWhile f (dropWhile f s) = dropWhile f s.
Proof.
  induction s as [|c s IH]; simpl; [reflexivity|].
  destruct (f c) eqn:E; [exact IH|]. simpl. rewrite E. reflexivity.
Qed.

Lemma dropWhile_snoc (f : N -> bool) (l : jsstring) (c : N) :
  f c = false -> dropWhile f (l ++ [c]) = dropWhile f l ++ [c].
Proof.
  intros Hc. induction l as [|d l IH]; simpl.
  - rewrite Hc. reflexivity.
  - destruct (f d); [exact IH|reflexivity].
Qed.

Lemma trimEnd_cons (c : N) (s : jsstring) :
  isWhitespace c = false -> trimEnd (c :: s) = c :: trimEnd s.
Proof.
  intros Hc. unfold trimEnd. simpl.
  rewrite dropWhile_snoc by exact Hc.
  rewrite rev_app_distr. reflexivity.
Qed.

Lemma trimEnd_idem (s : jsstring) : trimEnd (trimEnd s) = trimEnd s.
Proof.
  unfold trimEnd. rewrite rev_involutive, dropWhile_idem. reflexivity.
Qed.

Lemma trim_idem (s : jsstring) : trim (trim s) = trim s.
Proof.
  unfold trim, trimStart.
  assert (H : forall a, dropWhile isWhitespace (trimEnd (dropWhile isWhitespace a))
                        = trimEnd (dropWhile isWhitespace a)).
  { induction a as [|c a IH]; simpl; [reflexivity|].
    destruct (isWhitespace c) eqn:E; [exact IH|].
    rewrite trimEnd_cons by exact E. simpl. rewrite E. reflexivity. }
  rewrite H. apply trimEnd_idem.
Qed.

Lemma length_nonneg (s : jsstring) : 0 <= length s.
Proof. unfold length. lia. Qed.

Lemma length_app (a b : jsstring) : length (a ++ b) = length a + length b.
Proof. unfold length. rewrite List.length_app. lia. Qed.

(** [slice] picks the middle of a concatenation. *)
Lemma slice_middle (x y z : jsstring) :
  slice (x ++ y ++ z) (length x) (length x + length y) = y.
Proof.
  unfold slice. rewrite !length_app.
  pose proof (length_nonneg x). pose proof (length_nonneg y).
  pose proof (length_nonneg z).
  destruct (length x <? 0) eqn:E1; [apply Z.ltb_lt in E1; lia|].
  destruct (length x + length y <? 0) eqn:E2; [apply Z.ltb_lt in E2; lia|].
  rewrite !Z.min_l by lia.
  replace (length x + length y - length x) with (length y) by lia.
  unfold length. rewrite !Nat2Z.id.
  rewrite skipn_app, skipn_all, Nat.sub_diag. simpl.
  rewrite firstn_app, firstn_all, Nat.sub_diag. simpl.
  apply app_nil_r.
Qed.

(* ================================================================== *)
(** ** The argument-emphasis function *)
(* ================================================================== *)

(** Every return path of [emphasizeArgument] removes the whitespace. *)
Lemma emphasizeArgument_shape (fuel : nat) (arglist : jsstring) (arg : Z)
    (result : jsstring) :
  emphasizeArgument fuel arglist arg = Some result ->
  exists x, result = removeWhitespace x.
Proof.
  unfold emphasizeArgument. intros H.
  destruct (arg >? _); [inversion H; eauto|].
  destruct (if arg =? _ then _ else _) as [s0 e0].
  destruct (if arg =? 1 then _ else _) as [s1 e1].
  destruct (negb _ && negb _); [inversion H; eauto|].
  destruct (emphasizeSearch _ _ _ _ _ _ _); inversion H; eauto.
Qed.

(** The search loop is left once [arg - 1] spaces were counted. *)
Lemma emphasizeSearch_returns (arglist normalized : jsstring) (arg end_ : Z) :
  forall (fuel : nat) (spacesfound lastspace : Z),
    spacesfound + 1 < arg ->
    arg - spacesfound - 1 <= Z.of_nat fuel ->
    exists result,
      emphasizeSearch fuel arglist normalized arg end_ spacesfound lastspace
      = Some result.
Proof.
  induction fuel as [|fuel IH]; intros spacesfound lastspace Hlt Hfuel; [lia|].
  simpl.
  destruct (indexOf _ normalized (lastspace + 1) =? -1); [eauto|].
  destruct (arg =? spacesfound + 1 + 1) eqn:E; [eauto|].
  apply Z.eqb_neq in E. apply IH; lia.
Qed.

Lemma indexOf_zero (c : N) (s : jsstring) :
  indexOf c s 0 = 0 -> startsWith s [c] = true.
Proof.
  unfold indexOf. simpl. destruct s as [|d s]; simpl; [discriminate|].
  destruct (d =? c)%N eqn:E.
  - intros _. apply N.eqb_eq in E. subst. rewrite N.eqb_refl.
    destruct s; reflexivity.
  - destruct (find c s); [|discriminate]. lia.
Qed.

(** C9. Whatever the argument list and the argument number, a string
    returned by [emphasizeArgument] contains no whitespace character: each
    of the three return paths removes the whitespace from its result.  The
    function does return when the argument number is at least 2, and for
    argument 1 when the list does not begin with a space. *)
Theorem emphasizeArgument_no_whitespace :
  forall (arglist : jsstring) (arg : Z),
    (forall fuel result,
        emphasizeArgument fuel arglist arg = Some result -> noWhitespace result)
    /\ (2 <= arg \/ (arg = 1 /\ startsWith (replaceNbsp arglist) (js " ") = false) ->
        exists result,
          emphasizeArgument (Z.to_nat arg) arglist arg = Some result
          /\ noWhitespace result).
Proof.
  intros arglist arg.
  assert (Hclean : forall fuel result,
             emphasizeArgument fuel arglist arg = Some result -> noWhitespace result).
  { intros fuel result H. apply emphasizeArgument_shape in H.
    destruct H as [x ->]. apply removeWhitespace_clean. }
  split; [exact Hclean|].
  intros Harg.
  assert (Hret : exists result,
             emphasizeArgument (Z.to_nat arg) arglist arg = Some result).
  { unfold emphasizeArgument.
    destruct (arg >? _); [eauto|].
    destruct Harg as [Hge | [-> Hstart]].
    - destruct (if arg =? _ then _ else _) as [s0 e0].
      destruct (if arg =? 1 then _ else _) as [s1 e1].
      destruct (negb _ && negb _); [eauto|].
      destruct (emphasizeSearch_returns arglist (replaceNbsp arglist) arg e1
                  (Z.to_nat arg) 0 0) as [r Hr]; [lia|lia|].
      rewrite Hr. eauto.
    - assert (Hidx : indexOf (cu " ") (replaceNbsp arglist) 0 <> 0).
      { intros H0. apply indexOf_zero in H0.
        change [cu " "] with (js " ") in H0. congruence. }
      destruct (if 1 =? _ then _ else _) as [s0 e0].
      change (1 =? 1) with true. cbv iota.
      destruct (e0 =? -1) eqn:E0.
      + destruct (indexOf (cu " ") (replaceNbsp arglist) 0 - 1 =? -1) eqn:E1;
          [apply Z.eqb_eq in E1; lia|].
        simpl. eauto.
      + simpl. rewrite E0. simpl. eauto. }
  destruct Hret as [result Hret]. exists result. split; [exact Hret|].
  eapply Hclean. exact Hret.
Qed.

Lemma emphasizeArgument_no_whitespace_witness :
  noWhitespace (js "(A,%%%%%B@@@@@,C)")
  /\ exists result,
       emphasizeArgument 2 (js "(A, B, C)") 2 = Some result /\ noWhitespace result.
Proof.
  split.
  - exact (proj1 (emphasizeArgument_no_whitespace (js "(A, B, C)") 2) 2%nat
             (js "(A,%%%%%B@@@@@,C)") eq_refl).
  - exact (proj2 (emphasizeArgument_no_whitespace (js "(A, B, C)") 2)
             (or_introl (Z.le_refl 2))).
Defined.

(** For argument 1 of a list that begins with a space and has another
    space, the search loop is never left: [lastspace] stays 0. *)
Lemma emphasizeSearch_leading_space (fuel : nat) :
  forall spacesfound,
    0 <= spacesfound ->
    emphasizeSearch fuel (js " A B") (js " A B") 1 (-1) spacesfound 0 = None.
Proof.
  induction fuel as [|fuel IH]; intros spacesfound Hsf; [reflexivity|].
  cbn [emphasizeSearch].
  change (indexOf (cu " ") (js " A B") (0 + 1) =? -1) with false.
  change (indexOf (cu " ") (js " A B") 0) with 0. cbv iota zeta.
  destruct (1 =? spacesfound + 1 + 1) eqn:E; [apply Z.eqb_eq in E; lia|].
  apply IH. lia.
Qed.

Lemma emphasizeArgument_leading_space (fuel : nat) :
  emphasizeArgument fuel (js " A B") 1 = None.
Proof.
  change (emphasizeArgument fuel (js " A B") 1)
    with (match emphasizeSearch fuel (js " A B") (js " A B") 1 (-1) 0 0 with
          | Some result => Some (removeWhitespace result)
          | None => None
          end).
  rewrite emphasizeSearch_leading_space by lia. reflexivity.
Qed.

(* ================================================================== *)
(** ** The routine parameter splitter *)
(* ================================================================== *)

Lemma splitRoutineStep_trimmed (st : SplitRoutine.state) (prev : jsstring) (char : N) :
  Forall (fun p => trim p = p) (SplitRoutine.result st) ->
  Forall (fun p => trim p = p) (SplitRoutine.result (splitRoutineStep st prev char)).
Proof.
  destruct st as [result current inQuote parenDepth]. unfold splitRoutineStep.
  intros H.
  repeat match goal with
         | |- context [if ?b then _ else _] => destruct b
         end; simpl; try exact H.
  apply Forall_app. split; [exact H|].
  constructor; [apply trim_idem|constructor].
Qed.

Lemma splitRoutineLoop_trimmed (s : jsstring) :
  forall (st : SplitRoutine.state) (prev : jsstring),
    Forall (fun p => trim p = p) (SplitRoutine.result st) ->
    Forall (fun p => trim p = p) (SplitRoutine.result (splitRoutineLoop st prev s)).
Proof.
  induction s as [|char rest IH]; intros st prev H; simpl; [exact H|].
  apply IH. apply splitRoutineStep_trimmed. exact H.
Qed.

(** C10. Every string returned by [splitRoutineParams] is non-empty and
    equal to its own trim: an empty parameter is dropped wherever it occurs,
    and a parameter that is kept has no whitespace at either end. *)
Theorem splitRoutineParams_trimmed_nonempty :
  forall (paramStr : jsstring),
    Forall (fun param => param <> [] /\ trim param = param)
           (splitRoutineParams paramStr).
Proof.
  intros paramStr. unfold splitRoutineParams.
  destruct (streq (trim (replaceNewlines paramStr)) []); [constructor|].
  set (st := splitRoutineLoop _ _ _).
  assert (Hst : Forall (fun p => trim p = p) (SplitRoutine.result st)).
  { apply splitRoutineLoop_trimmed. constructor. }
  apply Forall_forall. intros param Hin.
  apply filter_In in Hin. destruct Hin as [Hin Hlen].
  split.
  - intros ->. discriminate Hlen.
  - destruct (0 <? length (trim (SplitRoutine.current st))).
    + apply in_app_or in Hin. destruct Hin as [Hin | [<- | []]].
      * exact (proj1 (Forall_forall _ _) Hst param Hin).
      * apply trim_idem.
    + exact (proj1 (Forall_forall _ _) Hst param Hin).
Qed.

(** Empty parameters in the middle of the list are dropped too. *)
Example splitRoutineParams_drops_inner :
  splitRoutineParams (js " a ,, b(1,2) ,   , c ,") = [js "a"; js "b(1,2)"; js "c"].
Proof. vm_compute. reflexivity. Qed.

(* ================================================================== *)
(** ** The formal-spec parameter splitter *)
(* ================================================================== *)

(** *** The scan against the text scanned *)

Lemma quoteFlagAfter_snoc (seen : list jsstring) (c : jsstring) :
  quoteFlagAfter (seen ++ [c]) = xorb (quoteFlagAfter seen) (streq c [quote]).
Proof.
  unfold quoteFlagAfter. rewrite filter_app, List.length_app. cbn [filter].
  destruct (streq c [quote]); cbn [List.length].
  - rewrite Nat.add_1_r, Nat.odd_succ, <- Nat.negb_odd. rewrite xorb_true_r. reflexivity.
  - rewrite Nat.add_0_r, xorb_false_r. reflexivity.
Qed.

Lemma outsideQuotes_snoc (c x : jsstring) (a : list jsstring) :
  forall seen,
    outsideQuotes c seen (a ++ [x])
    = outsideQuotes c seen a
      + (if streq x c && negb (quoteFlagAfter (seen ++ a)) then 1 else 0).
Proof.
  induction a as [|y a IH]; intros seen; cbn [app outsideQuotes].
  - rewrite app_nil_r. lia.
  - rewrite IH, <- app_assoc. cbn [app]. lia.
Qed.

Lemma braceDepthAfter_snoc (seen : list jsstring) (c : jsstring) :
  braceDepthAfter (seen ++ [c])
  = braceDepthAfter seen
    + (if streq c (js "{") && negb (quoteFlagAfter seen) then 1 else 0)
    - (if streq c (js "}") && negb (quoteFlagAfter seen) then 1 else 0).
Proof. unfold braceDepthAfter. rewrite !outsideQuotes_snoc. cbn [app]. lia. Qed.

Lemma parenDepthAfter_snoc (seen : list jsstring) (c : jsstring) :
  parenDepthAfter (seen ++ [c])
  = parenDepthAfter seen
    + (if streq c (js "(") && negb (quoteFlagAfter seen) then 1 else 0)
    - (if streq c (js ")") && negb (quoteFlagAfter seen) then 1 else 0).
Proof. unfold parenDepthAfter. rewrite !outsideQuotes_snoc. cbn [app]. lia. Qed.

Lemma topLevelComma_here (seen : list jsstring) (c : jsstring) (rest : list jsstring) :
  topLevelComma (seen ++ c :: rest) (List.length seen)
  = streq c (js ",")
    && negb (quoteFlagAfter seen)
    && (braceDepthAfter seen =? 0)
    && (parenDepthAfter seen =? 1).
Proof.
  unfold topLevelComma.
  rewrite nth_error_app2, Nat.sub_diag by lia. cbn [nth_error].
  rewrite firstn_app, firstn_all, Nat.sub_diag. cbn [firstn]. rewrite app_nil_r.
  reflexivity.
Qed.

Lemma topLevelCommas_succ (chars : list jsstring) (n : nat) :
  topLevelCommas chars (S n)
  = topLevelCommas chars n ++ (if topLevelComma chars n then [Z.of_nat n] else []).
Proof.
  unfold topLevelCommas. rewrite seq_S, filter_app, map_app. cbn [filter Nat.add].
  destruct (topLevelComma chars n); reflexivity.
Qed.

Lemma closedSpans_snoc (cuts : list Z) (c : Z) :
  forall start,
    closedSpans start (cuts ++ [c])
    = closedSpans start cuts
        ++ [ParameterInformation.create (Span (lastStart start cuts) c)].
Proof.
  induction cuts as [|d cuts IH]; intros start; cbn [app closedSpans lastStart];
    [reflexivity|].
  rewrite IH. reflexivity.
Qed.

Lemma lastStart_snoc (cuts : list Z) (c : Z) :
  forall start, lastStart start (cuts ++ [c]) = c + 1.
Proof.
  induction cuts as [|d cuts IH]; intros start; cbn [app lastStart];
    [reflexivity|apply IH].
Qed.

(** One step of the scan: the flag and the depths follow the character,
    and a span is pushed exactly at a comma met with the flag false, the
    brace depth zero and the paren depth 1. *)
Lemma formalSpecStep_scan (st : FormalSpec.state) (char : jsstring) (idx : Z) :
  let q := FormalSpec.inQuote st in
  let cut :=
    streq char (js ",") && negb q && (FormalSpec.openBraceCount st =? 0)
    && (FormalSpec.openParenCount st =? 1) in
  let st' := formalSpecStep st char idx in
  FormalSpec.inQuote st' = xorb q (streq char [quote])
  /\ FormalSpec.openBraceCount st'
     = FormalSpec.openBraceCount st
       + (if streq char (js "{") && negb q then 1 else 0)
       - (if streq char (js "}") && negb q then 1 else 0)
  /\ FormalSpec.openParenCount st'
     = FormalSpec.openParenCount st
       + (if streq char (js "(") && negb q then 1 else 0)
       - (if streq char (js ")") && negb q then 1 else 0)
  /\ FormalSpec.result st'
     = FormalSpec.result st
         ++ (if cut
             then [ParameterInformation.create
                     (Span (FormalSpec.currentParamStart st) idx)]
             else [])
  /\ FormalSpec.currentParamStart st'
     = (if cut then idx + 1 else FormalSpec.currentParamStart st).
Proof.
  destruct st as [result currentParamStart openParenCount openBraceCount inQuote].
  cbn [FormalSpec.inQuote FormalSpec.openBraceCount FormalSpec.openParenCount
       FormalSpec.result FormalSpec.currentParamStart].
  cbv zeta. unfold formalSpecStep.
  destruct (streq char (js "{")) eqn:E1.
  { apply streq_eq in E1. subst char.
    change (streq (js "{") (js "}")) with false.
    change (streq (js "{") (js "(")) with false.
    change (streq (js "{") (js ")")) with false.
    change (streq (js "{") [quote]) with false.
    change (streq (js "{") (js ",")) with false.
    cbn [FormalSpec.inQuote FormalSpec.openBraceCount FormalSpec.openParenCount
         FormalSpec.result FormalSpec.currentParamStart andb].
    rewrite app_nil_r, xorb_false_r. destruct inQuote; repeat split; cbn [negb]; lia. }
  destruct (streq char (js "}")) eqn:E2.
  { apply streq_eq in E2. subst char.
    change (streq (js "}") (js "(")) with false.
    change (streq (js "}") (js ")")) with false.
    change (streq (js "}") [quote]) with false.
    change (streq (js "}") (js ",")) with false.
    cbn [FormalSpec.inQuote FormalSpec.openBraceCount FormalSpec.openParenCount
         FormalSpec.result FormalSpec.currentParamStart andb].
    rewrite app_nil_r, xorb_false_r. destruct inQuote; repeat split; cbn [negb]; lia. }
  destruct (streq char (js "(")) eqn:E3.
  { apply streq_eq in E3. subst char.
    change (streq (js "(") (js ")")) with false.
    change (streq (js "(") [quote]) with false.
    change (streq (js "(") (js ",")) with false.
    cbn [FormalSpec.inQuote FormalSpec.openBraceCount FormalSpec.openParenCount
         FormalSpec.result FormalSpec.currentParamStart andb].
    rewrite app_nil_r, xorb_false_r. destruct inQuote; repeat split; cbn [negb]; lia. }
  destruct (streq char (js ")")) eqn:E4.
  { apply streq_eq in E4. subst char.
    change (streq (js ")") [quote]) with false.
    change (streq (js ")") (js ",")) with false.
    cbn [FormalSpec.inQuote FormalSpec.openBraceCount FormalSpec.openParenCount
         FormalSpec.result FormalSpec.currentParamStart andb].
    rewrite app_nil_r, xorb_false_r. destruct inQuote; repeat split; cbn [negb]; lia. }
  destruct (streq char [quote]) eqn:E5.
  { apply streq_eq in E5. subst char.
    change (streq [quote] (js ",")) with false.
    cbn [FormalSpec.inQuote FormalSpec.openBraceCount FormalSpec.openParenCount
         FormalSpec.result FormalSpec.currentParamStart andb].
    rewrite app_nil_r, xorb_true_r. repeat split; lia. }
  destruct (streq char (js ",")) eqn:E6.
  { cbn [andb].
    destruct (negb inQuote && (openBraceCount =? 0) && (openParenCount =? 1));
      cbn [FormalSpec.inQuote FormalSpec.openBraceCount FormalSpec.openParenCount
           FormalSpec.result FormalSpec.currentParamStart];
      rewrite ?app_nil_r, xorb_false_r; repeat split; lia. }
  cbn [FormalSpec.inQuote FormalSpec.openBraceCount FormalSpec.openParenCount
       FormalSpec.result FormalSpec.currentParamStart andb].
  rewrite app_nil_r, xorb_false_r. repeat split; lia.
Qed.

(** The scan of the whole text: the flag and the depths of the state are
    those of the text scanned so far, and the spans pushed end at the
    commas of the outermost list met so far. *)
Lemma formalSpecLoop_scan (all : list jsstring) :
  forall (rest seen : list jsstring) (st : FormalSpec.state),
    all = seen ++ rest ->
    FormalSpec.inQuote st = quoteFlagAfter seen ->
    FormalSpec.openBraceCount st = braceDepthAfter seen ->
    FormalSpec.openParenCount st = parenDepthAfter seen ->
    FormalSpec.result st = closedSpans 1 (topLevelCommas all (List.length seen)) ->
    FormalSpec.currentParamStart st
    = lastStart 1 (topLevelCommas all (List.length seen)) ->
    FormalSpec.result (formalSpecLoop st rest (Z.of_nat (List.length seen)))
    = closedSpans 1 (topLevelCommas all (List.length all))
    /\ FormalSpec.currentParamStart
         (formalSpecLoop st rest (Z.of_nat (List.length seen)))
       = lastStart 1 (topLevelCommas all (List.length all)).
Proof.
  induction rest as [|char rest IH]; intros seen st Hall Hq Hb Hp Hr Hs.
  - rewrite app_nil_r in Hall. subst all. cbn [formalSpecLoop]. split; assumption.
  - cbn [formalSpecLoop].
    destruct (formalSpecStep_scan st char (Z.of_nat (List.length seen)))
      as (Sq & Sb & Sp & Sr & Ss).
    cbv zeta in Sq, Sb, Sp, Sr, Ss.
    assert (Hcut : topLevelComma all (List.length seen)
                   = streq char (js ",") && negb (FormalSpec.inQuote st)
                     && (FormalSpec.openBraceCount st =? 0)
                     && (FormalSpec.openParenCount st =? 1)).
    { rewrite Hall, topLevelComma_here, Hq, Hb, Hp. reflexivity. }
    rewrite <- Hcut in Sr, Ss.
    replace (Z.of_nat (List.length seen) + 1)
      with (Z.of_nat (List.length (seen ++ [char])))
      by (rewrite List.length_app; cbn [List.length]; lia).
    assert (Hlen : List.length (seen ++ [char]) = S (List.length seen))
      by (rewrite List.length_app; cbn [List.length]; lia).
    apply IH.
    + rewrite <- app_assoc. exact Hall.
    + rewrite Sq, Hq, quoteFlagAfter_snoc. reflexivity.
    + rewrite Sb, Hb, Hq, braceDepthAfter_snoc. reflexivity.
    + rewrite Sp, Hp, Hq, parenDepthAfter_snoc. reflexivity.
    + rewrite Sr, Hr, Hs, Hlen, topLevelCommas_succ.
      destruct (topLevelComma all (List.length seen));
        [rewrite closedSpans_snoc|rewrite !app_nil_r]; reflexivity.
    + rewrite Ss, Hs, Hlen, topLevelCommas_succ.
      destruct (topLevelComma all (List.length seen));
        [rewrite lastStart_snoc|rewrite app_nil_r]; reflexivity.
Qed.

Lemma formalSpecToParamsArr_refines (formalSpec : jsstring) :
  formalSpecToParamsArr formalSpec = splitParametersOfSpec formalSpec.
Proof.
  unfold formalSpecToParamsArr, splitParametersOfSpec.
  destruct (streq (removeWhitespace formalSpec) (js "()")); [reflexivity|].
  cbv zeta.
  destruct (formalSpecLoop_scan (arrayFrom formalSpec) (arrayFrom formalSpec) []
              (FormalSpec.Build_state [] 1 0 0 false)
              eq_refl eq_refl eq_refl eq_refl eq_refl eq_refl) as [Hr Hs].
  cbn [List.length Z.of_nat] in Hr, Hs. rewrite Hr, Hs. reflexivity.
Qed.

Lemma closedSpans_ends (cuts : list Z) (e : Z) :
  forall start,
    (exists s, In (ParameterInformation.create (Span s e)) (closedSpans start cuts))
    <-> In e cuts.
Proof.
  induction cuts as [|c cuts IH]; intros start; cbn [closedSpans In].
  - split; [intros [s []]|intros []].
  - split.
    + intros [s [H|H]].
      * left. injection H as _ He. exact He.
      * right. apply (IH (c + 1)). eauto.
    + intros [->|H].
      * exists start. left. reflexivity.
      * apply (IH (c + 1)) in H. destruct H as [s H]. exists s. right. exact H.
Qed.

Lemma topLevelCommas_In (chars : list jsstring) (e : Z) :
  In e (topLevelCommas chars (List.length chars))
  <-> exists i, e = Z.of_nat i /\ topLevelComma chars i = true.
Proof.
  unfold topLevelCommas. rewrite in_map_iff. split.
  - intros (i & <- & H). apply filter_In in H. exists i. split; [reflexivity|apply H].
  - intros (i & -> & H). exists i. split; [reflexivity|].
    apply filter_In. split; [|exact H].
    apply in_seq. split; [lia|]. cbn [Nat.add].
    unfold topLevelComma in H.
    destruct (nth_error chars i) eqn:E; [|discriminate H].
    apply nth_error_Some. congruence.
Qed.

(** C3. [formalSpecToParamsArr] ends a parameter at a comma exactly when the
    text scanned before that comma leaves the scan outside a quoted
    substring, the brace depth at zero and the paren depth at exactly 1:
    the spans other than the last end at the indices of those commas and
    at no other index, and the function is the splitter of the
    specification, [splitParametersOfSpec], on every formal spec.  In the
    scan, the step at a comma pushes a span under that condition on the
    state and no other step pushes one.  So the formal spec
    [(a, b(x,y), "c,d")] has exactly 3 spans, which cover [a], [b(x,y)] and
    ["c,d"] (the second and the third with the space after the comma), the
    formal spec [(a, {b,c}, d)] has 3 spans too, and a formal spec that is
    [()] once its whitespace is removed has none. *)
Theorem formalSpecToParamsArr_splits_top_level :
  (forall (formalSpec : jsstring),
      removeWhitespace formalSpec <> js "()" ->
      exists (closed : list ParameterInformation.t) (start : Z),
        formalSpecToParamsArr formalSpec
        = closed ++ [ParameterInformation.create (Span start (length formalSpec - 1))]
        /\ forall e,
             (exists s, In (ParameterInformation.create (Span s e)) closed)
             <-> (exists i,
                     e = Z.of_nat i
                     /\ topLevelComma (arrayFrom formalSpec) i = true))
  /\ (forall (formalSpec : jsstring),
         formalSpecToParamsArr formalSpec = splitParametersOfSpec formalSpec)
  /\ (forall (st : FormalSpec.state) (idx : Z),
         let st' := formalSpecStep st (js ",") idx in
         if negb (FormalSpec.inQuote st) && (FormalSpec.openBraceCount st =? 0)
            && (FormalSpec.openParenCount st =? 1)
         then FormalSpec.result st'
              = FormalSpec.result st
                  ++ [ParameterInformation.create
                        (Span (FormalSpec.currentParamStart st) idx)]
              /\ FormalSpec.currentParamStart st' = idx + 1
         else st' = st)
  /\ (forall (st : FormalSpec.state) (char : jsstring) (idx : Z),
         char <> js "," ->
         FormalSpec.result (formalSpecStep st char idx) = FormalSpec.result st)
  /\ formalSpecToParamsArr nestedAndQuoted
     = [ParameterInformation.create (Span 1 2);
        ParameterInformation.create (Span 3 10);
        ParameterInformation.create (Span 11 17)]
  /\ slice nestedAndQuoted 1 2 = js "a"
  /\ slice nestedAndQuoted 3 10 = js " b(x,y)"
  /\ slice nestedAndQuoted 11 17 = js " " ++ [quote] ++ js "c,d" ++ [quote]
  /\ formalSpecToParamsArr bracedSpec
     = [ParameterInformation.create (Span 1 2);
        ParameterInformation.create (Span 3 9);
        ParameterInformation.create (Span 10 12)]
  /\ slice bracedSpec 3 9 = js " {b,c}"
  /\ (forall (formalSpec : jsstring),
         removeWhitespace formalSpec = js "()" ->
         formalSpecToParamsArr formalSpec = []).
Proof.
  split; [|split; [|split; [|split; [|repeat split]]]].
  - intros formalSpec H. rewrite formalSpecToParamsArr_refines.
    unfold splitParametersOfSpec.
    destruct (streq (removeWhitespace formalSpec) (js "()")) eqn:E;
      [apply streq_eq in E; contradiction|].
    cbv zeta. eexists _, _. split; [reflexivity|].
    intros e. rewrite closedSpans_ends. apply topLevelCommas_In.
  - exact formalSpecToParamsArr_refines.
  - intros [result currentParamStart openParenCount openBraceCount inQuote] idx.
    cbn -[Z.eqb Z.add].
    destruct (negb inQuote && (openBraceCount =? 0) && (openParenCount =? 1));
      [split; reflexivity|reflexivity].
  - intros [result currentParamStart openParenCount openBraceCount inQuote] char idx Hchar.
    unfold formalSpecStep.
    destruct (streq char (js ",")) eqn:E; [apply streq_eq in E; contradiction|].
    repeat match goal with
           | |- context [if ?b then _ else _] => destruct b
           end; reflexivity.
  - intros formalSpec H. unfold formalSpecToParamsArr.
    rewrite H. reflexivity.
Qed.

Lemma formalSpecToParamsArr_splits_top_level_witness :
  formalSpecToParamsArr (js " ( ) ") = []
  /\ exists (closed : list ParameterInformation.t) (start : Z),
       formalSpecToParamsArr bracedSpec
       = closed ++ [ParameterInformation.create (Span start (length bracedSpec - 1))]
       /\ forall e,
            (exists s, In (ParameterInformation.create (Span s e)) closed)
            <-> (exists i,
                    e = Z.of_nat i /\ topLevelComma (arrayFrom bracedSpec) i = true).
Proof.
  split.
  - exact (proj2 (proj2 (proj2 (proj2 (proj2 (proj2 (proj2 (proj2 (proj2 (proj2
             formalSpecToParamsArr_splits_top_level)))))))))
             (js " ( ) ") eq_refl).
  - exact (proj1 formalSpecToParamsArr_splits_top_level bracedSpec
             ltac:(discriminate)).
Defined.

(* ================================================================== *)
(** ** Emphasis of one argument *)
(* ================================================================== *)

Lemma length_replaceNbsp (s : jsstring) : length (replaceNbsp s) = length s.
Proof. unfold length, replaceNbsp. rewrite length_map. reflexivity. Qed.

Lemma length_cons (c : N) (s : jsstring) : length (c :: s) = length s + 1.
Proof. unfold length. cbn [List.length]. lia. Qed.

Lemma length_nil : length [] = 0.
Proof. reflexivity. Qed.

(** The span emphasized in a single-argument list. *)
Lemma single_argument_slices (first last : N) (inner : jsstring) :
  let s := first :: inner ++ [last] in
  slice s 0 1 = [first]
  /\ slice s 1 (length s - 1) = inner
  /\ sliceFrom s (length s - 1) = [last].
Proof.
  intros s.
  assert (Hs : length s = length inner + 2).
  { unfold s. rewrite length_cons, length_app, length_cons, length_nil. lia. }
  repeat split.
  - exact (slice_middle [] [first] (inner ++ [last])).
  - replace (length s - 1) with (length [first] + length inner)
      by (rewrite Hs, length_cons, length_nil; lia).
    exact (slice_middle [first] inner [last]).
  - unfold sliceFrom.
    replace (length s - 1) with (length (first :: inner))
      by (rewrite Hs, length_cons; lia).
    replace (length s) with (length (first :: inner) + length [last])
      by (rewrite Hs, !length_cons, length_nil; lia).
    unfold s.
    replace (first :: inner ++ [last]) with ((first :: inner) ++ [last] ++ [])
      by reflexivity.
    apply slice_middle.
Qed.

(** C4, as the code has it.  In the parenthesized list [(A, B, C)], the form
    in which the macro resolver passes a signature, emphasizing argument 1
    wraps exactly [A] and emphasizing argument 3 wraps exactly [C];
    emphasizing argument 4 of [A B C] returns [ABC] without markers; and in
    a single-argument list of two characters or more, emphasizing argument 1
    wraps exactly the text between the first and the last character. *)
Theorem emphasizeArgument_wraps_argument :
  forall (fuel : nat),
    emphasizeArgument fuel (js "(A, B, C)") 1 = Some (js "(%%%%%A@@@@@,B,C)")
    /\ emphasizeArgument fuel (js "(A, B, C)") 3 = Some (js "(A,B,%%%%%C@@@@@)")
    /\ emphasizeArgument fuel (js "A B C") 4 = Some (js "ABC")
    /\ (forall (first last : N) (inner : jsstring),
           List.length (split (cu " ") (replaceNbsp (first :: inner ++ [last]))) = 1%nat ->
           emphasizeArgument fuel (first :: inner ++ [last]) 1
           = Some (removeWhitespace
                     ([first] ++ emphasizePrefix ++ inner ++ emphasizeSuffix ++ [last]))).
Proof.
  intros fuel. repeat split; try (vm_compute; reflexivity).
  intros first last inner H.
  destruct (single_argument_slices first last inner) as (H1 & H2 & H3).
  cbv zeta in H1, H2, H3.
  set (s := first :: inner ++ [last]) in *.
  assert (Hs : length s = length inner + 2).
  { unfold s. rewrite length_cons, length_app, length_cons, length_nil. lia. }
  pose proof (length_nonneg inner) as Hinner.
  unfold emphasizeArgument. rewrite H.
  change (Z.of_nat 1) with 1. change (1 >? 1) with false.
  change (1 =? 1) with true. change (1 >? 1) with false. cbv iota beta.
  rewrite length_replaceNbsp.
  destruct (length s - 1 =? -1) eqn:E; [apply Z.eqb_eq in E; lia|].
  cbn [negb andb Z.eqb]. rewrite E. cbn [negb andb].
  rewrite H1, H2, H3. reflexivity.
Qed.

Lemma emphasizeArgument_wraps_argument_witness :
  emphasizeArgument 0 (js "(arg)") 1 = Some (js "(%%%%%arg@@@@@)").
Proof.
  exact (proj2 (proj2 (proj2 (emphasizeArgument_wraps_argument 0)))
           (cu "(") (cu ")") (js "arg") eq_refl).
Defined.

(** C4 fails on the list [A B C], which has no delimiters: the markers end
    up empty after the first character and the list is repeated behind them
    for argument 1, and they are empty before [C] for argument 3. *)
Lemma emphasizeArgument_bare_list_counterexample :
  emphasizeArgument 0 (js "A B C") 1 = Some (js "A%%%%%@@@@@ABC")
  /\ occursIn (emphasizePrefix ++ js "A" ++ emphasizeSuffix) (js "A%%%%%@@@@@ABC") = false
  /\ emphasizeArgument 0 (js "A B C") 3 = Some (js "AB%%%%%@@@@@C")
  /\ occursIn (emphasizePrefix ++ js "C" ++ emphasizeSuffix) (js "AB%%%%%@@@@@C") = false.
Proof. repeat split; vm_compute; reflexivity. Qed.

(* ================================================================== *)
(** ** The routine resolver: continuation lines *)
(* ================================================================== *)

Lemma indexOf_none (c : N) (s : jsstring) :
  indexOf c s 0 = -1 <-> find c s = None.
Proof.
  unfold indexOf. simpl. destruct (find c s); split; intros H;
    try reflexivity; try discriminate; lia.
Qed.

Lemma find_app_none (c : N) (a b : jsstring) :
  find c (a ++ b) = None -> find c a = None.
Proof.
  induction a as [|d a IH]; simpl; [reflexivity|].
  destruct (d =? c)%N; [discriminate|].
  destruct (find c (a ++ b)); [discriminate|].
  intros _. rewrite IH; reflexivity.
Qed.

Lemma appendContinuation_extends (remainder nextTrimmed : jsstring) :
  exists x, appendContinuation remainder nextTrimmed = remainder ++ x.
Proof.
  unfold appendContinuation.
  destruct (0 <? length nextTrimmed).
  - destruct (_ && _ && _).
    + exists (js " " ++ nextTrimmed). rewrite <- app_assoc. reflexivity.
    + exists nextTrimmed. reflexivity.
  - exists []. symmetry. apply app_nil_r.
Qed.

Lemma fold_appendContinuation_extends (l : list jsstring) :
  forall remainder, exists x, fold_left appendContinuation l remainder = remainder ++ x.
Proof.
  induction l as [|t l IH]; intros remainder; simpl.
  - exists []. symmetry. apply app_nil_r.
  - destruct (appendContinuation_extends remainder t) as [x Hx].
    destruct (IH (appendContinuation remainder t)) as [y Hy].
    exists (x ++ y). rewrite Hy, Hx, <- app_assoc. reflexivity.
Qed.

(** When the joined text has no closing parenthesis, the loop consumes
    exactly the continuation lines and ends with [closeIdx = -1]. *)
Lemma continuation_unclosed (following : list jsstring) :
  forall remainder,
    let joined :=
      fold_left appendContinuation
        (map (fun raw => trim (stripRoutineComment raw)) (takeWhile continues following))
        remainder in
    indexOf (cu ")") joined 0 = -1 ->
    continuation remainder following = (joined, -1).
Proof.
  induction following as [|raw rest IH]; intros remainder joined H; [reflexivity|].
  subst joined. simpl in *.
  destruct (continues raw); simpl in *; [|reflexivity].
  set (r := appendContinuation remainder (trim (stripRoutineComment raw))) in *.
  destruct (fold_appendContinuation_extends
              (map (fun raw => trim (stripRoutineComment raw))
                   (takeWhile continues rest)) r) as [x Hx].
  assert (Hr : indexOf (cu ")") r 0 = -1).
  { apply indexOf_none. apply indexOf_none in H. rewrite Hx in H.
    eapply find_app_none. exact H. }
  change (cu ")") with 41%N in Hr.
  rewrite Hr. simpl. apply IH. exact H.
Qed.

Lemma at_app_middle {A : Type} (before : list A) (x : A) (following : list A) :
  at_ (before ++ x :: following) (Z.of_nat (List.length before)) = Some x.
Proof.
  unfold at_. destruct (Z.of_nat _ <? 0) eqn:E; [apply Z.ltb_lt in E; lia|].
  rewrite Nat2Z.id, nth_error_app2, Nat.sub_diag by lia. reflexivity.
Qed.

Lemma skipn_app_middle {A : Type} (before : list A) (x : A) (following : list A) :
  skipn (Z.to_nat (Z.of_nat (List.length before) + 1)) (before ++ x :: following)
  = following.
Proof.
  replace (Z.to_nat (Z.of_nat (List.length before) + 1))
    with (List.length before + 1)%nat by lia.
  rewrite skipn_app, skipn_all2 by lia.
  replace (List.length before + 1 - List.length before)%nat with 1%nat by lia.
  reflexivity.
Qed.

(** C8. When the label line opens a parameter list that is closed neither
    on that line nor on its continuation lines, the resolver still answers:
    a line after the label line is consumed only if, without its comment, it
    does not begin with a letter or [%] (the first line that does ends the
    list), and the parameter list is all the joined text, trimmed. *)
Theorem unclosed_parameter_list_falls_back :
  forall (label labelLine : jsstring) (before following : list jsstring)
         (parenLine parenPos : Z) (w : World),
    0 <= indexOf (cu "(") (stripRoutineComment labelLine) 0 ->
    indexOf (cu ")") (joinedParameterText labelLine following) 0 = -1 ->
    (forall remainder raw rest,
        startsLabel (charAt (stripRoutineComment raw) 0) = true ->
        continuation remainder (raw :: rest) = (remainder, -1))
    /\ labelParamString labelLine following
       = trim (joinedParameterText labelLine following)
    /\ exists details,
         signatureOfLabel label (before ++ labelLine :: following)
           (Z.of_nat (List.length before)) parenLine parenPos w
         = (Ret details, w)
         /\ RoutineSignatureDetails.parameters details
            = splitRoutineParams (trim (joinedParameterText labelLine following)).
Proof.
  intros label labelLine before following parenLine parenPos w Hopen Hclose.
  assert (Hparam : labelParamString labelLine following
                   = trim (joinedParameterText labelLine following)).
  { unfold labelParamString, joinedParameterText in *.
    set (noComment := stripRoutineComment labelLine) in *.
    destruct (indexOf (cu "(") noComment 0 >=? 0) eqn:E;
      [|rewrite Z.geb_leb in E; apply Z.leb_gt in E; lia].
    set (remainder := sliceFrom noComment (indexOf (cu "(") noComment 0 + 1)) in *.
    destruct (fold_appendContinuation_extends
                (map (fun raw => trim (stripRoutineComment raw))
                     (takeWhile continues following)) remainder) as [x Hx].
    assert (Hr : indexOf (cu ")") remainder 0 = -1).
    { apply indexOf_none. apply indexOf_none in Hclose. rewrite Hx in Hclose.
      eapply find_app_none. exact Hclose. }
    rewrite Hr. simpl.
    rewrite (continuation_unclosed following remainder Hclose). reflexivity. }
  split; [|split; [exact Hparam|]].
  - intros remainder raw rest Hstart. simpl. unfold continues.
    rewrite Hstart.
    destruct (0 <? length (stripRoutineComment raw)) eqn:E; [reflexivity|].
    unfold charAt in Hstart. change (0 <=? 0) with true in Hstart.
    rewrite E in Hstart. discriminate.
  - unfold signatureOfLabel, bind, defined.
    rewrite at_app_middle, skipn_app_middle. unfold ret.
    eexists. split; [reflexivity|]. simpl. rewrite Hparam. reflexivity.
Qed.

Lemma unclosed_parameter_list_falls_back_witness :
  labelParamString (js "Label(a,") [js " b ; second parameter"; js "Next(x)"] = js "a, b"
  /\ exists details,
       signatureOfLabel (js "Label")
         ([js "ROUTINE Demo"] ++ js "Label(a," :: [js " b ; second parameter"; js "Next(x)"])
         1 0 16 Example.idle
       = (Ret details, Example.idle)
       /\ RoutineSignatureDetails.parameters details = [js "a"; js "b"].
Proof.
  exact (proj2 (unclosed_parameter_list_falls_back
                  (js "Label") (js "Label(a,") [js "ROUTINE Demo"]
                  [js " b ; second parameter"; js "Next(x)"] 0 16 Example.idle
                  ltac:(vm_compute; discriminate) ltac:(vm_compute; reflexivity))).
Defined.

(* ================================================================== *)
(** ** The routine resolver: the call pattern and the label line *)
(* ================================================================== *)













(* ================================================================== *)
(** ** The session: closing the argument list *)
(* ================================================================== *)

(** C7, as the code has it.  On a retrigger that is not an open
    parenthesis, for a request with a context on an open and parsed document
    whose cursor line has a token, with an active session (an active
    signature help and a start position) and the closing parenthesis as the
    character before the cursor: when the token under the cursor is
    ObjectScript and an even number of double quotes precedes the cursor on
    its line, [onSignatureHelp] returns no result and clears the
    documentation cache and the start position; the macro expansion context
    is left as it was, and no request is sent.  When the token is not
    ObjectScript, or an odd number of double quotes precedes the cursor
    (the cursor is inside a string literal), the session is kept as it is
    and the answer is the active help with the cached documentation on its
    first signature (a [TypeError] when it has no signature). *)
Theorem closing_paren_ends_session :
  forall (env : Env) (fuel : nat) (params : SignatureHelpParams.t)
         (context : SignatureHelpContext.t) (doc : TextDocument.t)
         (parsed : list compressedline) (tokens : compressedline) (tk : Token.t)
         (active : SignatureHelp.t) (startPosition : Position.t) (w : World),
    let uri := SignatureHelpParams.uri params in
    let position := SignatureHelpParams.position params in
    let quotes :=
      Z.of_nat
        (List.length
           (split quote
              (TextDocument.getText doc
                 (Range.create (Position.create (Position.line position) 0) position))))
      - 1 in
    SignatureHelpParams.context params = Some context ->
    documents_get env uri = Some doc ->
    getParsedDocument env uri = Some parsed ->
    at_ parsed (Position.line position) = Some tokens ->
    at_ tokens (locateToken tokens 0 (Position.character position) (-1)) = Some tk ->
    SignatureHelpContext.isRetrigger context = true ->
    SignatureHelpContext.triggerKind context = Invoked
    \/ isChar (SignatureHelpContext.triggerCharacter context) (js "(") = false ->
    SignatureHelpContext.activeSignatureHelp context = Some active ->
    signatureHelpStartPosition w = Some startPosition ->
    charBefore doc position = js ")" ->
    (Token.l tk = cos_langindex (ld env) ->
     quotes mod 2 <> 1 ->
     onSignatureHelp env fuel params w
     = (Ret None,
        {| signatureHelpMacroCache := signatureHelpMacroCache w;
           signatureHelpDocumentationCache := None;
           signatureHelpStartPosition := None;
           requests := requests w |}))
    /\ (Token.l tk <> cos_langindex (ld env) \/ quotes mod 2 = 1 ->
        onSignatureHelp env fuel params w
        = (match SignatureHelp.signatures active with
           | [] => Throw
           | sig :: rest =>
               Ret (Some
                      {| SignatureHelp.signatures :=
                           withDocumentation sig (cachedDoc w) :: rest;
                         SignatureHelp.activeSignature :=
                           SignatureHelp.activeSignature active;
                         SignatureHelp.activeParameter :=
                           SignatureHelp.activeParameter active |})
           end, w)).
Proof.
  intros env fuel params context doc parsed tokens tk active startPosition w
    uri position quotes Hcontext Hdoc Hparsed Htokens Htk Hretrigger
    Htrigger Hactive Hstart Hprev.
  assert (Hfound : (locateToken tokens 0 (Position.character position) (-1) =? -1)
                   = false).
  { apply Z.eqb_neq. intros E. rewrite E in Htk. discriminate Htk. }
  split.
  - intros Hlang Hquotes.
    unfold onSignatureHelp. fold uri. fold position.
    rewrite Hcontext, Hdoc, Hparsed, Htokens.
    cbn [defined]. unfold bind at 1. cbn [ret].
    rewrite Hfound, Htk. cbn [defined]. unfold bind at 1. cbn [ret].
    rewrite Hlang, Z.eqb_refl. cbn [negb orb]. fold quotes.
    destruct (quotes mod 2 =? 1) eqn:Eq; [apply Z.eqb_eq in Eq; contradiction|].
    rewrite Hretrigger, Hactive. cbn [andb].
    assert (Hnot : isChar
                     match SignatureHelpContext.triggerKind context with
                     | Invoked => Some (charBefore doc position)
                     | _ => SignatureHelpContext.triggerCharacter context
                     end (js "(") = false).
    { destruct Htrigger as [-> | H].
      - rewrite Hprev. reflexivity.
      - destruct (SignatureHelpContext.triggerKind context);
          [rewrite Hprev; reflexivity|exact H|exact H]. }
    rewrite Hnot. cbn [negb].
    unfold retrigger. unfold bind at 1. unfold get. rewrite Hstart, Hprev.
    reflexivity.
  - intros Houtside.
    unfold onSignatureHelp. fold uri. fold position.
    rewrite Hcontext, Hdoc, Hparsed, Htokens.
    cbn [defined]. unfold bind at 1. cbn [ret].
    rewrite Hfound, Htk. cbn [defined]. unfold bind at 1. cbn [ret].
    fold quotes.
    assert (Hguard : negb (Token.l tk =? cos_langindex (ld env))
                     || (quotes mod 2 =? 1) = true).
    { apply orb_true_iff. destruct Houtside as [Hlang | Hquotes].
      - left. apply negb_true_iff. apply Z.eqb_neq. exact Hlang.
      - right. apply Z.eqb_eq. exact Hquotes. }
    rewrite Hguard, Hactive.
    unfold bind, get, setDocumentation0.
    destruct (SignatureHelp.signatures active) as [|sig rest]; reflexivity.
Qed.

Lemma closing_paren_ends_session_witness :
  onSignatureHelp Scenario.closedEnv 0
    (Scenario.request 0 22
       (Scenario.retriggered (js ")") (newSignature Scenario.macroSignature (Some 1))))
    Scenario.macroSession
  = (Ret None,
     {| signatureHelpMacroCache := Some Scenario.macroArguments;
        signatureHelpDocumentationCache := None;
        signatureHelpStartPosition := None;
        requests := [] |}).
Proof.
  refine (proj1 (closing_paren_ends_session Scenario.closedEnv 0
                   (Scenario.request 0 22
                      (Scenario.retriggered (js ")")
                         (newSignature Scenario.macroSignature (Some 1))))
                   (Scenario.retriggered (js ")")
                      (newSignature Scenario.macroSignature (Some 1)))
                   Scenario.closedDocument
                   Scenario.closedTokens _ (Example.token 21 1 Scenario.delimiter) _
                   (Position.create 0 18) Scenario.macroSession
                   eq_refl eq_refl eq_refl eq_refl eq_refl eq_refl
                   (or_intror eq_refl) eq_refl eq_refl eq_refl)
            eq_refl _).
  vm_compute. discriminate.
Defined.

(** C7 fails for the macro expansion context: after the closing parenthesis
    it still holds the macro of the session that ended. *)
Lemma closing_paren_keeps_macro_context :
  exists w',
    onSignatureHelp Scenario.closedEnv 0
      (Scenario.request 0 22
         (Scenario.retriggered (js ")") (newSignature Scenario.macroSignature (Some 1))))
      Scenario.macroSession
    = (Ret None, w')
    /\ signatureHelpDocumentationCache w' = None
    /\ signatureHelpStartPosition w' = None
    /\ signatureHelpMacroCache w' = Some Scenario.macroArguments
    /\ signatureHelpMacroCache w' <> None.
Proof.
  eexists. split; [vm_compute; reflexivity|].
  repeat split. discriminate.
Qed.

(* ================================================================== *)
(** ** The class-member resolver: constructors *)
(* ================================================================== *)

Lemma onNewOverridden_none (rows : list Row.t) :
  (forall r0 r1, rows = [r0; r1] -> Row.Origin r1 = js "%Library.RegisteredObject") ->
  onNewOverridden rows = None.
Proof.
  intros H. destruct rows as [|r0 [|r1 [|r2 rows]]]; try reflexivity.
  simpl. rewrite (H r0 r1 eq_refl). reflexivity.
Qed.

(** C2, as the code has it.  At the open parenthesis after [%New], for a
    class whose [%OnNew] is not overridden beyond the library default
    origin, the class-member resolver produces no signature: the
    class-member block of [onSignatureHelp] leaves [newsignature] null, or
    returns null when the class is unknown, and [getMethodSignatureDetails]
    returns null. *)
Theorem constructor_without_hook_has_no_signature :
  forall (env : Env) (doc : TextDocument.t) (parsed : list compressedline)
         (line parenToken character : Z) (tokens : compressedline)
         (parenTok membertok : Token.t) (server : ServerSpec env) (uri : jsstring)
         (w : World),
    let baseclass := getClassMemberContext env doc parsed (parenToken - 2) line server in
    at_ parsed line = Some tokens ->
    at_ tokens parenToken = Some parenTok ->
    at_ tokens (parenToken - 1) = Some membertok ->
    TextDocument.getText doc
      (Range.create (Position.create line (Token.p membertok))
                    (Position.create line (Token.p membertok + Token.c membertok)))
    = js "%New" ->
    (forall rows r0 r1,
        query env server queryNewAndOnNew
          [baseclass; quoteUDLIdentifier env (js "%New") 0; js "%OnNew"]
        = Some rows ->
        rows = [r0; r1] ->
        Row.Origin r1 = js "%Library.RegisteredObject") ->
    (exists w',
        memberOpen env doc parsed server uri (Position.create line character)
          parenToken membertok w
        = (Ret (Continue None), w')
        \/ memberOpen env doc parsed server uri (Position.create line character)
             parenToken membertok w
           = (Ret (Return None), w'))
    /\ (exists w',
           getMethodSignatureDetails env doc parsed line parenToken server w
           = (Ret None, w')).
Proof.
  intros env doc parsed line parenToken character tokens parenTok membertok
    server uri w baseclass Hline Hparen Hmember Htext Hrows.
  split.
  - unfold memberOpen. cbn [Position.line]. rewrite Htext. fold baseclass.
    destruct (streq baseclass []); [eexists; right; reflexivity|].
    unfold makeMemberQuery. change (streq (js "%New") (js "%New")) with true.
    cbv beta iota. unfold makeQueryRequest, bind, send, ret.
    destruct (query env server queryNewAndOnNew _) as [[|row0 rows']|] eqn:Q;
      try (eexists; left; reflexivity).
    rewrite (onNewOverridden_none (row0 :: rows')
               (fun r0 r1 => Hrows _ r0 r1 eq_refl)).
    eexists. left. reflexivity.
  - unfold getMethodSignatureDetails. rewrite Hline, Hparen, Hmember.
    destruct (negb (isMemberToken env membertok)); [eexists; reflexivity|].
    rewrite Htext. fold baseclass.
    destruct (streq baseclass []); [eexists; reflexivity|].
    unfold makeMemberQuery. change (streq (js "%New") (js "%New")) with true.
    cbv beta iota. unfold makeQueryRequest, bind, send, ret.
    destruct (query env server queryNewAndOnNew _) as [[|row0 rows']|] eqn:Q;
      try (eexists; reflexivity).
    rewrite (onNewOverridden_none (row0 :: rows')
               (fun r0 r1 => Hrows _ r0 r1 eq_refl)).
    eexists. reflexivity.
Qed.

Lemma constructor_without_hook_has_no_signature_witness :
  (exists w',
      memberOpen Scenario.newEnv Scenario.newDocument Scenario.newTokens tt
        Scenario.uri (Position.create 0 33) 9 (Example.token 28 4 7) Example.idle
      = (Ret (Continue None), w')
      \/ memberOpen Scenario.newEnv Scenario.newDocument Scenario.newTokens tt
           Scenario.uri (Position.create 0 33) 9 (Example.token 28 4 7) Example.idle
         = (Ret (Return None), w'))
  /\ (exists w',
         getMethodSignatureDetails Scenario.newEnv Scenario.newDocument
           Scenario.newTokens 0 9 tt Example.idle
         = (Ret None, w')).
Proof.
  refine (constructor_without_hook_has_no_signature Scenario.newEnv
            Scenario.newDocument Scenario.newTokens 0 9 33 _
            (Example.token 32 1 Scenario.delimiter) (Example.token 28 4 7) tt
            Scenario.uri Example.idle eq_refl eq_refl eq_refl eq_refl _).
  intros rows r0 r1 Hq Hrows. cbn in Hq. injection Hq as <-.
  injection Hrows as _ <-. reflexivity.
Defined.

(** C2 fails: with the two inherited rows of [%New] and [%OnNew], neither
    resolver answers with a signature of zero parameters; both answer with
    no result. *)
Lemma constructor_without_hook_counterexample :
  fst (onSignatureHelp Scenario.newEnv 0
         (Scenario.request 0 33 Scenario.typedOpenParen) Example.idle)
  = Ret None
  /\ fst (getMethodSignatureDetails Scenario.newEnv Scenario.newDocument
            Scenario.newTokens 0 9 tt Example.idle)
     = Ret None.
Proof. split; vm_compute; reflexivity. Qed.

(* ================================================================== *)
(** ** The macro resolver *)
(* ================================================================== *)

(** C5, as the code has it.  When a [(] is typed after a macro and the
    remote service answers the signature [(arg1,arg2)], the macro resolver
    produces the label [(arg1, arg2)] with exactly 2 parameter spans and
    sends, right after the signature request, an expansion request in which
    [arg1] is the emphasized argument.  When the answer is the bare
    [arg1,arg2], the label is [arg1, arg2] with the single span [[1, 9)], and
    the expansion request is sent with the markers around [rg1]. *)
Theorem macro_signature_and_expansion_request :
  forall (env : Env) (fuel : nat) (doc : TextDocument.t) (parsed : list compressedline)
         (server : ServerSpec env) (uri : jsstring) (position : Position.t)
         (thistoken : Z) (prevtok : Token.t) (active : option SignatureHelp.t)
         (w : World) (response sigtext arguments : jsstring)
         (spans : list ParameterInformation.t),
    let maccon := getMacroContext env doc parsed (Position.line position) in
    let macroname :=
      sliceFrom
        (TextDocument.getText doc
           (findFullRange env (Position.line position) parsed (thistoken - 1)
              (Token.p prevtok) (Token.p prevtok + Token.c prevtok))) 3 in
    In (response, sigtext, spans, arguments)
       [(js "(arg1,arg2)", js "(arg1, arg2)",
         [ParameterInformation.create (Span 1 5);
          ParameterInformation.create (Span 6 11)],
         js "(%%%%%arg1@@@@@,arg2)");
        (js "arg1,arg2", js "arg1, arg2",
         [ParameterInformation.create (Span 1 9)],
         js "a%%%%%rg1@@@@@,arg2")] ->
    isMacroToken env prevtok = true ->
    getmacrosignature env server (macroSignatureInput maccon macroname) = Some response ->
    exists sig w',
      openParen env fuel doc parsed server uri position thistoken prevtok active w
      = (Ret (Some (newSignature sig (Some 0))), w')
      /\ SignatureInformation.label sig = sigtext
      /\ SignatureInformation.parameters sig = Some spans
      /\ requests w'
         = requests w
             ++ [GetMacroSignature (macroSignatureInput maccon macroname);
                 GetMacroExpansion
                   (SignatureHelpMacroContext.withArguments
                      (macroCacheOf maccon macroname sigtext) arguments)]
      /\ signatureHelpMacroCache w' = Some (macroCacheOf maccon macroname sigtext)
      /\ signatureHelpStartPosition w' = Some position.
Proof.
  intros env fuel doc parsed server uri position thistoken prevtok active w
    response sigtext arguments spans maccon macroname Hin Hmacro Hresponse.
  unfold openParen. rewrite Hmacro.
  unfold resolveMacro. fold maccon. fold macroname.
  unfold makeMacroSignatureRequest, makeMacroExpansionRequest.
  unfold bind, send, ret, setMacroCache, setStartPosition, setDocumentationCache.
  cbn [requests signatureHelpMacroCache signatureHelpDocumentationCache
       signatureHelpStartPosition].
  rewrite Hresponse.
  destruct Hin as [E | [E | []]]; injection E as <- <- <- <-.
  - change (spaceAfterCommas (removeWhitespace (js "(arg1,arg2)")))
      with (js "(arg1, arg2)").
    change (emphasizeArgument fuel (js "(arg1, arg2)") (0 + 1))
      with (Some (js "(%%%%%arg1@@@@@,arg2)")).
    change (negb (streq (js "(arg1,arg2)") [])) with true.
    unfold emphasized, ret. cbv beta iota.
    destruct (getmacroexpansion env server _) as [[|e es]|];
      eexists; eexists; cbv beta iota;
      cbn [requests signatureHelpMacroCache signatureHelpStartPosition
           SignatureInformation.label SignatureInformation.parameters
           withDocumentation];
      rewrite <- app_assoc; repeat split; reflexivity.
  - change (spaceAfterCommas (removeWhitespace (js "arg1,arg2")))
      with (js "arg1, arg2").
    change (emphasizeArgument fuel (js "arg1, arg2") (0 + 1))
      with (Some (js "a%%%%%rg1@@@@@,arg2")).
    change (negb (streq (js "arg1,arg2") [])) with true.
    unfold emphasized, ret. cbv beta iota.
    destruct (getmacroexpansion env server _) as [[|e es]|];
      eexists; eexists; cbv beta iota;
      cbn [requests signatureHelpMacroCache signatureHelpStartPosition
           SignatureInformation.label SignatureInformation.parameters
           withDocumentation];
      rewrite <- app_assoc; repeat split; reflexivity.
Qed.

Lemma macro_signature_and_expansion_request_witness :
  exists sig w',
    openParen (Scenario.macroEnv (js "(arg1,arg2)")) 0 Scenario.macroDocument
      Scenario.macroTokens tt Scenario.uri (Position.create 0 18) 2
      (Example.token 7 10 6) None Example.idle
    = (Ret (Some (newSignature sig (Some 0))), w')
    /\ SignatureInformation.label sig = js "(arg1, arg2)"
    /\ SignatureInformation.parameters sig
       = Some [ParameterInformation.create (Span 1 5);
               ParameterInformation.create (Span 6 11)]
    /\ requests w'
       = [GetMacroSignature (macroSignatureInput Example.macroContext (js "MyMacro"));
          GetMacroExpansion
            (SignatureHelpMacroContext.withArguments Scenario.macroArguments
               (js "(%%%%%arg1@@@@@,arg2)"))]
    /\ signatureHelpMacroCache w' = Some Scenario.macroArguments
    /\ signatureHelpStartPosition w' = Some (Position.create 0 18).
Proof.
  exact (macro_signature_and_expansion_request
           (Scenario.macroEnv (js "(arg1,arg2)")) 0 Scenario.macroDocument
           Scenario.macroTokens tt Scenario.uri (Position.create 0 18) 2
           (Example.token 7 10 6) None Example.idle
           (js "(arg1,arg2)") (js "(arg1, arg2)") (js "(%%%%%arg1@@@@@,arg2)")
           [ParameterInformation.create (Span 1 5);
            ParameterInformation.create (Span 6 11)]
           (or_introl eq_refl) eq_refl eq_refl).
Defined.

(** C5 fails on the answer [arg1,arg2]: the signature has 1 parameter span,
    not 2, and the expansion request emphasizes [rg1], not [arg1]. *)
Lemma macro_bare_signature_counterexample :
  exists sig w',
    onSignatureHelp (Scenario.macroEnv (js "arg1,arg2")) 0
      (Scenario.request 0 18 Scenario.typedOpenParen) Example.idle
    = (Ret (Some (newSignature sig (Some 0))), w')
    /\ SignatureInformation.label sig = js "arg1, arg2"
    /\ SignatureInformation.parameters sig
       = Some [ParameterInformation.create (Span 1 9)]
    /\ requests w'
       = [GetMacroSignature (macroSignatureInput Example.macroContext (js "MyMacro"));
          GetMacroExpansion
            (SignatureHelpMacroContext.withArguments
               (macroCacheOf Example.macroContext (js "MyMacro") (js "arg1, arg2"))
               (js "a%%%%%rg1@@@@@,arg2"))].
Proof.
  eexists. eexists. split; [vm_compute; reflexivity|].
  repeat split; reflexivity.
Qed.

(* ================================================================== *)
(** ** The active parameter on a retrigger *)
(* ================================================================== *)

(** On a retrigger of a method signature the active parameter is what
    [determineActiveParam] computes, whatever the number of parameters. *)
Lemma retrigger_method_active_parameter :
  forall (env : Env) (fuel : nat) (doc : TextDocument.t) (server : ServerSpec env)
         (position startPosition : Position.t) (active : SignatureHelp.t)
         (cache : SignatureHelpDocCache.t) (w : World),
    signatureHelpStartPosition w = Some startPosition ->
    signatureHelpDocumentationCache w = Some cache ->
    SignatureHelpDocCache.type cache = method ->
    streq (charBefore doc position) (js ")") = false ->
    SignatureHelp.signatures active <> [] ->
    exists h,
      retrigger env fuel doc server position (Some active) w = (Ret (Some h), w)
      /\ SignatureHelp.activeParameter h
         = determineActiveParam env
             (TextDocument.getText doc (Range.create startPosition position)).
Proof.
  intros env fuel doc server position startPosition active cache w
    Hstart Hcache Htype Hprev Hsigs.
  unfold retrigger, bind, get. cbn [ret]. rewrite Hstart, Hprev, Hcache, Htype.
  unfold setDocumentation0. cbn [withActiveParameter SignatureHelp.signatures].
  destruct (SignatureHelp.signatures active) as [|sig rest]; [contradiction|].
  eexists. split; reflexivity.
Qed.

Lemma boundedIndexOf_valid (active : option Z) (n : Z) :
  0 <= n ->
  match boundedIndexOf active n with
  | Some i => 0 <= i < n
  | None => n = 0
  end.
Proof.
  intros Hn. unfold boundedIndexOf, clampIndex.
  destruct (n =? 0) eqn:E; simpl.
  - apply Z.eqb_eq. exact E.
  - apply Z.eqb_neq in E. lia.
Qed.

(** On a retrigger of a routine signature the active parameter is clamped
    into the parameter list. *)
Lemma retrigger_routine_active_parameter :
  forall (env : Env) (fuel : nat) (doc : TextDocument.t) (server : ServerSpec env)
         (position startPosition : Position.t) (active : SignatureHelp.t)
         (sig : SignatureInformation.t) (rest : list SignatureInformation.t)
         (cache : SignatureHelpDocCache.t) (w : World),
    signatureHelpStartPosition w = Some startPosition ->
    signatureHelpDocumentationCache w = Some cache ->
    SignatureHelpDocCache.type cache = routine ->
    streq (charBefore doc position) (js ")") = false ->
    SignatureHelp.signatures active = sig :: rest ->
    exists h w',
      retrigger env fuel doc server position (Some active) w = (Ret (Some h), w')
      /\ match SignatureHelp.activeParameter h with
         | Some i => 0 <= i < paramCount sig
         | None => paramCount sig = 0
         end.
Proof.
  intros env fuel doc server position startPosition active sig rest cache w
    Hstart Hcache Htype Hprev Hsigs.
  unfold retrigger, bind, get. cbn [ret]. rewrite Hstart, Hprev, Hcache, Htype.
  destruct (determineActiveParam env _) as [a|].
  all: cbn [withActiveParameter SignatureHelp.signatures].
  all: rewrite Hsigs; cbn [defined hd_error ret].
  all: unfold setDocumentationCache, setDocumentation0, withActiveParameter.
  all: cbn [SignatureHelp.signatures SignatureHelp.activeParameter].
  all: rewrite Hsigs; unfold ret.
  all: eexists; eexists; (split; [reflexivity|]).
  all: cbn [SignatureHelp.activeParameter].
  all: apply boundedIndexOf_valid; unfold paramCount.
  all: destruct (SignatureInformation.parameters sig); lia.
Qed.

(** C1 fails on a retrigger of a method signature: with the two parameters
    of [saveSignature] and the text [a,b,] typed since the start position,
    [onSignatureHelp] reports the active parameter 2, which is not an index
    of the parameter list. *)
Theorem retrigger_method_index_out_of_range :
  exists h,
    onSignatureHelp Scenario.saveEnv 0
      (Scenario.request 0 15 (Scenario.retriggered (js ",") Scenario.saveActive))
      Scenario.saveSession
    = (Ret (Some h), Scenario.saveSession)
    /\ SignatureHelp.signatures h = [Scenario.saveSignature]
    /\ paramCount Scenario.saveSignature = 2
    /\ TextDocument.getText Scenario.saveDocument
         (Range.create (Position.create 0 11) (Position.create 0 15))
       = js "a,b,"
    /\ SignatureHelp.activeParameter h = Some 2.
Proof.
  eexists. split; [vm_compute; reflexivity|].
  repeat split; reflexivity.
Qed.

(* ================================================================== *)
(** ** Sets and maps of URIs *)
(* ================================================================== *)

Lemma streq_sym (a b : jsstring) : streq a b = streq b a.
Proof.
  destruct (streq a b) eqn:E.
  - apply streq_eq in E. subst. symmetry. apply streq_refl.
  - destruct (streq b a) eqn:E'; [|reflexivity].
    apply streq_eq in E'. subst. rewrite streq_refl in E. discriminate.
Qed.

Lemma streq_neq (a b : jsstring) : a <> b -> streq a b = false.
Proof.
  intros H. destruct (streq a b) eqn:E; [|reflexivity].
  apply streq_eq in E. contradiction.
Qed.

Module UriSetFacts.
Import UriSet.

Lemma has_add_same (s : t) (uri : jsstring) : has (add s uri) uri = true.
Proof.
  unfold add. destruct (has s uri) eqn:E; [exact E|].
  unfold has. rewrite existsb_app. simpl. rewrite streq_refl.
  rewrite orb_true_r. reflexivity.
Qed.

Lemma has_add_other (s : t) (uri other : jsstring) :
  other <> uri -> has (add s uri) other = has s other.
Proof.
  intros H. unfold add. destruct (has s uri); [reflexivity|].
  unfold has. rewrite existsb_app. simpl. rewrite (streq_neq _ _ H).
  rewrite !orb_false_r. reflexivity.
Qed.

Lemma has_delete_same (s : t) (uri : jsstring) : has (delete s uri) uri = false.
Proof.
  unfold has, delete. induction s as [|x s IH]; simpl; [reflexivity|].
  destruct (streq uri x) eqn:E; simpl; [exact IH|].
  rewrite E. exact IH.
Qed.

Lemma has_delete_other (s : t) (uri other : jsstring) :
  other <> uri -> has (delete s uri) other = has s other.
Proof.
  intros H. unfold has, delete. induction s as [|x s IH]; simpl; [reflexivity|].
  destruct (streq uri x) eqn:E; simpl.
  - apply streq_eq in E. subst x. rewrite (streq_neq _ _ H). exact IH.
  - rewrite IH. reflexivity.
Qed.

Lemma delete_absent_uri (s : t) (uri : jsstring) : has s uri = false -> delete s uri = s.
Proof.
  unfold has, delete. induction s as [|x s IH]; simpl; [reflexivity|].
  intros H. apply orb_false_iff in H. destruct H as [Hx Hs].
  rewrite Hx. simpl. rewrite IH by exact Hs. reflexivity.
Qed.

End UriSetFacts.

Module UriMapFacts.
Import UriMap.

Lemma get_set_same (m : t) (uri : jsstring) (v : Z) : get (set m uri v) uri = Some v.
Proof.
  induction m as [|[k x] m IH]; simpl.
  - rewrite streq_refl. reflexivity.
  - destruct (streq uri k) eqn:E; simpl; rewrite E; [reflexivity|exact IH].
Qed.

Lemma get_set_other (m : t) (uri other : jsstring) (v : Z) :
  other <> uri -> get (set m uri v) other = get m other.
Proof.
  intros H. induction m as [|[k x] m IH]; simpl.
  - rewrite (streq_neq _ _ H). reflexivity.
  - destruct (streq uri k) eqn:E; simpl.
    + apply streq_eq in E. subst k. rewrite (streq_neq _ _ H). reflexivity.
    + rewrite IH. reflexivity.
Qed.

Lemma get_delete_same (m : t) (uri : jsstring) : get (delete m uri) uri = None.
Proof.
  unfold delete. induction m as [|[k x] m IH]; simpl; [reflexivity|].
  destruct (streq uri k) eqn:E; simpl; [exact IH|].
  rewrite E. exact IH.
Qed.

Lemma get_delete_other (m : t) (uri other : jsstring) :
  other <> uri -> get (delete m uri) other = get m other.
Proof.
  intros H. unfold delete. induction m as [|[k x] m IH]; simpl; [reflexivity|].
  destruct (streq uri k) eqn:E; simpl.
  - apply streq_eq in E. subst k. rewrite (streq_neq _ _ H). exact IH.
  - rewrite IH. reflexivity.
Qed.

Lemma delete_absent_key (m : t) (uri : jsstring) : get m uri = None -> delete m uri = m.
Proof.
  unfold delete. induction m as [|[k x] m IH]; simpl; [reflexivity|].
  destruct (streq uri k) eqn:E; [discriminate|].
  intros H. simpl. rewrite IH by exact H. reflexivity.
Qed.

End UriMapFacts.

(* ================================================================== *)
(** ** The format-skip control of the client *)
(* ================================================================== *)

Module FormattingControlFacts.
Import FormattingControl.

Lemma view_purgeExpiredEntries (uri : jsstring) (now : Z) (st : state) :
  view (purgeExpiredEntries uri now st) uri
  = (UriSet.has (skipUris st) uri, UriSet.has (autoSkipUris st) uri,
     purged now (UriMap.get (manualAllowances st) uri),
     purged now (UriMap.get (compileBlocks st) uri)).
Proof.
  unfold purgeExpiredEntries, view, purged.
  destruct (UriMap.get (manualAllowances st) uri) as [m|] eqn:Em;
    [destruct (m <? now) eqn:Lm|];
    cbn [withManualAllowances compileBlocks manualAllowances skipUris autoSkipUris];
    (destruct (UriMap.get (compileBlocks st) uri) as [c|] eqn:Ec;
     [destruct (c <? now) eqn:Lc|]);
    cbn [withCompileBlocks withManualAllowances compileBlocks manualAllowances
         skipUris autoSkipUris];
    rewrite ?UriMapFacts.get_delete_same, ?Em, ?Ec; reflexivity.
Qed.

Lemma other_purgeExpiredEntries (uri other : jsstring) (now : Z) (st : state) :
  other <> uri ->
  view (purgeExpiredEntries uri now st) other = view st other.
Proof.
  intros H. unfold purgeExpiredEntries, view.
  destruct (UriMap.get (manualAllowances st) uri) as [m|];
    [destruct (m <? now)|];
    cbn [withManualAllowances compileBlocks manualAllowances skipUris autoSkipUris];
    (destruct (UriMap.get (compileBlocks st) uri) as [c|];
     [destruct (c <? now)|]);
    cbn [withCompileBlocks withManualAllowances compileBlocks manualAllowances
         skipUris autoSkipUris];
    rewrite ?(UriMapFacts.get_delete_other _ _ _ H); reflexivity.
Qed.

Lemma purged_some (now : Z) (expiry : option Z) (e : Z) :
  purged now expiry = Some e -> (e >=? now) = true.
Proof.
  unfold purged. destruct expiry as [x|]; [|discriminate].
  destruct (x <? now) eqn:L; [discriminate|].
  intros H. injection H as <-. apply Z.ltb_ge in L. apply Z.geb_le. lia.
Qed.

Lemma view_consumeFormatSkip (uri : jsstring) (now : Z) (st : state) :
  (fst (consumeFormatSkip uri now st), view (snd (consumeFormatSkip uri now st)) uri)
  = consumed now (view st uri).
Proof.
  unfold consumeFormatSkip.
  pose proof (view_purgeExpiredEntries uri now st) as Hv.
  set (st' := purgeExpiredEntries uri now st) in *.
  unfold view in Hv. injection Hv as Hs Ha Hm Hc.
  unfold consumed, view. cbv zeta. unfold UriMap.has.
  rewrite Hm, Hc.
  destruct (purged now (UriMap.get (manualAllowances st) uri)) as [m|] eqn:Em.
  - rewrite (purged_some _ _ _ Em).
    cbn [fst snd withSkipUris withAutoSkipUris skipUris autoSkipUris
         manualAllowances compileBlocks].
    rewrite !UriSetFacts.has_delete_same, Hm, Hc. reflexivity.
  - destruct (purged now (UriMap.get (compileBlocks st) uri)) as [c|] eqn:Ec.
    + cbn [fst snd]. rewrite Hs, Ha, Hm, Hc. reflexivity.
    + rewrite Hs. destruct (UriSet.has (skipUris st) uri) eqn:Es.
      * cbn [fst snd withSkipUris withAutoSkipUris skipUris autoSkipUris
             manualAllowances compileBlocks].
        rewrite !UriSetFacts.has_delete_same, Hm, Hc. reflexivity.
      * cbn [fst snd]. rewrite Hs, Ha, Hm, Hc. reflexivity.
Qed.

Lemma other_consumeFormatSkip (uri other : jsstring) (now : Z) (st : state) :
  other <> uri ->
  view (snd (consumeFormatSkip uri now st)) other = view st other.
Proof.
  intros H. unfold consumeFormatSkip.
  rewrite <- (other_purgeExpiredEntries uri other now st H).
  set (st' := purgeExpiredEntries uri now st).
  destruct (match UriMap.get (manualAllowances st') uri with
            | Some e => e >=? now
            | None => false
            end);
    [|destruct (UriMap.has (compileBlocks st') uri);
      [|destruct (UriSet.has (skipUris st') uri)]];
    unfold view;
    cbn [fst snd withSkipUris withAutoSkipUris skipUris autoSkipUris
         manualAllowances compileBlocks];
    rewrite ?(UriSetFacts.has_delete_other _ _ _ H); reflexivity.
Qed.

Lemma view_scheduleFormatSkip (uri : jsstring) (st : state) :
  view (scheduleFormatSkip uri st) uri
  = (true, true, None, UriMap.get (compileBlocks st) uri).
Proof.
  unfold view, scheduleFormatSkip.
  cbn [withSkipUris withAutoSkipUris withManualAllowances skipUris autoSkipUris
       manualAllowances compileBlocks].
  rewrite !UriSetFacts.has_add_same, UriMapFacts.get_delete_same. reflexivity.
Qed.

Lemma view_clearFormatSkip (uri : jsstring) (st : state) :
  view (clearFormatSkip uri st) uri
  = (false, false, None, UriMap.get (compileBlocks st) uri).
Proof.
  unfold view, clearFormatSkip.
  cbn [withSkipUris withAutoSkipUris withManualAllowances skipUris autoSkipUris
       manualAllowances compileBlocks].
  rewrite !UriSetFacts.has_delete_same, UriMapFacts.get_delete_same. reflexivity.
Qed.

Lemma view_removeFormatSkip (uri : jsstring) (st : state) :
  view (removeFormatSkip uri st) uri = (false, false, None, None).
Proof.
  unfold view, removeFormatSkip.
  cbn [withSkipUris withAutoSkipUris withManualAllowances withCompileBlocks
       skipUris autoSkipUris manualAllowances compileBlocks].
  rewrite !UriSetFacts.has_delete_same, !UriMapFacts.get_delete_same. reflexivity.
Qed.

Lemma view_blockFormatAfterCompile (uri : jsstring) (now : Z) (st : state) :
  view (blockFormatAfterCompile uri now st) uri
  = (true, false, None, Some (now + compileBlockMs)).
Proof.
  unfold view, blockFormatAfterCompile.
  cbn [withSkipUris withAutoSkipUris withManualAllowances withCompileBlocks
       skipUris autoSkipUris manualAllowances compileBlocks].
  rewrite UriSetFacts.has_add_same, UriSetFacts.has_delete_same,
    UriMapFacts.get_delete_same, UriMapFacts.get_set_same.
  reflexivity.
Qed.

Lemma view_allowManualFormat (uri : jsstring) (now : Z) (st : state) :
  view (allowManualFormat uri now st) uri
  = if UriSet.has (autoSkipUris st) uri then view st uri
    else (false, false, Some (now + manualAllowanceMs), None).
Proof.
  unfold allowManualFormat.
  destruct (UriSet.has (autoSkipUris st) uri) eqn:E; [reflexivity|].
  unfold view.
  cbn [withSkipUris withAutoSkipUris withManualAllowances withCompileBlocks
       skipUris autoSkipUris manualAllowances compileBlocks].
  rewrite UriSetFacts.has_delete_same, E, UriMapFacts.get_delete_same,
    UriMapFacts.get_set_same.
  reflexivity.
Qed.

Lemma other_perform (c : call) (other : jsstring) (st : state) :
  other <> target c ->
  view (perform st c) other = view st other.
Proof.
  intros H. destruct c as [uri|uri now|uri|uri|uri now|uri now]; cbn [target] in H;
    cbn [perform].
  - unfold view, scheduleFormatSkip.
    cbn [withSkipUris withAutoSkipUris withManualAllowances skipUris autoSkipUris
         manualAllowances compileBlocks].
    rewrite !(UriSetFacts.has_add_other _ _ _ H),
      (UriMapFacts.get_delete_other _ _ _ H).
    reflexivity.
  - apply other_consumeFormatSkip. exact H.
  - unfold view, clearFormatSkip.
    cbn [withSkipUris withAutoSkipUris withManualAllowances skipUris autoSkipUris
         manualAllowances compileBlocks].
    rewrite !(UriSetFacts.has_delete_other _ _ _ H),
      (UriMapFacts.get_delete_other _ _ _ H).
    reflexivity.
  - unfold view, removeFormatSkip.
    cbn [withSkipUris withAutoSkipUris withManualAllowances withCompileBlocks
         skipUris autoSkipUris manualAllowances compileBlocks].
    rewrite !(UriSetFacts.has_delete_other _ _ _ H),
      !(UriMapFacts.get_delete_other _ _ _ H).
    reflexivity.
  - unfold view, blockFormatAfterCompile.
    cbn [withSkipUris withAutoSkipUris withManualAllowances withCompileBlocks
         skipUris autoSkipUris manualAllowances compileBlocks].
    rewrite (UriSetFacts.has_add_other _ _ _ H),
      (UriSetFacts.has_delete_other _ _ _ H),
      (UriMapFacts.get_delete_other _ _ _ H),
      (UriMapFacts.get_set_other _ _ _ _ H).
    reflexivity.
  - unfold allowManualFormat.
    destruct (UriSet.has (autoSkipUris st) uri); [reflexivity|].
    unfold view.
    cbn [withSkipUris withAutoSkipUris withManualAllowances withCompileBlocks
         skipUris autoSkipUris manualAllowances compileBlocks].
    rewrite (UriSetFacts.has_delete_other _ _ _ H),
      (UriMapFacts.get_delete_other _ _ _ H),
      (UriMapFacts.get_set_other _ _ _ _ H).
    reflexivity.
Qed.

End FormattingControlFacts.

Lemma answer_consumeFormatSkip (uri : jsstring) (now : Z)
    (st : FormattingControl.state) :
  fst (FormattingControl.consumeFormatSkip uri now st)
  = fst (FormattingControl.consumed now (FormattingControl.view st uri)).
Proof.
  rewrite <- FormattingControlFacts.view_consumeFormatSkip. reflexivity.
Qed.

Lemma left_consumeFormatSkip (uri : jsstring) (now : Z)
    (st : FormattingControl.state) :
  FormattingControl.view (snd (FormattingControl.consumeFormatSkip uri now st)) uri
  = snd (FormattingControl.consumed now (FormattingControl.view st uri)).
Proof.
  rewrite <- FormattingControlFacts.view_consumeFormatSkip. reflexivity.
Qed.

Lemma view_perform (c : FormattingControl.call) (st : FormattingControl.state) :
  FormattingControl.view (FormattingControl.perform st c) (FormattingControl.target c)
  = let v := FormattingControl.view st (FormattingControl.target c) in
    match c with
    | FormattingControl.ScheduleFormatSkip _ => (true, true, None, snd v)
    | FormattingControl.ConsumeFormatSkip _ now => snd (FormattingControl.consumed now v)
    | FormattingControl.ClearFormatSkip _ => (false, false, None, snd v)
    | FormattingControl.RemoveFormatSkip _ => (false, false, None, None)
    | FormattingControl.BlockFormatAfterCompile _ now =>
        (true, false, None, Some (now + FormattingControl.compileBlockMs))
    | FormattingControl.AllowManualFormat _ now =>
        if snd (fst (fst v)) then v
        else (false, false, Some (now + FormattingControl.manualAllowanceMs), None)
    end.
Proof.
  destruct c as [uri|uri now|uri|uri|uri now|uri now];
    cbn [FormattingControl.target FormattingControl.perform]; cbv zeta.
  - apply FormattingControlFacts.view_scheduleFormatSkip.
  - apply left_consumeFormatSkip.
  - apply FormattingControlFacts.view_clearFormatSkip.
  - apply FormattingControlFacts.view_removeFormatSkip.
  - apply FormattingControlFacts.view_blockFormatAfterCompile.
  - apply FormattingControlFacts.view_allowManualFormat.
Qed.

Lemma consistent_perform (c : FormattingControl.call) (st : FormattingControl.state)
    (uri : jsstring) :
  FormattingControl.consistent st uri ->
  FormattingControl.consistent (FormattingControl.perform st c) uri.
Proof.
  unfold FormattingControl.consistent.
  destruct (streq uri (FormattingControl.target c)) eqn:E.
  - apply streq_eq in E. subst uri. rewrite view_perform. cbv zeta.
    destruct (FormattingControl.view st (FormattingControl.target c))
      as [[[skip auto] manual] compile].
    intros [Hauto Hmanual].
    destruct c as [uri|uri now|uri|uri|uri now|uri now]; cbn [fst snd].
    + split; [reflexivity|]. intros H. contradiction.
    + unfold FormattingControl.consumed, FormattingControl.purged.
      destruct manual as [m|]; [destruct (m <? now)|];
        (destruct compile as [c|]; [destruct (c <? now)|]);
        destruct skip; cbn [snd];
        (split; [intros H; try discriminate H; try (apply Hauto; exact H); reflexivity|]);
        intros H; try contradiction;
        try (destruct (Hmanual ltac:(discriminate)) as [H1 H2]; discriminate);
        split; reflexivity.
    + split; [intros H; discriminate H|]. intros H. contradiction.
    + split; [intros H; discriminate H|]. intros H. contradiction.
    + split; [intros H; discriminate H|]. intros H. contradiction.
    + destruct auto; [split; assumption|].
      split; [intros H; discriminate H|]. intros _. split; reflexivity.
  - assert (Hne : uri <> FormattingControl.target c).
    { intros ->. rewrite streq_refl in E. discriminate. }
    rewrite (FormattingControlFacts.other_perform c uri st Hne). tauto.
Qed.

Lemma consistent_fold (calls : list FormattingControl.call) (uri : jsstring) :
  forall st,
    FormattingControl.consistent st uri ->
    FormattingControl.consistent (fold_left FormattingControl.perform calls st) uri.
Proof.
  induction calls as [|c calls IH]; intros st H; [exact H|].
  cbn [fold_left]. apply IH. apply consistent_perform. exact H.
Qed.

Lemma consistent_initial (uri : jsstring) :
  FormattingControl.consistent FormattingControl.initial uri.
Proof. cbv. split; [intros H; discriminate H|intros H; contradiction]. Qed.

(** X1. In every state reached from the initial one by calls of the
    exported functions, for every URI: an automatic skip is also a pending
    skip, and a URI with a manual allowance has neither a pending skip nor a
    compile block. *)
Theorem formatting_entries_stay_consistent :
  forall (calls : list FormattingControl.call) (uri : jsstring),
    let '(skip, auto, manual, compile) :=
      FormattingControl.view (FormattingControl.after calls) uri in
    (auto = true -> skip = true)
    /\ (manual <> None -> skip = false /\ compile = None).
Proof.
  intros calls uri.
  pose proof (consistent_fold calls uri _ (consistent_initial uri)) as H.
  unfold FormattingControl.consistent in H. exact H.
Qed.

(** X2. In every reachable state, [consumeFormatSkip] answers true exactly
    when the URI has a compile block that has not expired at [now] or a
    pending skip; the manual allowances never change the answer. *)
Theorem consumeFormatSkip_answer :
  forall (calls : list FormattingControl.call) (uri : jsstring) (now : Z),
    let st := FormattingControl.after calls in
    fst (FormattingControl.consumeFormatSkip uri now st)
    = (match UriMap.get (FormattingControl.compileBlocks st) uri with
       | Some expiry => now <=? expiry
       | None => false
       end
       || UriSet.has (FormattingControl.skipUris st) uri).
Proof.
  intros calls uri now st.
  pose proof (consistent_fold calls uri _ (consistent_initial uri)) as H.
  fold (FormattingControl.after calls) in H. fold st in H.
  unfold FormattingControl.consistent in H.
  rewrite answer_consumeFormatSkip.
  unfold FormattingControl.view in *.
  destruct (UriMap.get (FormattingControl.manualAllowances st) uri) as [m|];
    destruct (UriMap.get (FormattingControl.compileBlocks st) uri) as [c|];
    destruct (UriSet.has (FormattingControl.skipUris st) uri);
    destruct H as [_ H];
    try (destruct (H ltac:(discriminate)) as [H1 H2]; discriminate);
    unfold FormattingControl.consumed, FormattingControl.purged;
    try destruct (m <? now); try destruct (c <? now) eqn:L;
    cbn [fst]; rewrite ?orb_false_r, ?orb_true_r;
    try reflexivity;
    try (apply Z.ltb_lt in L; symmetry; apply Z.leb_gt; lia);
    try (apply Z.ltb_ge in L; symmetry; apply Z.leb_le; lia).
Qed.

(** X3. A call for one URI leaves what the module holds about every other
    URI as it was, and with it the answer of [consumeFormatSkip] for that
    other URI. *)
Theorem formatting_calls_are_per_uri :
  forall (c : FormattingControl.call) (st : FormattingControl.state)
         (other : jsstring) (now : Z),
    other <> FormattingControl.target c ->
    FormattingControl.view (FormattingControl.perform st c) other
    = FormattingControl.view st other
    /\ fst (FormattingControl.consumeFormatSkip other now (FormattingControl.perform st c))
       = fst (FormattingControl.consumeFormatSkip other now st).
Proof.
  intros c st other now H.
  pose proof (FormattingControlFacts.other_perform c other st H) as Hview.
  split; [exact Hview|].
  rewrite !answer_consumeFormatSkip, Hview. reflexivity.
Qed.

Lemma formatting_calls_are_per_uri_witness :
  FormattingControl.view
    (FormattingControl.perform
       (FormattingControl.scheduleFormatSkip (js "a.cls") FormattingControl.initial)
       (FormattingControl.RemoveFormatSkip (js "b.cls")))
    (js "a.cls")
  = (true, true, None, None)
  /\ fst (FormattingControl.consumeFormatSkip (js "a.cls") 5
            (FormattingControl.perform
               (FormattingControl.scheduleFormatSkip (js "a.cls") FormattingControl.initial)
               (FormattingControl.RemoveFormatSkip (js "b.cls"))))
     = true.
Proof.
  exact (formatting_calls_are_per_uri (FormattingControl.RemoveFormatSkip (js "b.cls"))
           (FormattingControl.scheduleFormatSkip (js "a.cls") FormattingControl.initial)
           (js "a.cls") 5 ltac:(discriminate)).
Defined.

(** X4. A scheduled skip is consumed exactly once: after
    [scheduleFormatSkip], when the URI has no compile block that is still
    running at [now1], [consumeFormatSkip] answers true at [now1] and false
    at any later call, whatever the time. *)
Theorem scheduled_skip_is_consumed_once :
  forall (st : FormattingControl.state) (uri : jsstring) (now1 now2 : Z),
    (forall expiry,
        UriMap.get (FormattingControl.compileBlocks st) uri = Some expiry ->
        expiry < now1) ->
    let scheduled := FormattingControl.scheduleFormatSkip uri st in
    let first := FormattingControl.consumeFormatSkip uri now1 scheduled in
    fst first = true
    /\ fst (FormattingControl.consumeFormatSkip uri now2 (snd first)) = false.
Proof.
  intros st uri now1 now2 Hblock scheduled first. subst first.
  rewrite !answer_consumeFormatSkip, left_consumeFormatSkip. subst scheduled.
  rewrite FormattingControlFacts.view_scheduleFormatSkip.
  unfold FormattingControl.consumed, FormattingControl.purged.
  destruct (UriMap.get (FormattingControl.compileBlocks st) uri) as [e|] eqn:E.
  - assert (L : (e <? now1) = true) by (apply Z.ltb_lt; apply Hblock; reflexivity).
    rewrite L. split; reflexivity.
  - split; reflexivity.
Qed.

Lemma scheduled_skip_is_consumed_once_witness :
  fst (FormattingControl.consumeFormatSkip (js "a.cls") 10
         (FormattingControl.scheduleFormatSkip (js "a.cls") FormattingControl.initial))
  = true
  /\ fst (FormattingControl.consumeFormatSkip (js "a.cls") 11
            (snd (FormattingControl.consumeFormatSkip (js "a.cls") 10
                    (FormattingControl.scheduleFormatSkip (js "a.cls")
                       FormattingControl.initial))))
     = false.
Proof.
  exact (scheduled_skip_is_consumed_once FormattingControl.initial (js "a.cls") 10 11
           ltac:(intros expiry H; discriminate H)).
Defined.

(** The four components of an equation between views. *)
Ltac view_fields Hv Hs Ha Hm Hc :=
  pose proof (f_equal (fun v : bool * bool * option Z * option Z => fst (fst (fst v))) Hv) as Hs;
  pose proof (f_equal (fun v : bool * bool * option Z * option Z => snd (fst (fst v))) Hv) as Ha;
  pose proof (f_equal (fun v : bool * bool * option Z * option Z => snd (fst v)) Hv) as Hm;
  pose proof (f_equal (fun v : bool * bool * option Z * option Z => snd v) Hv) as Hc;
  cbv beta in Hs, Ha, Hm, Hc;
  cbn [FormattingControl.view fst snd] in Hs, Ha, Hm, Hc.

Lemma purge_after_block (uri : jsstring) (t now : Z) (st : FormattingControl.state) :
  now <= t + FormattingControl.compileBlockMs ->
  FormattingControl.purgeExpiredEntries uri now
    (FormattingControl.blockFormatAfterCompile uri t st)
  = FormattingControl.blockFormatAfterCompile uri t st.
Proof.
  intros H. unfold FormattingControl.purgeExpiredEntries.
  pose proof (FormattingControlFacts.view_blockFormatAfterCompile uri t st) as Hv.
  view_fields Hv Hs Ha Hm Hc.
  rewrite Hm, Hc.
  destruct (t + FormattingControl.compileBlockMs <? now) eqn:L; [|reflexivity].
  apply Z.ltb_lt in L. lia.
Qed.

(** X5. While a compile block runs, every format is skipped and nothing is
    used up: after [blockFormatAfterCompile] at time [t], a
    [consumeFormatSkip] at any [now <= t + 8000] answers true and leaves the
    state exactly as it was. *)
Theorem compile_block_skips_every_format :
  forall (st : FormattingControl.state) (uri : jsstring) (t now : Z),
    now <= t + 8000 ->
    FormattingControl.consumeFormatSkip uri now
      (FormattingControl.blockFormatAfterCompile uri t st)
    = (true, FormattingControl.blockFormatAfterCompile uri t st).
Proof.
  intros st uri t now H. unfold FormattingControl.consumeFormatSkip.
  rewrite purge_after_block by exact H.
  pose proof (FormattingControlFacts.view_blockFormatAfterCompile uri t st) as Hv.
  view_fields Hv Hs Ha Hm Hc.
  unfold UriMap.has. rewrite Hm, Hc. reflexivity.
Qed.

Lemma compile_block_skips_every_format_witness :
  FormattingControl.consumeFormatSkip (js "a.cls") 9000
    (FormattingControl.blockFormatAfterCompile (js "a.cls") 1000 FormattingControl.initial)
  = (true,
     FormattingControl.blockFormatAfterCompile (js "a.cls") 1000 FormattingControl.initial).
Proof.
  exact (compile_block_skips_every_format FormattingControl.initial (js "a.cls")
           1000 9000 ltac:(lia)).
Defined.

(** X6. A compile block that has expired still costs one format: after
    [blockFormatAfterCompile] at time [t], the first [consumeFormatSkip] at
    a [now > t + 8000] answers true, and every call after it answers
    false. *)
Theorem expired_compile_block_skips_once_more :
  forall (st : FormattingControl.state) (uri : jsstring) (t now later : Z),
    t + 8000 < now ->
    let first :=
      FormattingControl.consumeFormatSkip uri now
        (FormattingControl.blockFormatAfterCompile uri t st) in
    fst first = true
    /\ fst (FormattingControl.consumeFormatSkip uri later (snd first)) = false.
Proof.
  intros st uri t now later H first. subst first.
  rewrite !answer_consumeFormatSkip, left_consumeFormatSkip.
  rewrite FormattingControlFacts.view_blockFormatAfterCompile.
  unfold FormattingControl.consumed, FormattingControl.purged,
    FormattingControl.compileBlockMs.
  assert (L : (t + 8000 <? now) = true) by (apply Z.ltb_lt; exact H).
  rewrite L. split; reflexivity.
Qed.

Lemma expired_compile_block_skips_once_more_witness :
  fst (FormattingControl.consumeFormatSkip (js "a.cls") 9001
         (FormattingControl.blockFormatAfterCompile (js "a.cls") 1000
            FormattingControl.initial))
  = true
  /\ fst (FormattingControl.consumeFormatSkip (js "a.cls") 9002
            (snd (FormattingControl.consumeFormatSkip (js "a.cls") 9001
                    (FormattingControl.blockFormatAfterCompile (js "a.cls") 1000
                       FormattingControl.initial))))
     = false.
Proof.
  exact (expired_compile_block_skips_once_more FormattingControl.initial (js "a.cls")
           1000 9001 9002 ltac:(lia)).
Defined.

(** X7. A manual format overrides a compile block and a pending skip that
    is not automatic, and cannot override an automatic one: after
    [scheduleFormatSkip], [allowManualFormat] changes nothing; for a URI
    without an automatic skip it removes the compile block, and the next
    [consumeFormatSkip] answers false at any time. *)
Theorem manual_format_and_automatic_skip :
  forall (st : FormattingControl.state) (uri : jsstring) (t now : Z),
    FormattingControl.allowManualFormat uri t
      (FormattingControl.scheduleFormatSkip uri st)
    = FormattingControl.scheduleFormatSkip uri st
    /\ (UriSet.has (FormattingControl.autoSkipUris st) uri = false ->
        UriMap.get
          (FormattingControl.compileBlocks (FormattingControl.allowManualFormat uri t st))
          uri = None
        /\ fst (FormattingControl.consumeFormatSkip uri now
                  (FormattingControl.allowManualFormat uri t st))
           = false).
Proof.
  intros st uri t now. split.
  - unfold FormattingControl.allowManualFormat.
    pose proof (FormattingControlFacts.view_scheduleFormatSkip uri st) as Hv.
    view_fields Hv Hs Ha Hm Hc.
    rewrite Ha. reflexivity.
  - intros Hauto.
    pose proof (FormattingControlFacts.view_allowManualFormat uri t st) as Hv.
    rewrite Hauto in Hv. split.
    + view_fields Hv Hs Ha Hm Hc. exact Hc.
    + rewrite answer_consumeFormatSkip, Hv.
      unfold FormattingControl.consumed, FormattingControl.purged.
      destruct (t + FormattingControl.manualAllowanceMs <? now); reflexivity.
Qed.

Lemma manual_format_and_automatic_skip_witness :
  UriMap.get
    (FormattingControl.compileBlocks
       (FormattingControl.allowManualFormat (js "a.cls") 2000
          (FormattingControl.blockFormatAfterCompile (js "a.cls") 1000
             FormattingControl.initial)))
    (js "a.cls") = None
  /\ fst (FormattingControl.consumeFormatSkip (js "a.cls") 2500
            (FormattingControl.allowManualFormat (js "a.cls") 2000
               (FormattingControl.blockFormatAfterCompile (js "a.cls") 1000
                  FormattingControl.initial)))
     = false.
Proof.
  exact (proj2 (manual_format_and_automatic_skip
                  (FormattingControl.blockFormatAfterCompile (js "a.cls") 1000
                     FormattingControl.initial)
                  (js "a.cls") 2000 2500) eq_refl).
Defined.

(** X8. [removeFormatSkip] lifts everything and [clearFormatSkip] keeps the
    compile block: after [removeFormatSkip], [consumeFormatSkip] answers
    false at any time; after [blockFormatAfterCompile] at [t] and
    [clearFormatSkip], it still answers true at any [now <= t + 8000]. *)
Theorem remove_lifts_and_clear_keeps_compile_block :
  forall (st : FormattingControl.state) (uri : jsstring) (t now : Z),
    fst (FormattingControl.consumeFormatSkip uri now
           (FormattingControl.removeFormatSkip uri st)) = false
    /\ (now <= t + 8000 ->
        fst (FormattingControl.consumeFormatSkip uri now
               (FormattingControl.clearFormatSkip uri
                  (FormattingControl.blockFormatAfterCompile uri t st)))
        = true).
Proof.
  intros st uri t now. split.
  - rewrite answer_consumeFormatSkip, FormattingControlFacts.view_removeFormatSkip.
    reflexivity.
  - intros H.
    rewrite answer_consumeFormatSkip, FormattingControlFacts.view_clearFormatSkip.
    pose proof (FormattingControlFacts.view_blockFormatAfterCompile uri t st) as Hv.
    view_fields Hv Hs Ha Hm Hc.
    rewrite Hc.
    unfold FormattingControl.consumed, FormattingControl.purged,
      FormattingControl.compileBlockMs.
    destruct (t + 8000 <? now) eqn:L; [apply Z.ltb_lt in L; lia|reflexivity].
Qed.

Lemma remove_lifts_and_clear_keeps_compile_block_witness :
  fst (FormattingControl.consumeFormatSkip (js "a.cls") 5000
         (FormattingControl.clearFormatSkip (js "a.cls")
            (FormattingControl.blockFormatAfterCompile (js "a.cls") 1000
               FormattingControl.initial)))
  = true.
Proof.
  exact (proj2 (remove_lifts_and_clear_keeps_compile_block FormattingControl.initial
                  (js "a.cls") 1000 5000) ltac:(lia)).
Defined.

(* ================================================================== *)
(** ** Escaping *)
(* ================================================================== *)

Lemma flat_map_flat_map {A B C : Type} (f : A -> list B) (g : B -> list C) (l : list A) :
  flat_map g (flat_map f l) = flat_map (fun x => flat_map g (f x)) l.
Proof.
  induction l as [|x l IH]; simpl; [reflexivity|].
  rewrite flat_map_app, IH. reflexivity.
Qed.

Lemma flat_map_pointwise {A B : Type} (f g : A -> list B) (l : list A) :
  (forall x, f x = g x) -> flat_map f l = flat_map g l.
Proof.
  intros H. induction l as [|x l IH]; simpl; [reflexivity|].
  rewrite H, IH. reflexivity.
Qed.

(** X9. The five replacements of [escapeHtml], made one after the other,
    escape every character exactly once: the result is the text with each
    of [&], [<], [>], the double quote and the apostrophe replaced by its
    entity, and the ampersand of an entity is never escaped again; so none
    of [<], [>], the double quote and the apostrophe is left in it. *)
Theorem escapeHtml_escapes_once :
  forall (text : jsstring),
    escapeHtml text = flat_map htmlEntity text
    /\ Forall (fun c => c <> cu "<" /\ c <> cu ">" /\ c <> quote /\ c <> apostrophe)
              (escapeHtml text).
Proof.
  intros text.
  assert (H : escapeHtml text = flat_map htmlEntity text).
  { unfold escapeHtml, replaceChar. rewrite !flat_map_flat_map.
    apply flat_map_pointwise. intros c. unfold htmlEntity.
    destruct (c =? cu "&")%N eqn:E1; [reflexivity|].
    cbn [flat_map app]. rewrite !app_nil_r.
    destruct (c =? cu "<")%N eqn:E2; [reflexivity|].
    cbn [flat_map app]. rewrite !app_nil_r.
    destruct (c =? cu ">")%N eqn:E3; [reflexivity|].
    cbn [flat_map app]. rewrite !app_nil_r.
    destruct (c =? quote)%N eqn:E4; [reflexivity|].
    cbn [flat_map app]. rewrite !app_nil_r.
    destruct (c =? apostrophe)%N eqn:E5; reflexivity. }
  split; [exact H|].
  rewrite H. apply Forall_flat_map. apply Forall_forall. intros c _.
  unfold htmlEntity.
  destruct (c =? cu "&")%N eqn:E1; [repeat constructor; discriminate|].
  destruct (c =? cu "<")%N eqn:E2; [repeat constructor; discriminate|].
  destruct (c =? cu ">")%N eqn:E3; [repeat constructor; discriminate|].
  destruct (c =? quote)%N eqn:E4; [repeat constructor; discriminate|].
  destruct (c =? apostrophe)%N eqn:E5; [repeat constructor; discriminate|].
  apply N.eqb_neq in E2, E3, E4, E5. repeat constructor; assumption.
Qed.

(** X10. The escaping of the hover documentation ([esc] in
    [buildRoutineDocumentation]) leaves no [<] and no [>] in its result, and
    returns a text that has none of [<], [>] and [&] as it is. *)
Theorem esc_leaves_no_angle_bracket :
  forall (s : jsstring),
    Forall (fun c => c <> cu "<" /\ c <> cu ">") (esc s)
    /\ (Forall (fun c => c <> cu "<" /\ c <> cu ">" /\ c <> cu "&") s -> esc s = s).
Proof.
  intros s. split.
  - unfold esc. apply Forall_flat_map. apply Forall_forall. intros c _.
    destruct (c =? cu "<")%N eqn:E1; [repeat constructor; discriminate|].
    destruct (c =? cu ">")%N eqn:E2; [repeat constructor; discriminate|].
    destruct (c =? cu "&")%N eqn:E3; [repeat constructor; discriminate|].
    apply N.eqb_neq in E1, E2. repeat constructor; assumption.
  - intros H. unfold esc. induction H as [|c s (H1 & H2 & H3) _ IH]; [reflexivity|].
    cbn [flat_map]. apply N.eqb_neq in H1, H2, H3. rewrite H1, H2, H3, IH.
    reflexivity.
Qed.

Lemma esc_leaves_no_angle_bracket_witness : esc (js "p1 As %String") = js "p1 As %String".
Proof.
  apply (proj2 (esc_leaves_no_angle_bracket (js "p1 As %String"))).
  repeat constructor; discriminate.
Defined.

(* ================================================================== *)
(** ** Comments, tokens and label lines *)
(* ================================================================== *)

Lemma find_firstn (c : N) (s : jsstring) (n : nat) :
  find c s = Some n ->
  find c (firstn n s) = None
  /\ exists rest, s = firstn n s ++ c :: rest.
Proof.
  revert n. induction s as [|d s IH]; intros n H; [discriminate|].
  simpl in H. destruct (d =? c)%N eqn:E.
  - injection H as <-. apply N.eqb_eq in E. subst d.
    split; [reflexivity|]. exists s. reflexivity.
  - destruct (find c s) as [k|] eqn:F; [|discriminate].
    injection H as <-. destruct (IH k eq_refl) as [H1 [rest H2]].
    split.
    + simpl. rewrite E, H1. reflexivity.
    + exists rest. simpl. f_equal. exact H2.
Qed.

Lemma slice_prefix (s : jsstring) (n : nat) :
  (n <= List.length s)%nat -> slice s 0 (Z.of_nat n) = firstn n s.
Proof.
  intros H. unfold slice. change (0 <? 0) with false. cbv iota.
  destruct (Z.of_nat n <? 0) eqn:E; [apply Z.ltb_lt in E; lia|].
  unfold length. rewrite Z.min_l, Z.min_l by lia.
  rewrite Z.sub_0_r, Nat2Z.id. reflexivity.
Qed.

Lemma find_bound (c : N) (s : jsstring) (n : nat) :
  find c s = Some n -> (n < List.length s)%nat.
Proof.
  revert n. induction s as [|d s IH]; intros n H; [discriminate|].
  simpl in H. destruct (d =? c)%N; [injection H as <-; simpl; lia|].
  destruct (find c s) as [k|]; [|discriminate].
  injection H as <-. specialize (IH k eq_refl). simpl. lia.
Qed.

Lemma indexOf_from_start (c : N) (s : jsstring) :
  indexOf c s 0 = match find c s with Some n => Z.of_nat n | None => -1 end.
Proof. reflexivity. Qed.

(** X11. [stripRoutineComment] returns the part of the line before its first
    semicolon: the result has no semicolon, the line is the result followed
    by nothing or by a text that starts with a semicolon, and stripping
    twice is stripping once. *)
Theorem stripRoutineComment_cuts_at_first_semicolon :
  forall (line : jsstring),
    indexOf (cu ";") (stripRoutineComment line) 0 = -1
    /\ (exists rest,
           line = stripRoutineComment line ++ rest
           /\ (rest = [] \/ startsWith rest (js ";") = true))
    /\ stripRoutineComment (stripRoutineComment line) = stripRoutineComment line.
Proof.
  intros line.
  assert (H : indexOf (cu ";") (stripRoutineComment line) 0 = -1
              /\ exists rest,
                  line = stripRoutineComment line ++ rest
                  /\ (rest = [] \/ startsWith rest (js ";") = true)).
  { unfold stripRoutineComment. rewrite !indexOf_from_start.
    destruct (find (cu ";") line) as [n|] eqn:F.
    - destruct (Z.of_nat n =? -1) eqn:E; [apply Z.eqb_eq in E; lia|].
      rewrite slice_prefix by (apply find_bound in F; lia).
      destruct (find_firstn _ _ _ F) as [H1 [rest H2]].
      rewrite H1. split; [reflexivity|].
      exists (cu ";" :: rest). split; [exact H2|]. right.
      cbn [startsWith js map list_ascii_of_string]. change (N_of_ascii ";") with (cu ";").
      rewrite N.eqb_refl. destruct rest; reflexivity.
    - change (-1 =? -1) with true. cbv iota. rewrite F. split; [reflexivity|].
      exists []. split; [symmetry; apply app_nil_r|left; reflexivity]. }
  destruct H as [H1 H2]. split; [exact H1|split; [exact H2|]].
  unfold stripRoutineComment at 1. rewrite H1. reflexivity.
Qed.

Lemma locateToken_first (tokens : compressedline) :
  forall (i0 character t0 : Z),
    tokens <> [] ->
    exists (k : nat) (tk : Token.t),
      locateToken tokens i0 character t0 = i0 + Z.of_nat k
      /\ nth_error tokens k = Some tk
      /\ (spans tk character = true \/ S k = List.length tokens)
      /\ forall j tk', (j < k)%nat -> nth_error tokens j = Some tk' ->
                       spans tk' character = false.
Proof.
  induction tokens as [|tk rest IH]; intros i0 character t0 Hne; [contradiction|].
  cbn [locateToken]. fold (spans tk character).
  destruct (spans tk character) eqn:E.
  - exists O, tk. repeat split; [lia|left; exact E|]. intros j tk' Hj. lia.
  - destruct rest as [|tk2 rest].
    + exists O, tk. repeat split; [cbn; lia|right; reflexivity|].
      intros j tk' Hj. lia.
    + destruct (IH (i0 + 1) character i0 ltac:(discriminate))
        as (k & tk' & Hr & Hnth & Hspan & Hfirst).
      exists (S k), tk'. repeat split.
      * rewrite Hr. lia.
      * exact Hnth.
      * destruct Hspan as [Hspan|Hlast]; [left; exact Hspan|right].
        cbn [List.length] in *. lia.
      * intros j tk'' Hj Hnth'. destruct j as [|j].
        -- cbn in Hnth'. injection Hnth' as <-. exact E.
        -- apply (Hfirst j tk''); [lia|exact Hnth'].
Qed.

(** X12. The token under the cursor: on a line without tokens [locateToken]
    gives [-1]; otherwise it gives the index of a token of the line, which is
    the first token whose span (both ends included) contains the cursor's
    character offset, or the last token of the line when no span does.  So
    the token that [onSignatureHelp] reads at that index always exists. *)
Theorem locateToken_finds_first_spanning_token :
  forall (tokens : compressedline) (character : Z),
    let thistoken := locateToken tokens 0 character (-1) in
    (tokens = [] -> thistoken = -1)
    /\ (tokens <> [] ->
        exists tk,
          at_ tokens thistoken = Some tk
          /\ (spans tk character = true
              \/ thistoken = Z.of_nat (List.length tokens) - 1)
          /\ forall j tk', 0 <= j < thistoken -> at_ tokens j = Some tk' ->
                           spans tk' character = false).
Proof.
  intros tokens character thistoken. split.
  - intros ->. reflexivity.
  - intros Hne.
    destruct (locateToken_first tokens 0 character (-1) Hne)
      as (k & tk & Hr & Hnth & Hspan & Hfirst).
    fold thistoken in Hr. rewrite Z.add_0_l in Hr.
    exists tk. repeat split.
    + unfold at_. rewrite Hr.
      destruct (Z.of_nat k <? 0) eqn:E; [apply Z.ltb_lt in E; lia|].
      rewrite Nat2Z.id. exact Hnth.
    + destruct Hspan as [Hspan|Hlast]; [left; exact Hspan|right]. lia.
    + intros j tk' Hj Hat. unfold at_ in Hat.
      destruct (j <? 0) eqn:E; [discriminate|].
      apply (Hfirst (Z.to_nat j) tk'); [lia|exact Hat].
Qed.

Lemma locateToken_finds_first_spanning_token_witness :
  exists tk,
    at_ (hd [] Scenario.saveTokens) (locateToken (hd [] Scenario.saveTokens) 0 7 (-1))
    = Some tk
    /\ (spans tk 7 = true
        \/ locateToken (hd [] Scenario.saveTokens) 0 7 (-1)
           = Z.of_nat (List.length (hd [] Scenario.saveTokens)) - 1)
    /\ forall j tk',
         0 <= j < locateToken (hd [] Scenario.saveTokens) 0 7 (-1) ->
         at_ (hd [] Scenario.saveTokens) j = Some tk' ->
         spans tk' 7 = false.
Proof.
  exact (proj2 (locateToken_finds_first_spanning_token (hd [] Scenario.saveTokens) 7)
           ltac:(discriminate)).
Defined.

Lemma findLabelLine_first (label : jsstring) (routineLines : list jsstring) :
  forall (i : Z),
    (findLabelLine label routineLines i = -1
     /\ Forall (fun line => isLabelLine label line = false) routineLines)
    \/ (exists before line following,
           routineLines = before ++ line :: following
           /\ findLabelLine label routineLines i = i + Z.of_nat (List.length before)
           /\ isLabelLine label line = true
           /\ Forall (fun l => isLabelLine label l = false) before)
    \/ i < 0.
Proof.
  induction routineLines as [|line rest IH]; intros i.
  - left. split; [reflexivity|constructor].
  - destruct (Z.ltb_spec i 0) as [Hi|Hi]; [right; right; exact Hi|].
    cbn [findLabelLine]. destruct (isLabelLine label line) eqn:E.
    + right. left. exists [], line, rest. repeat split; [cbn; lia|exact E|constructor].
    + destruct (IH (i + 1)) as [[Hr Hall]|[(before & l & following & Hl & Hr & Hm & Hb)|Hneg]].
      * left. split; [exact Hr|constructor; assumption].
      * right. left. exists (line :: before), l, following.
        repeat split; [rewrite Hl; reflexivity|rewrite Hr; cbn [List.length]; lia
                      |exact Hm|constructor; assumption].
      * lia.
Qed.

(** X13. The label search gives [-1] exactly when no line of the routine
    passes for a line of the label; otherwise it gives the index of the
    first line that does: the line starts with the label, and the label is
    followed by the end of the line, whitespace, [(] or a comment marker. *)
Theorem findLabelLine_finds_first_label_line :
  forall (label : jsstring) (routineLines : list jsstring),
    (findLabelLine label routineLines 0 = -1
     /\ Forall (fun line => isLabelLine label line = false) routineLines)
    \/ (exists before line following,
           routineLines = before ++ line :: following
           /\ findLabelLine label routineLines 0 = Z.of_nat (List.length before)
           /\ isLabelLine label line = true
           /\ startsWith line label = true
           /\ Forall (fun l => isLabelLine label l = false) before).
Proof.
  intros label routineLines.
  destruct (findLabelLine_first label routineLines 0)
    as [H|[(before & line & following & Hl & Hr & Hm & Hb)|Hneg]];
    [left; exact H| |lia].
  right. exists before, line, following.
  repeat split; try assumption.
  unfold isLabelLine in Hm. destruct (startsWith line label); [reflexivity|discriminate].
Qed.

(* ================================================================== *)
(** ** The search loop of the argument emphasis *)
(* ================================================================== *)

Lemma find_skipn (c : N) (s : jsstring) :
  forall (n k : nat),
    find c s = Some n -> (k <= n)%nat -> find c (skipn k s) = Some (n - k)%nat.
Proof.
  induction s as [|d s IH]; intros n k H Hk; [discriminate|].
  destruct k as [|k]; [rewrite Nat.sub_0_r; exact H|].
  cbn [find] in H. destruct (d =? c)%N.
  - injection H as <-. lia.
  - destruct (find c s) as [n'|] eqn:E; [|discriminate].
    injection H as <-. cbn [skipn Nat.sub]. apply IH; [reflexivity|lia].
Qed.

Lemma indexOf_upto (c : N) (s : jsstring) (n : nat) (from : Z) :
  find c s = Some n -> from <= Z.of_nat n -> indexOf c s from = Z.of_nat n.
Proof.
  intros H Hf. unfold indexOf.
  rewrite (find_skipn c s n (Z.to_nat (Z.max 0 from)) H) by lia.
  f_equal. lia.
Qed.

Lemma indexOf_after (c : N) (s : jsstring) (n k : nat) :
  find c s = Some n ->
  find c (skipn (S n) s) = Some k ->
  indexOf c s (Z.of_nat n + 1) = Z.of_nat n + 1 + Z.of_nat k.
Proof.
  intros _ H. unfold indexOf.
  replace (Z.to_nat (Z.max 0 (Z.of_nat n + 1))) with (S n) by lia.
  rewrite H. lia.
Qed.

Lemma splitAcc_separator (sep : N) (s : jsstring) :
  forall cur,
    (2 <= List.length (splitAcc sep cur s))%nat ->
    exists n, find sep s = Some n.
Proof.
  induction s as [|c s IH]; intros cur H; cbn [splitAcc find] in *.
  - cbn in H. lia.
  - destruct (c =? sep)%N; [eauto|].
    destruct (IH _ H) as [n ->]. eauto.
Qed.

Lemma splitAcc_two_separators (sep : N) (s : jsstring) :
  forall cur,
    (3 <= List.length (splitAcc sep cur s))%nat ->
    exists n k, find sep s = Some n /\ find sep (skipn (S n) s) = Some k.
Proof.
  induction s as [|c s IH]; intros cur H; cbn [splitAcc find] in *.
  - cbn in H. lia.
  - destruct (c =? sep)%N.
    + cbn [List.length] in H.
      destruct (splitAcc_separator sep s [] ltac:(lia)) as [k Hk].
      exists O, k. split; [reflexivity|exact Hk].
    + destruct (IH _ H) as (n & k & Hn & Hk).
      exists (S n), k. rewrite Hn. split; [reflexivity|exact Hk].
Qed.

(** Once the first space was passed, [lastspace] stays on it: every turn of
    the loop finds the first space again. *)
Lemma emphasizeSearch_middle (arglist normalized : jsstring) (arg : Z) (n k : nat) :
  find (cu " ") normalized = Some n ->
  find (cu " ") (skipn (S n) normalized) = Some k ->
  forall (fuel : nat) (spacesfound lastspace : Z),
    lastspace = 0 \/ lastspace = Z.of_nat n ->
    spacesfound + 1 < arg ->
    arg - spacesfound - 1 <= Z.of_nat fuel ->
    emphasizeSearch fuel arglist normalized arg (-1) spacesfound lastspace
    = Some (slice arglist 0 (Z.of_nat n + 1) ++ emphasizePrefix
            ++ slice arglist (Z.of_nat n + 1) (Z.of_nat n + 1 + Z.of_nat k - 1)
            ++ emphasizeSuffix
            ++ sliceFrom arglist (Z.of_nat n + 1 + Z.of_nat k - 1)).
Proof.
  intros Hn Hk.
  induction fuel as [|fuel IH]; intros spacesfound lastspace Hlast Hlt Hfuel; [lia|].
  cbn [emphasizeSearch].
  assert (Hcond : indexOf (cu " ") normalized (lastspace + 1) <> -1).
  { destruct Hlast as [-> | ->].
    - destruct n as [|n'].
      + change (0 + 1) with (Z.of_nat 0 + 1). rewrite (indexOf_after _ _ _ _ Hn Hk). lia.
      + rewrite (indexOf_upto _ _ _ _ Hn) by lia. lia.
    - rewrite (indexOf_after _ _ _ _ Hn Hk). lia. }
  apply Z.eqb_neq in Hcond. rewrite Hcond.
  assert (Hthis : indexOf (cu " ") normalized lastspace = Z.of_nat n).
  { apply indexOf_upto; [exact Hn|]. destruct Hlast as [-> | ->]; lia. }
  rewrite Hthis.
  destruct (arg =? spacesfound + 1 + 1) eqn:E.
  - change (-1 =? -1) with true. cbv iota.
    rewrite (indexOf_after _ _ _ _ Hn Hk). reflexivity.
  - apply Z.eqb_neq in E. apply IH; [right; reflexivity|lia|lia].
Qed.

(** X14. Asked for any argument that is neither the first nor the last,
    [emphasizeArgument] wraps the text after the first space of the list:
    the search loop looks for the next space from [lastspace], which is that
    space itself, so it never moves on.  The result is the same for every
    argument number from 2 to the number of arguments less one, and is the
    list with its second argument wrapped. *)
Theorem emphasizeArgument_middle_argument_is_second :
  forall (arglist : jsstring) (arg : Z) (fuel : nat),
    let normalized := replaceNbsp arglist in
    let numargs := Z.of_nat (List.length (split (cu " ") normalized)) in
    2 <= arg < numargs ->
    arg - 1 <= Z.of_nat fuel ->
    let start := indexOf (cu " ") normalized 0 + 1 in
    let end_ := indexOf (cu " ") normalized start - 1 in
    emphasizeArgument fuel arglist arg
    = Some (removeWhitespace
              (slice arglist 0 start ++ emphasizePrefix ++ slice arglist start end_
               ++ emphasizeSuffix ++ sliceFrom arglist end_)).
Proof.
  intros arglist arg fuel normalized numargs Harg Hfuel start end_.
  destruct (splitAcc_two_separators (cu " ") normalized [])
    as (n & k & Hn & Hk); [fold (split (cu " ") normalized); lia|].
  assert (Hstart : start = Z.of_nat n + 1).
  { unfold start. rewrite (indexOf_upto _ _ _ _ Hn) by lia. reflexivity. }
  assert (Hend : end_ = Z.of_nat n + 1 + Z.of_nat k - 1).
  { unfold end_. rewrite Hstart, (indexOf_after _ _ _ _ Hn Hk). reflexivity. }
  rewrite Hstart, Hend.
  unfold emphasizeArgument. fold normalized. fold numargs.
  assert (E1 : (arg >? numargs) = false) by lia.
  assert (E2 : (arg =? numargs) = false) by lia.
  assert (E3 : (arg =? 1) = false) by lia.
  rewrite E1, E2, E3. cbv iota.
  change (negb (-1 =? -1) && negb (-1 =? -1)) with false. cbv iota.
  rewrite (emphasizeSearch_middle arglist normalized arg n k Hn Hk fuel 0 0);
    [reflexivity|left; reflexivity|lia|lia].
Qed.

Lemma emphasizeArgument_middle_argument_is_second_witness :
  emphasizeArgument 2 (js "(A, B, C, D)") 3 = Some (js "(A,%%%%%B@@@@@,C,D)").
Proof.
  exact (emphasizeArgument_middle_argument_is_second (js "(A, B, C, D)") 3 2
           ltac:(vm_compute; split; [discriminate|reflexivity])
           ltac:(vm_compute; discriminate)).
Defined.

(* ================================================================== *)
(** ** The routine parameter splitter on a flat list *)
(* ================================================================== *)

Lemma replaceNewlines_no_line_feed (s : jsstring) :
  Forall (fun c => c <> 10%N) s -> replaceNewlines s = s.
Proof.
  induction 1 as [|c s Hc Hs IH]; [reflexivity|].
  cbn [replaceNewlines]. apply N.eqb_neq in Hc. rewrite Hc, IH.
  destruct (c =? 13)%N; [|reflexivity].
  destruct Hs as [|d s Hd Hs]; [reflexivity|].
  apply N.eqb_neq in Hd. rewrite Hd. reflexivity.
Qed.

Lemma splitRoutineLoop_flat (s : jsstring) :
  forall (result : list jsstring) (cur prev : jsstring),
    Forall (fun c => c <> quote /\ c <> cu "(" /\ c <> 10%N) s ->
    SplitRoutine.result
      (splitRoutineLoop (SplitRoutine.Build_state result (rev cur) false 0) prev s)
    ++ [trim (SplitRoutine.current
                (splitRoutineLoop (SplitRoutine.Build_state result (rev cur) false 0)
                   prev s))]
    = result ++ map trim (splitAcc (cu ",") cur s).
Proof.
  induction s as [|c s IH]; intros result cur prev H; [reflexivity|].
  inversion H as [|c' s' (Hq & Hp & _) Hs]; subst.
  cbn [splitRoutineLoop splitAcc]. unfold splitRoutineStep.
  apply N.eqb_neq in Hq, Hp. rewrite Hq, Hp.
  cbn [andb negb]. change (0 >? 0) with false. rewrite andb_false_r.
  destruct (c =? cu ",")%N eqn:E.
  - change (0 =? 0) with true. cbn [andb].
    pose proof (IH (result ++ [trim (rev cur)]) [] [c] Hs) as HI.
    cbn [rev] in HI. rewrite HI.
    cbn [map]. rewrite <- app_assoc. reflexivity.
  - cbn [andb]. change (rev cur ++ [c]) with (rev (c :: cur)).
    apply IH. exact Hs.
Qed.

Lemma dropWhile_nil (f : N -> bool) (s : jsstring) :
  dropWhile f s = [] -> Forall (fun c => f c = true) s.
Proof.
  induction s as [|c s IH]; intros H; [constructor|].
  cbn [dropWhile] in H. destruct (f c) eqn:E; [|discriminate].
  constructor; [exact E|apply IH; exact H].
Qed.

Lemma dropWhile_head (f : N -> bool) (s : jsstring) :
  match dropWhile f s with c :: _ => f c = false | [] => True end.
Proof.
  induction s as [|c s IH]; [exact I|].
  cbn [dropWhile]. destruct (f c) eqn:E; [exact IH|exact E].
Qed.

Lemma trim_nil (s : jsstring) : trim s = [] -> Forall (fun c => isWhitespace c = true) s.
Proof.
  unfold trim, trimEnd, trimStart. intros H.
  apply (f_equal (@rev N)) in H. rewrite rev_involutive in H. cbn [rev] in H.
  apply dropWhile_nil in H.
  pose proof (dropWhile_head isWhitespace s) as Hhead.
  destruct (dropWhile isWhitespace s) as [|c rest] eqn:E; [apply dropWhile_nil; exact E|].
  assert (Hc : isWhitespace c = true).
  { rewrite Forall_forall in H. apply H. apply in_rev. rewrite rev_involutive.
    left. reflexivity. }
  congruence.
Qed.

Lemma splitAcc_whitespace (s : jsstring) :
  forall cur,
    Forall (fun c => isWhitespace c = true) s ->
    splitAcc (cu ",") cur s = [rev cur ++ s].
Proof.
  induction s as [|c s IH]; intros cur H; cbn [splitAcc].
  - rewrite app_nil_r. reflexivity.
  - inversion H as [|c' s' Hc Hs]; subst.
    destruct (c =? cu ",")%N eqn:E.
    + apply N.eqb_eq in E. subst. discriminate Hc.
    + rewrite IH by exact Hs. cbn [rev]. rewrite <- app_assoc. reflexivity.
Qed.

Lemma filter_nonempty_last (l : list jsstring) (p : jsstring) :
  filter (fun param => 0 <? length param)
    (if 0 <? length p then l ++ [p] else l)
  = filter (fun param => 0 <? length param) (l ++ [p]).
Proof.
  destruct (0 <? length p) eqn:E; [reflexivity|].
  rewrite filter_app. cbn [filter]. rewrite E, app_nil_r. reflexivity.
Qed.

(** X15. On a parameter text without a double quote, an open parenthesis
    and a line feed, [splitRoutineParams] is the split at the commas: the
    pieces between the commas, trimmed, without the empty ones. *)
Theorem splitRoutineParams_flat_list :
  forall (paramStr : jsstring),
    Forall (fun c => c <> quote /\ c <> cu "(" /\ c <> 10%N) paramStr ->
    splitRoutineParams paramStr
    = filter (fun param => 0 <? length param)
        (map trim (split (cu ",") paramStr)).
Proof.
  intros paramStr H. unfold splitRoutineParams.
  rewrite replaceNewlines_no_line_feed
    by (eapply Forall_impl; [|exact H]; intros c (_ & _ & Hc); exact Hc).
  destruct (streq (trim paramStr) []) eqn:E.
  - apply streq_eq in E. unfold split.
    rewrite (splitAcc_whitespace paramStr [] (trim_nil paramStr E)).
    cbn [rev app map filter]. rewrite E. reflexivity.
  - cbv zeta. rewrite filter_nonempty_last.
    pose proof (splitRoutineLoop_flat paramStr [] [] [] H) as HI.
    cbn [rev app] in HI. rewrite HI. reflexivity.
Qed.

Lemma splitRoutineParams_flat_list_witness :
  splitRoutineParams (js " p1 , , p2)") = [js "p1"; js "p2)"].
Proof.
  exact (splitRoutineParams_flat_list (js " p1 , , p2)")
           ltac:(repeat constructor; discriminate)).
Defined.

(* ================================================================== *)
(** ** The spans of a formal spec *)
(* ================================================================== *)






(* ================================================================== *)
(** ** What the call patterns capture *)
(* ================================================================== *)

Module RegexFacts.

Section Continuation.

Context {A : Type}.
Variable k : option N -> jsstring -> Regex.captures -> option A.

Lemma m_chr (p : N -> bool) (prev : option N) (s : jsstring) (caps : Regex.captures) :
  Regex.m (Regex.Chr p) prev s caps k
  = match s with
    | c :: s' => if p c then k (Some c) s' caps else None
    | [] => None
    end.
Proof. reflexivity. Qed.

Lemma m_star_nil (p : N -> bool) (prev : option N) (caps : Regex.captures) :
  Regex.m (Regex.Star p) prev [] caps k = k prev [] caps.
Proof. reflexivity. Qed.

Lemma m_star_cons (p : N -> bool) (prev : option N) (c : N) (s : jsstring)
    (caps : Regex.captures) :
  Regex.m (Regex.Star p) prev (c :: s) caps k
  = if p c then
      match Regex.m (Regex.Star p) (Some c) s caps k with
      | Some r => Some r
      | None => k prev (c :: s) caps
      end
    else k prev (c :: s) caps.
Proof. reflexivity. Qed.

Lemma m_plus (p : N -> bool) (prev : option N) (s : jsstring) (caps : Regex.captures) :
  Regex.m (Regex.Plus p) prev s caps k
  = match s with
    | c :: s' => if p c then Regex.m (Regex.Star p) (Some c) s' caps k else None
    | [] => None
    end.
Proof. destruct s; reflexivity. Qed.

Lemma m_seq (a b : Regex.re) (prev : option N) (s : jsstring) (caps : Regex.captures) :
  Regex.m (Regex.Seq a b) prev s caps k
  = Regex.m a prev s caps (fun prev' s' caps' => Regex.m b prev' s' caps' k).
Proof. reflexivity. Qed.

Lemma m_opt (a : Regex.re) (prev : option N) (s : jsstring) (caps : Regex.captures) :
  Regex.m (Regex.Opt a) prev s caps k
  = match Regex.m a prev s caps k with
    | Some r => Some r
    | None => k prev s caps
    end.
Proof. reflexivity. Qed.

Lemma m_group (n : nat) (a : Regex.re) (prev : option N) (s : jsstring)
    (caps : Regex.captures) :
  Regex.m (Regex.Group n a) prev s caps k
  = Regex.m a prev s caps
      (fun prev' s' caps' =>
         k prev' s' ((n, firstn (List.length s - List.length s') s) :: caps')).
Proof. reflexivity. Qed.

(** A repetition hands over the text behind a run of its class. *)
Lemma m_star (p : N -> bool) (caps : Regex.captures) (x : A) :
  forall (s : jsstring) (prev : option N),
    Regex.m (Regex.Star p) prev s caps k = Some x ->
    exists run s' prev',
      s = run ++ s' /\ forallb p run = true /\ k prev' s' caps = Some x.
Proof.
  induction s as [|c s IH]; intros prev H.
  - rewrite m_star_nil in H. exists [], [], prev. repeat split; assumption.
  - rewrite m_star_cons in H.
    destruct (p c) eqn:Hp;
      [|exists [], (c :: s), prev; repeat split; assumption].
    destruct (Regex.m (Regex.Star p) (Some c) s caps k) as [r|] eqn:E;
      [|exists [], (c :: s), prev; repeat split; assumption].
    injection H as ->.
    destruct (IH _ E) as (run & s' & prev' & -> & Hrun & Hk).
    exists (c :: run), s', prev'. repeat split; [|exact Hk].
    cbn [forallb]. rewrite Hp. exact Hrun.
Qed.

End Continuation.

(** An expression without a capture group leaves the captures as they are. *)
Lemma m_groupless {A : Type} (r : Regex.re) :
  groupless r = true ->
  forall (prev : option N) (s : jsstring) (caps : Regex.captures)
         (k : option N -> jsstring -> Regex.captures -> option A) (x : A),
    Regex.m r prev s caps k = Some x ->
    exists prev' s', k prev' s' caps = Some x.
Proof.
  induction r as [p|p|p|a IHa b IHb|a IHa|n a IHa| |]; intros Hg prev s caps k x H.
  - rewrite m_chr in H. destruct s as [|c s]; [discriminate|].
    destruct (p c); [eauto|discriminate].
  - apply m_star in H. destruct H as (_ & s' & prev' & _ & _ & H). eauto.
  - rewrite m_plus in H. destruct s as [|c s]; [discriminate|].
    destruct (p c); [|discriminate].
    apply m_star in H. destruct H as (_ & s' & prev' & _ & _ & H). eauto.
  - cbn [groupless] in Hg. apply andb_true_iff in Hg. destruct Hg as [Ha Hb].
    rewrite m_seq in H.
    destruct (IHa Ha _ _ _ _ _ H) as (prev' & s' & H').
    exact (IHb Hb _ _ _ _ _ H').
  - cbn [groupless] in Hg. rewrite m_opt in H.
    destruct (Regex.m a prev s caps k) as [r|] eqn:E; [|eauto].
    injection H as ->. exact (IHa Hg _ _ _ _ _ E).
  - discriminate Hg.
  - cbn [Regex.m] in H. destruct (xorb _ _); [eauto|discriminate].
  - cbn [Regex.m] in H. destruct s; [eauto|discriminate].
Qed.

(** The group of an identifier captures an identifier. *)
Lemma m_identifier {A : Type} (n : nat) (prev : option N) (s : jsstring)
    (caps : Regex.captures)
    (k : option N -> jsstring -> Regex.captures -> option A) (x : A) :
  Regex.m (Regex.Group n identifier) prev s caps k = Some x ->
  exists prev' s' id,
    isIdentifier id = true /\ k prev' s' ((n, id) :: caps) = Some x.
Proof.
  intros H. unfold identifier in H. rewrite m_group, m_seq, m_chr in H.
  destruct s as [|c s]; [discriminate|].
  destruct (identStart c) eqn:Hc; [|discriminate].
  apply m_star in H. destruct H as (run & s' & prev' & -> & Hrun & H).
  exists prev', s', (c :: run). split.
  - cbn [isIdentifier]. rewrite Hc. exact Hrun.
  - replace (List.length (c :: run ++ s') - List.length s')%nat
      with (S (List.length run)) in H
      by (cbn [List.length]; rewrite List.length_app; lia).
    cbn [firstn] in H.
    rewrite firstn_app, firstn_all, Nat.sub_diag in H. cbn [firstn] in H.
    rewrite app_nil_r in H. exact H.
Qed.

Lemma m_end (prev : option N) (s : jsstring) (caps x : Regex.captures) :
  Regex.m Regex.EndOfInput prev s caps (fun _ _ caps => Some caps) = Some x ->
  x = caps.
Proof.
  cbn [Regex.m]. destruct s; [|discriminate]. intros H. injection H as ->. reflexivity.
Qed.

(** A search that succeeds is a match somewhere in the text. *)
Lemma searchFrom_matches (r : Regex.re) :
  forall (s : jsstring) (prev : option N) (caps : Regex.captures),
    Regex.searchFrom r prev s = Some caps ->
    exists prev' s',
      Regex.m r prev' s' [] (fun _ _ caps => Some caps) = Some caps.
Proof.
  induction s as [|c s IH]; intros prev caps H; cbn [Regex.searchFrom] in H.
  - destruct (Regex.m r prev [] [] (fun _ _ caps => Some caps)) as [x|] eqn:E;
      [|discriminate].
    injection H as ->. eauto.
  - destruct (Regex.m r prev (c :: s) [] (fun _ _ caps => Some caps)) as [x|] eqn:E.
    + injection H as ->. eauto.
    + exact (IH _ _ H).
Qed.

(** The optional routine part, up to the end of the text, adds nothing or
    the identifier of group 2. *)
Lemma m_optionalRoutine_end (prev : option N) (s : jsstring)
    (caps0 caps : Regex.captures) :
  Regex.m (optionalRoutine ;; Regex.EndOfInput)%re prev s caps0
    (fun _ _ caps => Some caps) = Some caps ->
  caps = caps0
  \/ exists id, isIdentifier id = true /\ caps = (2%nat, id) :: caps0.
Proof.
  intros H. rewrite m_seq in H. unfold optionalRoutine in H. rewrite m_opt in H.
  match type of H with
  | match ?e with _ => _ end = _ => destruct e as [r|] eqn:E
  end.
  - injection H as ->. right.
    rewrite m_seq in E.
    apply (m_groupless (Regex.Star isWhitespace) eq_refl) in E.
    destruct E as (p1 & s1 & E). rewrite m_seq in E.
    apply (m_groupless (Regex.Chr (Regex.isChar "^")) eq_refl) in E.
    destruct E as (p2 & s2 & E). rewrite m_seq in E.
    apply (m_groupless (Regex.Star isWhitespace) eq_refl) in E.
    destruct E as (p3 & s3 & E).
    apply m_identifier in E. destruct E as (p4 & s4 & id & Hid & E).
    apply m_end in E. eauto.
  - left. apply m_end in H. exact H.
Qed.

Lemma extrinsicRe_captures (s : jsstring) (caps : Regex.captures) :
  Regex.match_ extrinsicRe s = Some caps ->
  exists id,
    isIdentifier id = true
    /\ (caps = [(1%nat, id)]
        \/ exists id2, isIdentifier id2 = true /\ caps = [(2%nat, id2); (1%nat, id)]).
Proof.
  intros H. apply searchFrom_matches in H. destruct H as (prev & s0 & H).
  unfold extrinsicRe in H. rewrite m_seq in H.
  apply (m_groupless (Regex.Chr (Regex.isChar "$")) eq_refl) in H.
  destruct H as (p1 & s1 & H). rewrite m_seq in H.
  apply (m_groupless (Regex.Chr (Regex.isChar "$")) eq_refl) in H.
  destruct H as (p2 & s2 & H). rewrite m_seq in H.
  apply m_identifier in H. destruct H as (p3 & s3 & id & Hid & H).
  exists id. split; [exact Hid|].
  apply m_optionalRoutine_end in H. exact H.
Qed.

Lemma doLabelRe_captures (s : jsstring) (caps : Regex.captures) :
  Regex.match_ doLabelRe s = Some caps ->
  exists id,
    isIdentifier id = true
    /\ (caps = [(1%nat, id)]
        \/ exists id2, isIdentifier id2 = true /\ caps = [(2%nat, id2); (1%nat, id)]).
Proof.
  intros H. apply searchFrom_matches in H. destruct H as (prev & s0 & H).
  unfold doLabelRe in H. rewrite m_seq in H.
  apply (m_groupless doKeyword eq_refl) in H.
  destruct H as (p1 & s1 & H). rewrite m_seq in H.
  apply (m_groupless (Regex.Plus isWhitespace) eq_refl) in H.
  destruct H as (p2 & s2 & H). rewrite m_seq in H.
  apply m_identifier in H. destruct H as (p3 & s3 & id & Hid & H).
  exists id. split; [exact Hid|].
  apply m_optionalRoutine_end in H. exact H.
Qed.

Lemma doRoutineRe_captures (s : jsstring) (caps : Regex.captures) :
  Regex.match_ doRoutineRe s = Some caps ->
  exists id, isIdentifier id = true /\ caps = [(1%nat, id)].
Proof.
  intros H. apply searchFrom_matches in H. destruct H as (prev & s0 & H).
  unfold doRoutineRe in H. rewrite m_seq in H.
  apply (m_groupless doKeyword eq_refl) in H.
  destruct H as (p1 & s1 & H). rewrite m_seq in H.
  apply (m_groupless (Regex.Star isWhitespace) eq_refl) in H.
  destruct H as (p2 & s2 & H). rewrite m_seq in H.
  apply (m_groupless (Regex.Chr (Regex.isChar "^")) eq_refl) in H.
  destruct H as (p3 & s3 & H). rewrite m_seq in H.
  apply (m_groupless (Regex.Star isWhitespace) eq_refl) in H.
  destruct H as (p4 & s4 & H). rewrite m_seq in H.
  apply m_identifier in H. destruct H as (p5 & s5 & id & Hid & H).
  apply m_end in H. eauto.
Qed.

End RegexFacts.

Lemma dropWhile_app_all (f : N -> bool) (a b : jsstring) :
  Forall (fun c => f c = true) a -> dropWhile f (a ++ b) = dropWhile f b.
Proof.
  induction 1 as [|c a Hc _ IH]; [reflexivity|].
  cbn [app dropWhile]. rewrite Hc. exact IH.
Qed.

Lemma trimEnd_padding (s padding : jsstring) :
  Forall (fun c => isWhitespace c = true) padding ->
  trimEnd (s ++ padding) = trimEnd s.
Proof.
  intros H. unfold trimEnd. rewrite rev_app_distr, dropWhile_app_all; [reflexivity|].
  apply Forall_rev. exact H.
Qed.

Lemma extractRoutineCall_identifiers (callPrefix : jsstring)
    (callContext : RoutineCallContext.t) :
  extractRoutineCall callPrefix = Some callContext ->
  isIdentifier (RoutineCallContext.label callContext) = true
  /\ (RoutineCallContext.routine callContext = []
      \/ isIdentifier (RoutineCallContext.routine callContext) = true).
Proof.
  unfold extractRoutineCall. intros H.
  destruct (Regex.match_ extrinsicRe (trimEnd callPrefix)) as [caps|] eqn:E1.
  { injection H as <-. cbn [RoutineCallContext.label RoutineCallContext.routine].
    destruct (RegexFacts.extrinsicRe_captures _ _ E1)
      as (id & Hid & [-> | (id2 & Hid2 & ->)]); cbn; auto. }
  destruct (Regex.match_ doLabelRe (trimEnd callPrefix)) as [caps|] eqn:E2.
  { injection H as <-. cbn [RoutineCallContext.label RoutineCallContext.routine].
    destruct (RegexFacts.doLabelRe_captures _ _ E2)
      as (id & Hid & [-> | (id2 & Hid2 & ->)]); cbn; auto. }
  destruct (Regex.match_ doRoutineRe (trimEnd callPrefix)) as [caps|] eqn:E3;
    [|discriminate].
  injection H as <-. cbn [RoutineCallContext.label RoutineCallContext.routine].
  destruct (RegexFacts.doRoutineRe_captures _ _ E3) as (id & Hid & ->); cbn; auto.
Qed.

(** X17. The names [extractRoutineCall] finds are identifiers: the label
    begins with [%] or a letter and goes on with word characters and [%],
    and the routine is one too, or empty when the call names none.
    Whitespace behind the call prefix changes nothing. *)
Theorem extractRoutineCall_finds_identifiers :
  forall (callPrefix : jsstring),
    (forall callContext,
        extractRoutineCall callPrefix = Some callContext ->
        isIdentifier (RoutineCallContext.label callContext) = true
        /\ (RoutineCallContext.routine callContext = []
            \/ isIdentifier (RoutineCallContext.routine callContext) = true))
    /\ (forall padding,
           Forall (fun c => isWhitespace c = true) padding ->
           extractRoutineCall (callPrefix ++ padding) = extractRoutineCall callPrefix).
Proof.
  intros callPrefix. split.
  - intros callContext H. exact (extractRoutineCall_identifiers _ _ H).
  - intros padding H. unfold extractRoutineCall.
    rewrite trimEnd_padding by exact H. reflexivity.
Qed.

Lemma extractRoutineCall_finds_identifiers_witness :
  isIdentifier (js "Label") = true
  /\ (js "Routine" = [] \/ isIdentifier (js "Routine") = true).
Proof.
  exact (proj1 (extractRoutineCall_finds_identifiers (js " set x=$$Label^Routine"))
           {| RoutineCallContext.label := js "Label";
              RoutineCallContext.routine := js "Routine" |} eq_refl).
Defined.

(* ================================================================== *)
(** ** The spans of a routine signature *)
(* ================================================================== *)

Lemma find_app_here (c : N) (a b : jsstring) :
  find c a = None -> find c (a ++ c :: b) = Some (List.length a).
Proof.
  induction a as [|d a IH]; intros H; cbn [app find List.length] in *.
  - rewrite N.eqb_refl. reflexivity.
  - destruct (d =? c)%N; [discriminate|].
    destruct (find c a); [discriminate|]. rewrite IH by reflexivity. reflexivity.
Qed.

Lemma routineParameterLoop_slices (post : jsstring) (params : list jsstring) :
  forall (pre : jsstring) (idx n : Z),
    Forall (fun p => trim p = p) params ->
    Z.of_nat (List.length params) = n - idx ->
    Forall2
      (fun info param =>
         exists s e,
           ParameterInformation.label info = Span s e
           /\ slice (pre ++ join (js ", ") params ++ post) s e = param)
      (routineParameterLoop params idx n (length pre)) params.
Proof.
  induction params as [|p rest IH]; intros pre idx n Htrim Hn; [constructor|].
  inversion Htrim as [|p' rest' Hp Hrest]; subst.
  cbn [routineParameterLoop]. rewrite Hp. constructor.
  - exists (length pre), (length pre + length p). split; [reflexivity|].
    destruct rest as [|q rest]; cbn [join]; [apply slice_middle|].
    rewrite <- (app_assoc p). apply slice_middle.
  - destruct rest as [|q rest]; [constructor|].
    assert (E : (idx <? n - 1) = true)
      by (apply Z.ltb_lt; cbn [List.length] in Hn; lia).
    rewrite E.
    replace (length pre + length p + 2) with (length (pre ++ p ++ js ", "))
      by (rewrite !length_app; change (length (js ", ")) with 2; lia).
    pose proof (IH (pre ++ p ++ js ", ") (idx + 1) n Hrest
                  ltac:(cbn [List.length] in *; lia)) as HI.
    replace (pre ++ join (js ", ") (p :: q :: rest) ++ post)
      with ((pre ++ p ++ js ", ") ++ join (js ", ") (q :: rest) ++ post);
      [exact HI|].
    cbn [join]. rewrite <- !app_assoc. reflexivity.
Qed.

Lemma routineParameterInfos_slices (label : jsstring) (params : list jsstring) :
  find (cu "(") label = None ->
  Forall (fun p => trim p = p) params ->
  Forall2
    (fun info param =>
       exists s e,
         ParameterInformation.label info = Span s e
         /\ slice (label ++ js "(" ++ join (js ", ") params ++ js ")") s e = param)
    (routineParameterInfos (label ++ js "(" ++ join (js ", ") params ++ js ")") params)
    params.
Proof.
  intros Hlabel Htrim. unfold routineParameterInfos.
  destruct (Z.of_nat (List.length params) =? 0) eqn:E.
  - apply Z.eqb_eq in E. destruct params; [constructor|cbn [List.length] in E; lia].
  - cbv zeta.
    assert (Hopen : indexOf (cu "(") (label ++ js "(" ++ join (js ", ") params ++ js ")") 0
                    = length label).
    { change (js "(" ++ join (js ", ") params ++ js ")")
        with (cu "(" :: join (js ", ") params ++ js ")").
      apply indexOf_upto; [|unfold length; lia].
      apply find_app_here. exact Hlabel. }
    rewrite Hopen.
    replace (length label + 1) with (length (label ++ js "("))
      by (rewrite length_app; change (length (js "(")) with 1; lia).
    pose proof (routineParameterLoop_slices (js ")") params (label ++ js "(") 0
                  (Z.of_nat (List.length params)) Htrim ltac:(lia)) as H.
    rewrite <- app_assoc in H. exact H.
Qed.

(** X18. The spans [routineParameterInfos] computes for the label the
    routine resolver builds, [label(p1, p2, ...)], are exact: for a label
    without an open parenthesis and trimmed parameters, there is one span
    for each parameter, and it cuts that parameter out of the signature
    label. *)
Theorem routineParameterInfos_spans_cut_parameters :
  forall (label : jsstring) (params : list jsstring),
    indexOf (cu "(") label 0 = -1 ->
    Forall (fun p => trim p = p) params ->
    let signatureLabel := label ++ js "(" ++ join (js ", ") params ++ js ")" in
    Forall2
      (fun info param =>
         exists s e,
           ParameterInformation.label info = Span s e
           /\ slice signatureLabel s e = param)
      (routineParameterInfos signatureLabel params) params.
Proof.
  intros label params Hlabel Htrim signatureLabel.
  apply routineParameterInfos_slices; [|exact Htrim].
  destruct (find (cu "(") label) as [n|] eqn:F; [|reflexivity].
  rewrite (indexOf_upto _ _ _ 0 F) in Hlabel by lia. lia.
Qed.

Lemma routineParameterInfos_spans_cut_parameters_witness :
  Forall2
    (fun info param =>
       exists s e,
         ParameterInformation.label info = Span s e
         /\ slice (js "Label(p1, p2=3)") s e = param)
    (routineParameterInfos (js "Label(p1, p2=3)") [js "p1"; js "p2=3"])
    [js "p1"; js "p2=3"].
Proof.
  exact (routineParameterInfos_spans_cut_parameters (js "Label") [js "p1"; js "p2=3"]
           eq_refl ltac:(repeat constructor)).
Defined.

(* ================================================================== *)
(** ** The routine resolver from end to end *)
(* ================================================================== *)

Lemma splitRoutineParams_trimmed (paramStr : jsstring) :
  Forall (fun p => trim p = p) (splitRoutineParams paramStr).
Proof.
  unfold splitRoutineParams.
  destruct (streq (trim (replaceNewlines paramStr)) []); [constructor|].
  set (st := splitRoutineLoop _ _ _).
  assert (Hst : Forall (fun p => trim p = p) (SplitRoutine.result st))
    by (apply splitRoutineLoop_trimmed; constructor).
  cbv zeta. rewrite filter_nonempty_last.
  apply Forall_forall. intros param Hin.
  apply filter_In in Hin. destruct Hin as [Hin _].
  apply in_app_or in Hin. destruct Hin as [Hin | [<- | []]].
  - exact (proj1 (Forall_forall _ _) Hst param Hin).
  - apply trim_idem.
Qed.

Lemma identRest_not_paren (c : N) : identRest c = true -> (c =? cu "(")%N = false.
Proof.
  intros H. destruct (N.eqb_spec c (cu "(")) as [->|]; [|reflexivity].
  discriminate H.
Qed.

Lemma identStart_not_paren (c : N) : identStart c = true -> (c =? cu "(")%N = false.
Proof.
  intros H. destruct (N.eqb_spec c (cu "(")) as [->|]; [|reflexivity].
  discriminate H.
Qed.

Lemma isIdentifier_no_paren (s : jsstring) :
  isIdentifier s = true -> find (cu "(") s = None.
Proof.
  destruct s as [|c rest]; [discriminate|]. cbn [isIdentifier find].
  intros H. apply andb_true_iff in H. destruct H as [Hc Hrest].
  rewrite (identStart_not_paren c Hc).
  assert (Hnone : find (cu "(") rest = None).
  { induction rest as [|d rest IH]; [reflexivity|].
    cbn [forallb] in Hrest. apply andb_true_iff in Hrest. destruct Hrest as [Hd Hrest].
    cbn [find]. rewrite (identRest_not_paren d Hd), (IH Hrest). reflexivity. }
  rewrite Hnone. reflexivity.
Qed.

Section EngineFacts.

Variable env : Env.

(** Fetching the lines of a routine ends with an answer, leaves the
    session alone and sends at most the index request for the routine. *)
Lemma routineLinesOf_frame (doc : TextDocument.t) (routineName currentRoutine : jsstring)
    (paramsUri : jsstring) (server : ServerSpec env) (w : World) :
  exists fetched w',
    routineLinesOf env doc routineName currentRoutine paramsUri server w
    = (Ret fetched, w')
    /\ sameSession w w'
    /\ (if streq routineName currentRoutine && isRoutineLanguage doc
        then requests w' = requests w
        else requests w' = requests w ++ [Index [routineName ++ js ".int"]]).
Proof.
  unfold routineLinesOf.
  destruct (streq routineName currentRoutine && isRoutineLanguage doc).
  - eexists _, w. repeat split.
  - unfold makeIndexRequest, bind, send, ret.
    destruct (index env server [routineName ++ js ".int"]) as [[|routineEntry entries]|];
      try (eexists _, _; repeat split; fail).
    destruct (negb (streq (RoutineEntry.status routineEntry) []));
      [eexists _, _; repeat split|].
    cbv zeta.
    destruct (streq (createDefinitionUri env paramsUri routineName _) []);
      [eexists _, _; repeat split|].
    destruct (getTextForUri env _ server) as [[|l ls]|]; eexists _, _; repeat split.
Qed.

Lemma getRoutineSignatureDetails_frame (doc : TextDocument.t)
    (parsed : list compressedline) (parenLine parenToken : Z) (paramsUri : jsstring)
    (server : ServerSpec env) (w : World) :
  exists result w',
    getRoutineSignatureDetails env doc parsed parenLine parenToken paramsUri server w
    = (Ret result, w')
    /\ sameSession w w'
    /\ (requests w' = requests w
        \/ exists routineName,
             isIdentifier routineName = true
             /\ requests w' = requests w ++ [Index [routineName ++ js ".int"]])
    /\ forall details,
         result = Some details ->
         exists tokens parenTok,
           at_ parsed parenLine = Some tokens
           /\ at_ tokens parenToken = Some parenTok
           /\ routineDetailsOf details parenLine parenTok.
Proof.
  unfold getRoutineSignatureDetails.
  destruct (at_ parsed parenLine) as [tokens|] eqn:Hline;
    [|exists None, w; repeat split; [left; reflexivity|discriminate]].
  destruct (at_ tokens parenToken) as [parenTok|] eqn:Htok;
    [|exists None, w; repeat split; [left; reflexivity|discriminate]].
  destruct (extractRoutineCall _) as [callContext|] eqn:EC;
    [|exists None, w; repeat split; [left; reflexivity|discriminate]].
  destruct (extractRoutineCall_identifiers _ _ EC) as [Hlabel Hroutine].
  cbv zeta.
  set (label := RoutineCallContext.label callContext) in *.
  set (named := RoutineCallContext.routine callContext) in *.
  set (currentRoutine := currentRoutineOf doc parsed).
  set (routineName := if streq named [] then currentRoutine else named).
  destruct (streq routineName []) eqn:Eempty;
    [exists None, w; repeat split; [left; reflexivity|discriminate]|].
  unfold bind at 1.
  destruct (routineLinesOf_frame doc routineName currentRoutine paramsUri server w)
    as (fetched & w1 & -> & Hsame & Hreq).
  assert (Hrequests :
            requests w1 = requests w
            \/ exists r, isIdentifier r = true
                         /\ requests w1 = requests w ++ [Index [r ++ js ".int"]]).
  { destruct (streq routineName currentRoutine && isRoutineLanguage doc) eqn:Ecur;
      [left; exact Hreq|].
    unfold routineName in *.
    destruct (streq named []) eqn:En.
    - rewrite streq_refl in Ecur. cbn [andb] in Ecur.
      unfold currentRoutine, currentRoutineOf in Eempty.
      rewrite Ecur in Eempty. discriminate Eempty.
    - destruct Hroutine as [Hr|Hr]; [rewrite Hr in En; discriminate En|].
      right. exists named. split; [exact Hr|exact Hreq]. }
  destruct fetched as [routineLines|];
    [|exists None, w1; repeat split; try apply Hsame; [exact Hrequests|discriminate]].
  destruct (findLabelLine label routineLines 0 =? -1) eqn:Eidx;
    [exists None, w1; repeat split; try apply Hsame; [exact Hrequests|discriminate]|].
  apply Z.eqb_neq in Eidx.
  destruct (findLabelLine_first label routineLines 0)
    as [[Hnone _]|[(before & line & following & Hlines & Hidx & _ & _)|Hneg]];
    [contradiction| |lia].
  unfold signatureOfLabel, bind, defined, ret.
  rewrite Hidx, Hlines, Z.add_0_l, at_app_middle.
  eexists _, w1. split; [reflexivity|].
  split; [exact Hsame|]. split; [exact Hrequests|].
  intros details Hd. injection Hd as <-.
  exists tokens, parenTok. split; [reflexivity|]. split; [exact Htok|].
  unfold routineDetailsOf.
  cbn [RoutineSignatureDetails.signature RoutineSignatureDetails.parameters
       RoutineSignatureDetails.start SignatureInformation.label
       SignatureInformation.parameters SignatureInformation.documentation].
  eexists label, _. split; [exact Hlabel|]. split; [reflexivity|].
  split; [reflexivity|]. split; [|split; reflexivity].
  apply routineParameterInfos_slices;
    [apply isIdentifier_no_paren; exact Hlabel|apply splitRoutineParams_trimmed].
Qed.

End EngineFacts.

(** X19. [getRoutineSignatureDetails] always ends with an answer (no
    [TypeError]), leaves the session variables of the signature help as
    they are, and sends nothing or one index request, for an identifier
    with [.int] behind it.  The details it answers with are well formed:
    the label of the signature is an identifier followed by the parameters
    between parentheses, joined with a comma and a space; there is one span
    for each parameter, and it cuts that parameter out of the label; the
    signature has no documentation; and the start position is the offset
    after the open parenthesis of the call. *)
Theorem getRoutineSignatureDetails_answers_well_formed_details :
  forall (env : Env) (doc : TextDocument.t) (parsed : list compressedline)
         (parenLine parenToken : Z) (paramsUri : jsstring) (server : ServerSpec env)
         (w : World),
  exists result w',
    getRoutineSignatureDetails env doc parsed parenLine parenToken paramsUri server w
    = (Ret result, w')
    /\ sameSession w w'
    /\ (requests w' = requests w
        \/ exists routineName,
             isIdentifier routineName = true
             /\ requests w' = requests w ++ [Index [routineName ++ js ".int"]])
    /\ forall details,
         result = Some details ->
         exists tokens parenTok,
           at_ parsed parenLine = Some tokens
           /\ at_ tokens parenToken = Some parenTok
           /\ routineDetailsOf details parenLine parenTok.
Proof. exact getRoutineSignatureDetails_frame. Qed.

(* ================================================================== *)
(** ** The hover of a routine call *)
(* ================================================================== *)

Lemma buildRoutineDocumentation_markdown (signature : SignatureInformation.t)
    (activeIndex : option Z) (options : option DocOptions) :
  exists v,
    buildRoutineDocumentation signature activeIndex options
    = Some {| kind := Markdown; value := v |}.
Proof. unfold buildRoutineDocumentation. eexists. reflexivity. Qed.

Lemma sameSession_refl (w : World) : sameSession w w.
Proof. repeat split. Qed.

(** The answer is [None] in the world [w], which is the one of the call
    or one with the same session. *)
Ltac nothing_at w :=
  exists None, w;
  split; [reflexivity|
  split; [apply sameSession_refl|
  split; [left; reflexivity|intros ? Habs; discriminate Habs]]].

Ltac nothing_after w Hsame Hreq :=
  exists None, w;
  split; [reflexivity|
  split; [exact Hsame|
  split; [exact Hreq|intros ? Habs; discriminate Habs]]].

(** X20. [getRoutineHover] always ends with an answer, leaves the session
    variables of the signature help as they are and sends nothing or one
    index request.  A hover it answers with is Markdown at the empty range
    at the cursor, and the token it was asked about is an ObjectScript token
    that is neither a comment nor a string. *)
Theorem getRoutineHover_answers_at_the_cursor :
  forall (env : Env) (doc : TextDocument.t) (parsed : list compressedline)
         (position : Position.t) (tokenIndex : Z) (uri : jsstring)
         (server : ServerSpec env) (w : World),
  exists result w',
    getRoutineHover env doc parsed position tokenIndex uri server w = (Ret result, w')
    /\ sameSession w w'
    /\ (requests w' = requests w
        \/ exists routineName,
             isIdentifier routineName = true
             /\ requests w' = requests w ++ [Index [routineName ++ js ".int"]])
    /\ forall h,
         result = Some h ->
         range h = Range.create position position
         /\ kind (contents h) = Markdown
         /\ exists tokens token,
              at_ parsed (Position.line position) = Some tokens
              /\ at_ tokens tokenIndex = Some token
              /\ Token.l token = cos_langindex (ld env)
              /\ commentOrString env (Token.s token) = false.
Proof.
  intros env doc parsed position tokenIndex uri server w.
  unfold getRoutineHover.
  destruct (at_ parsed (Position.line position)) as [tokens|] eqn:Hline;
    [|nothing_at w].
  destruct (at_ tokens tokenIndex) as [token|] eqn:Htok;
    [|nothing_at w].
  destruct (Token.l token =? cos_langindex (ld env)) eqn:Elang; cbn [negb];
    [|nothing_at w].
  destruct (commentOrString env (Token.s token)) eqn:Eattr;
    [nothing_at w|].
  destruct (findOpenParen env doc parsed (Position.line position) tokenIndex)
    as [parenLine parenToken].
  destruct ((parenLine =? -1) || (parenToken =? -1));
    [nothing_at w|].
  unfold bind.
  destruct (getRoutineSignatureDetails_frame env doc parsed parenLine parenToken uri
              server w) as (details & w1 & -> & Hsame & Hreq & _).
  destruct details as [details|];
    [|nothing_after w1 Hsame Hreq].
  destruct (buildRoutineDocumentation_markdown
              (RoutineSignatureDetails.signature details)
              (routineHoverIndex env doc position (RoutineSignatureDetails.start details)
                 (RoutineSignatureDetails.signature details))
              hoverOptions) as [v ->].
  eexists _, w1. split; [reflexivity|]. split; [exact Hsame|]. split; [exact Hreq|].
  intros h Hh. cbn [hoverOf] in Hh. injection Hh as <-.
  split; [reflexivity|]. split; [reflexivity|].
  exists tokens, token.
  split; [reflexivity|]. split; [exact Htok|].
  split; [apply Z.eqb_eq; exact Elang|exact Eattr].
Qed.

(* ================================================================== *)
(** ** The hover of a method call *)
(* ================================================================== *)

Lemma afterQueries_refl (n : nat) (w : World) : afterQueries n w w.
Proof.
  split; [apply sameSession_refl|].
  exists []. rewrite app_nil_r. repeat split; [cbn; lia|constructor].
Qed.

Lemma afterQueries_send (n : nat) (w w' : World) (q : jsstring) (ps : list jsstring) :
  afterQueries n w w' ->
  afterQueries (S n) w (snd (send (Query q ps) w')).
Proof.
  intros [(H1 & H2 & H3) (sent & Hsent & Hlen & Hall)].
  split; [repeat split; assumption|].
  exists (sent ++ [Query q ps]). cbn [send snd requests].
  rewrite Hsent, <- app_assoc. repeat split.
  - rewrite List.length_app. cbn [List.length]. lia.
  - apply Forall_app. split; [exact Hall|]. constructor; [eauto|constructor].
Qed.

Lemma afterQueries_more (n k : nat) (w w' : World) :
  (n <= k)%nat -> afterQueries n w w' -> afterQueries k w w'.
Proof.
  intros Hle [Hsame (sent & Hsent & Hlen & Hall)].
  split; [exact Hsame|]. exists sent. repeat split; [exact Hsent|lia|exact Hall].
Qed.

Section MethodFacts.

Variable env : Env.

Lemma streq_false_neq (a b : jsstring) : streq a b = false -> a <> b.
Proof. intros H ->. rewrite streq_refl in H. discriminate H. Qed.

Lemma getMethodSignatureDetails_frame (doc : TextDocument.t)
    (parsed : list compressedline) (parenLine parenToken : Z)
    (server : ServerSpec env) (w : World) :
  exists result w',
    getMethodSignatureDetails env doc parsed parenLine parenToken server w
    = (Ret result, w')
    /\ afterQueries 2 w w'
    /\ forall details,
         result = Some details ->
         memberDetailsOf env doc parsed parenLine parenToken server details.
Proof.
  assert (Hnone : forall n w', afterQueries n w w' -> (n <= 2)%nat ->
            exists result w'',
              (Ret (@None MethodSignatureDetails.t), w') = (Ret result, w'')
              /\ afterQueries 2 w w''
              /\ forall details,
                   result = Some details ->
                   memberDetailsOf env doc parsed parenLine parenToken server details).
  { intros n w' Hq Hn. exists None, w'. split; [reflexivity|].
    split; [exact (afterQueries_more _ _ _ _ Hn Hq)|].
    intros details Habs. discriminate Habs. }
  unfold getMethodSignatureDetails.
  destruct (at_ parsed parenLine) as [tokens|] eqn:Hline;
    [|exact (Hnone _ _ (afterQueries_refl 0 w) ltac:(lia))].
  destruct (at_ tokens parenToken) as [parenTok|] eqn:Htok;
    [|exact (Hnone _ _ (afterQueries_refl 0 w) ltac:(lia))].
  destruct (at_ tokens (parenToken - 1)) as [calleeToken|] eqn:Hcallee;
    [|exact (Hnone _ _ (afterQueries_refl 0 w) ltac:(lia))].
  destruct (isMemberToken env calleeToken) eqn:Hmember; cbn [negb];
    [|exact (Hnone _ _ (afterQueries_refl 0 w) ltac:(lia))].
  cbv zeta.
  set (member := TextDocument.getText doc _).
  set (baseclass := getClassMemberContext env doc parsed (parenToken - 2) parenLine server).
  destruct (streq baseclass []) eqn:Ebase;
    [exact (Hnone _ _ (afterQueries_refl 0 w) ltac:(lia))|].
  apply streq_false_neq in Ebase.
  assert (Hfound : forall w' methodRow,
            afterQueries 2 w w' ->
            memberRowOf env server member baseclass methodRow ->
            Row.FormalSpec methodRow <> [] ->
            exists result w'',
              (Ret (Some
                      {| MethodSignatureDetails.signature :=
                           {| SignatureInformation.label :=
                                if streq member (js "%New")
                                then beautifyFormalSpec env (Row.FormalSpec methodRow)
                                     ++ js " As " ++ baseclass
                                else memberLabel
                                       (beautifyFormalSpec env (Row.FormalSpec methodRow))
                                       member baseclass (Row.ReturnType methodRow);
                              SignatureInformation.parameters :=
                                Some (formalSpecToParamsArr
                                        (beautifyFormalSpec env (Row.FormalSpec methodRow)));
                              SignatureInformation.documentation := None |};
                         MethodSignatureDetails.start :=
                           Position.create parenLine (Token.p parenTok + 1) |}), w')
              = (Ret result, w'')
              /\ afterQueries 2 w w''
              /\ forall details,
                   result = Some details ->
                   memberDetailsOf env doc parsed parenLine parenToken server details).
  { intros w' methodRow Hq Hrow Hspec. eexists _, w'. split; [reflexivity|].
    split; [exact Hq|]. intros details Hd. injection Hd as <-.
    exists tokens, parenTok, calleeToken, methodRow.
    split; [exact Hline|]. split; [exact Htok|]. split; [exact Hcallee|].
    split; [exact Hmember|]. cbv zeta.
    split; [exact Ebase|]. split; [exact Hrow|]. split; [exact Hspec|reflexivity]. }
  unfold bind at 1. unfold makeMemberQuery.
  destruct (streq member (js "%New")) eqn:Enew.
  - unfold makeQueryRequest, bind at 1, ret at 1.
    pose proof (afterQueries_send 0 w w queryNewAndOnNew
                  [baseclass; quoteUDLIdentifier env member 0; js "%OnNew"]
                  (afterQueries_refl 0 w)) as Hq1.
    cbn [send snd] in Hq1. cbn [send].
    destruct (query env server queryNewAndOnNew
                [baseclass; quoteUDLIdentifier env member 0; js "%OnNew"])
      as [[|row0 rows']|] eqn:Equery;
      try exact (Hnone _ _ Hq1 ltac:(lia)).
    destruct (onNewOverridden (row0 :: rows')) as [onNew|] eqn:Eover;
      [|exact (Hnone _ _ Hq1 ltac:(lia))].
    destruct (streq (Row.FormalSpec onNew) []) eqn:Espec;
      [exact (Hnone _ _ Hq1 ltac:(lia))|].
    apply streq_false_neq in Espec.
    pose proof (Hfound _ onNew (afterQueries_more 1 2 _ _ ltac:(lia) Hq1)) as HF.
    apply HF; [|exact Espec].
    unfold memberRowOf. rewrite Enew. exists (row0 :: rows'). split; assumption.
  - unfold makeQueryRequest at 1, bind at 1, ret at 1.
    pose proof (afterQueries_send 0 w w queryMethod
                  [baseclass; quoteUDLIdentifier env member 0]
                  (afterQueries_refl 0 w)) as Hq1.
    cbn [send snd] in Hq1. cbn [send].
    destruct (query env server queryMethod
                [baseclass; quoteUDLIdentifier env member 0])
      as [[|row0 rows']|] eqn:Equery;
      try exact (Hnone _ _ Hq1 ltac:(lia)).
    unfold bind at 1.
    match goal with
    | |- context [(if negb (streq (Row.Stub row0) []) then _ else _) ?w0] =>
        set (w1 := w0) in *
    end.
    assert (Hstub : exists w2,
               (if negb (streq (Row.Stub row0) []) then
                  if Z.of_nat (List.length (split (cu ".") (Row.Stub row0))) >=? 3 then
                    if negb (streq (stubQueryOf
                                      (orEmpty (at_ (split (cu ".") (Row.Stub row0)) 2)))
                               [])
                    then
                      let* stubRows :=
                        makeQueryRequest env server
                          (stubQueryOf (orEmpty (at_ (split (cu ".") (Row.Stub row0)) 2)))
                          [orEmpty (at_ (split (cu ".") (Row.Stub row0)) 1); baseclass;
                           orEmpty (at_ (split (cu ".") (Row.Stub row0)) 0)] in
                      match stubRows with
                      | Some (r :: _) => ret r
                      | _ => ret row0
                      end
                    else ret row0
                  else ret row0
                else ret row0) w1
               = (Ret match stubRowsOf env server baseclass row0 with
                      | Some (r :: _) => r
                      | _ => row0
                      end, w2)
               /\ afterQueries 2 w w2).
    { unfold stubRowsOf. cbv zeta.
      destruct (negb (streq (Row.Stub row0) [])); cbn [andb];
        [|eexists; split; [reflexivity|exact (afterQueries_more 1 2 _ _ ltac:(lia) Hq1)]].
      destruct (Z.of_nat _ >=? 3); cbn [andb];
        [|eexists; split; [reflexivity|exact (afterQueries_more 1 2 _ _ ltac:(lia) Hq1)]].
      destruct (negb (streq (stubQueryOf _) []));
        [|eexists; split; [reflexivity|exact (afterQueries_more 1 2 _ _ ltac:(lia) Hq1)]].
      unfold makeQueryRequest, bind, ret.
      destruct (query env server (stubQueryOf _) _) as [[|r rs]|];
        eexists; (split; [reflexivity|]);
        exact (afterQueries_send 1 w w1 _ _ Hq1). }
    cbv zeta. destruct Hstub as (w2 & -> & Hq2).
    set (methodRow := match stubRowsOf env server baseclass row0 with
                      | Some (r :: _) => r
                      | _ => row0
                      end).
    destruct (streq (Row.FormalSpec methodRow) []) eqn:Espec;
      [exact (Hnone _ _ Hq2 ltac:(lia))|].
    apply streq_false_neq in Espec.
    pose proof (Hfound w2 methodRow Hq2) as HF.
    apply HF; [|exact Espec].
    unfold memberRowOf. rewrite Enew. exists row0, rows'. split; [exact Equery|reflexivity].
Qed.

End MethodFacts.

(** X21. [getClassMethodHover] always ends with an answer, leaves the
    session variables of the signature help as they are, and sends at most
    two requests, which are SQL queries (the one for the member, and the one
    for the subtable of a stub).  A hover it answers with is Markdown at the
    empty range at the cursor. *)
Theorem getClassMethodHover_answers_at_the_cursor :
  forall (env : Env) (doc : TextDocument.t) (parsed : list compressedline)
         (position : Position.t) (tokenIndex : Z) (server : ServerSpec env)
         (w : World),
  exists result w',
    getClassMethodHover env doc parsed position tokenIndex server w = (Ret result, w')
    /\ afterQueries 2 w w'
    /\ forall h,
         result = Some h ->
         range h = Range.create position position
         /\ kind (contents h) = Markdown.
Proof.
  intros env doc parsed position tokenIndex server w.
  unfold getClassMethodHover.
  destruct (findOpenParen env doc parsed (Position.line position) tokenIndex)
    as [parenLine parenToken].
  destruct ((parenLine =? -1) || (parenToken =? -1)).
  { exists None, w. split; [reflexivity|]. split; [apply afterQueries_refl|].
    intros h Habs. discriminate Habs. }
  unfold bind.
  destruct (getMethodSignatureDetails_frame env doc parsed parenLine parenToken server w)
    as (details & w1 & -> & Hq & _).
  destruct details as [details|].
  - destruct (buildRoutineDocumentation_markdown
                (MethodSignatureDetails.signature details)
                (methodHoverIndex env doc position (MethodSignatureDetails.start details)
                   (MethodSignatureDetails.signature details))
                hoverOptions) as [v ->].
    eexists _, w1. split; [reflexivity|]. split; [exact Hq|].
    intros h Hh. cbn [hoverOf] in Hh. injection Hh as <-. split; reflexivity.
  - exists None, w1. split; [reflexivity|]. split; [exact Hq|].
    intros h Habs. discriminate Habs.
Qed.

(** X22. [getMethodSignatureDetails] always ends with an answer, leaves
    the session variables of the signature help as they are and sends at
    most two SQL queries.  The details it answers with are those of the
    class member called ([memberDetailsOf]): the token before the open
    parenthesis is a method or member token and the class of the member is
    known; the row used is the row of an overridden [%OnNew] for [%New],
    and for another member the first row of the subtable of its stub when
    that query has rows, else the first row of the member query; the formal
    spec of that row is not empty; the parameters are the spans of the
    beautified formal spec of that row; the label is that beautified spec
    followed by [ As ] and the class (for [%New], [%Open], [%OpenId]) or the
    return type of the row when it has one; there is no documentation; and
    the start position is the offset after the parenthesis. *)
Theorem getMethodSignatureDetails_answers_member_details :
  forall (env : Env) (doc : TextDocument.t) (parsed : list compressedline)
         (parenLine parenToken : Z) (server : ServerSpec env) (w : World),
  exists result w',
    getMethodSignatureDetails env doc parsed parenLine parenToken server w
    = (Ret result, w')
    /\ afterQueries 2 w w'
    /\ forall details,
         result = Some details ->
         memberDetailsOf env doc parsed parenLine parenToken server details.
Proof. exact getMethodSignatureDetails_frame. Qed.

(* ================================================================== *)
(** ** The signature help of a routine call *)
(* ================================================================== *)

Lemma paramCount_nonneg (sig : SignatureInformation.t) : 0 <= paramCount sig.
Proof. unfold paramCount. destruct (SignatureInformation.parameters sig); lia. Qed.

Lemma paramCount_withDocumentation (sig : SignatureInformation.t)
    (d : option MarkupContent) :
  paramCount (withDocumentation sig d) = paramCount sig.
Proof. reflexivity. Qed.

(** X23. The routine resolver of [onSignatureHelp], at an open parenthesis
    ([routineOpen]) and in an argument list ([routineInvoked]), always ends
    with an answer and never changes the macro cache.  Without a result the
    session is as it was.  A result shows one signature, whose active
    parameter is an index of its parameters (none when it has none); the
    documentation cache then holds the Markdown the signature shows, with
    the type [routine], and the session starts at the offset after the open
    parenthesis. *)
Theorem routine_signature_help_matches_session :
  forall (env : Env) (doc : TextDocument.t) (parsed : list compressedline)
         (server : ServerSpec env) (uri : jsstring) (position : Position.t)
         (line thistoken : Z) (w : World),
    (exists result w',
        routineOpen env doc parsed server uri line thistoken w = (Ret result, w')
        /\ routineAnswer parsed line thistoken result w w')
    /\ (exists result w',
           routineInvoked env doc parsed server uri position line thistoken w
           = (Ret result, w')
           /\ routineAnswer parsed line thistoken result w w').
Proof.
  intros env doc parsed server uri position line thistoken w.
  destruct (getRoutineSignatureDetails_frame env doc parsed line thistoken uri server w)
    as (details & w1 & Hcall & (Hm & Hd & Hs) & _ & Hdetails).
  split.
  - unfold routineOpen, bind. rewrite Hcall.
    destruct details as [details|];
      [|exists None, w1; split; [reflexivity|split; [exact Hm|repeat split; assumption]]].
    destruct (Hdetails details eq_refl)
      as (tokens & parenTok & Hline & Htok & (label & infos & _ & _ & _ & _ & _ & Hstart)).
    set (sig := RoutineSignatureDetails.signature details) in *.
    set (initialActive := if negb (paramCount sig =? 0) then Some 0 else None).
    destruct (buildRoutineDocumentation_markdown sig initialActive signatureOptions)
      as [v Hv].
    rewrite Hv.
    eexists _, _. split; [reflexivity|]. split; [exact Hm|].
    exists (withDocumentation sig (Some {| kind := Markdown; value := v |})), v,
      tokens, parenTok.
    split; [|repeat split; try assumption; cbn; rewrite Hstart; reflexivity].
    split; [reflexivity|]. split; [reflexivity|].
    cbn [newSignature SignatureHelp.activeParameter].
    rewrite paramCount_withDocumentation. unfold initialActive.
    pose proof (paramCount_nonneg sig).
    destruct (paramCount sig =? 0) eqn:E; cbn [negb];
      [apply Z.eqb_eq; exact E|apply Z.eqb_neq in E; lia].
  - unfold routineInvoked, bind. rewrite Hcall.
    destruct details as [details|];
      [|exists None, w1; split; [reflexivity|split; [exact Hm|repeat split; assumption]]].
    destruct (Hdetails details eq_refl)
      as (tokens & parenTok & Hline & Htok & (label & infos & _ & _ & _ & _ & _ & Hstart)).
    set (sig := RoutineSignatureDetails.signature details) in *.
    cbv zeta.
    set (boundedIndex := boundedIndexOf _ (paramCount sig)).
    destruct (buildRoutineDocumentation_markdown sig boundedIndex signatureOptions)
      as [v Hv].
    rewrite Hv.
    eexists _, _. split; [reflexivity|]. split; [exact Hm|].
    exists (withDocumentation sig (Some {| kind := Markdown; value := v |})), v,
      tokens, parenTok.
    split; [|repeat split; try assumption; cbn; rewrite Hstart; reflexivity].
    split; [reflexivity|]. split; [reflexivity|].
    cbn [newSignature SignatureHelp.activeParameter].
    rewrite paramCount_withDocumentation.
    apply boundedIndexOf_valid. apply paramCount_nonneg.
Qed.

(* ================================================================== *)
(** ** The constructor in an argument list *)
(* ================================================================== *)

Lemma memberSignature_returns (env : Env) (uri raw label description : jsstring)
    (w : World) :
  exists sig w',
    memberSignature env uri raw label description w = (Ret sig, w')
    /\ signatureHelpStartPosition w' = signatureHelpStartPosition w
    /\ signatureHelpMacroCache w' = signatureHelpMacroCache w
    /\ requests w' = requests w.
Proof.
  unfold memberSignature, bind, ret, setDocumentationCache.
  destruct (signaturehelp_documentation env uri); eexists _, _; repeat split.
Qed.

(** X24. In an argument list (a comma was typed or the help was invoked),
    the class-member resolver of [onSignatureHelp] never answers with a
    signature for the constructor [%New]: the signature built for a class
    that overrides [%OnNew] is assigned to [newsignature], which this branch
    never returns.  The start position of the session is set all the same
    in that case. *)
Theorem memberInvoked_constructor_shows_nothing :
  forall (env : Env) (doc : TextDocument.t) (parsed : list compressedline)
         (server : ServerSpec env) (uri : jsstring) (position : Position.t)
         (sigstartln sigstarttkn : Z) (membertok parentok : Token.t) (w : World),
    let member :=
      TextDocument.getText doc
        (Range.create
           (Position.create sigstartln (Token.p membertok))
           (Position.create sigstartln (Token.p membertok + Token.c membertok))) in
    let baseclass :=
      getClassMemberContext env doc parsed (sigstarttkn - 2) sigstartln server in
    member = js "%New" ->
    exists w',
      memberInvoked env doc parsed server uri position sigstartln sigstarttkn membertok
        (Some parentok) w
      = (Ret None, w')
      /\ forall row0 onNew,
           baseclass <> [] ->
           query env server queryNewAndOnNew
             [baseclass; quoteUDLIdentifier env member 0; js "%OnNew"]
           = Some [row0; onNew] ->
           Row.Origin onNew <> js "%Library.RegisteredObject" ->
           signatureHelpStartPosition w'
           = Some (Position.create sigstartln (Token.p parentok + 1)).
Proof.
  intros env doc parsed server uri position sigstartln sigstarttkn membertok parentok w
    member baseclass Hmember.
  unfold memberInvoked. fold member. fold baseclass.
  destruct (streq baseclass []) eqn:Ebase.
  { exists w. split; [reflexivity|]. intros row0 onNew Hb.
    apply streq_eq in Ebase. contradiction. }
  unfold bind at 1. unfold makeMemberQuery.
  destruct (streq member (js "%New")) eqn:Enew;
    [|rewrite Hmember, streq_refl in Enew; discriminate Enew].
  unfold makeQueryRequest, bind at 1, send, ret at 1.
  destruct (query env server queryNewAndOnNew
              [baseclass; quoteUDLIdentifier env member 0; js "%OnNew"])
    as [[|row0 rows']|] eqn:Equery;
    try (eexists; split; [reflexivity|]; intros r0 oN _ Habs; discriminate Habs).
  destruct (onNewOverridden (row0 :: rows')) as [onNew|] eqn:Eover.
  - unfold bind at 1.
    match goal with
    | |- context [memberSignature env uri ?raw ?label ?description ?w0] =>
        destruct (memberSignature_returns env uri raw label description w0)
          as (sig & w1 & -> & Hstart & _ & _)
    end.
    unfold bind, defined, ret, setStartPosition.
    eexists. split; [reflexivity|].
    intros r0 oN _ _ _. reflexivity.
  - eexists. split; [reflexivity|].
    intros r0 oN _ Hrows Horigin. injection Hrows as -> ->.
    cbn [onNewOverridden] in Eover.
    destruct (streq (Row.Origin oN) (js "%Library.RegisteredObject")) eqn:E;
      [apply streq_eq in E; contradiction|discriminate Eover].
Qed.

Lemma memberInvoked_constructor_shows_nothing_witness :
  exists w',
    memberInvoked Scenario.overriddenEnv Scenario.newDocument Scenario.newTokens tt
      Scenario.uri (Position.create 0 33) 0 9 (Example.token 28 4 7)
      (Some (Example.token 32 1 Scenario.delimiter)) Example.idle
    = (Ret None, w')
    /\ signatureHelpStartPosition w' = Some (Position.create 0 33).
Proof.
  destruct (memberInvoked_constructor_shows_nothing Scenario.overriddenEnv
              Scenario.newDocument Scenario.newTokens tt Scenario.uri
              (Position.create 0 33) 0 9 (Example.token 28 4 7)
              (Example.token 32 1 Scenario.delimiter) Example.idle eq_refl)
    as [w' [Hcall Hstart]].
  exists w'. split; [exact Hcall|].
  refine (Hstart _ _ _ eq_refl _); discriminate.
Defined.

(* ================================================================== *)
(** ** What a retrigger changes *)
(* ================================================================== *)







(* ================================================================== *)
(** ** The documentation of a parameter *)
(* ================================================================== *)

Lemma noAngleBracket_esc (s : jsstring) : noAngleBracket (esc s).
Proof.
  unfold noAngleBracket, esc. apply Forall_flat_map. apply Forall_forall. intros c _.
  destruct (c =? cu "<")%N eqn:E1; [repeat constructor; discriminate|].
  destruct (c =? cu ">")%N eqn:E2; [repeat constructor; discriminate|].
  destruct (c =? cu "&")%N eqn:E3; [repeat constructor; discriminate|].
  apply N.eqb_neq in E1, E2. repeat constructor; assumption.
Qed.

Lemma noAngleBracket_app (a b : jsstring) :
  noAngleBracket a -> noAngleBracket b -> noAngleBracket (a ++ b).
Proof. intros Ha Hb. apply Forall_app. split; assumption. Qed.

Lemma Forall_firstn_skipn {A : Type} (P : A -> Prop) (l : list A) (n k : nat) :
  Forall P l -> Forall P (firstn n (skipn k l)).
Proof.
  intros H.
  assert (Hskip : Forall P (skipn k l)).
  { revert k. induction H as [|x l Hx Hl IH]; intros [|k]; cbn [skipn];
      try constructor; auto. }
  revert n. induction Hskip as [|x l' Hx Hl IH]; intros [|n]; cbn [firstn];
    constructor; auto.
Qed.

Lemma noAngleBracket_slice (s : jsstring) (b e : Z) :
  noAngleBracket s -> noAngleBracket (slice s b e).
Proof. intros H. unfold slice. apply Forall_firstn_skipn. exact H. Qed.

Lemma noAngleBracket_inlineCode (boldParam : bool) (t : jsstring) :
  noAngleBracket t -> noAngleBracket (inlineCode boldParam t).
Proof.
  intros H. unfold inlineCode, backtick.
  assert (Htick : noAngleBracket [96%N]) by (repeat constructor; discriminate).
  assert (Hbold : noAngleBracket (js "**")) by (repeat constructor; discriminate).
  destruct boldParam.
  - apply noAngleBracket_app; [exact Hbold|].
    apply noAngleBracket_app; [exact Htick|].
    apply noAngleBracket_app; [exact H|].
    apply noAngleBracket_app; [exact Htick|exact Hbold].
  - apply noAngleBracket_app; [exact Htick|].
    apply noAngleBracket_app; [exact H|exact Htick].
Qed.

Lemma noAngleBracket_join (lines : list jsstring) :
  Forall noAngleBracket lines -> noAngleBracket (join [10%N] lines).
Proof.
  induction 1 as [|line rest Hline Hrest IH]; [constructor|].
  destruct rest as [|next rest]; [exact Hline|].
  change (join [10%N] (line :: next :: rest))
    with (line ++ [10%N] ++ join [10%N] (next :: rest)).
  apply noAngleBracket_app; [exact Hline|].
  apply noAngleBracket_app; [|exact IH].
  repeat constructor; discriminate.
Qed.

Lemma noAngleBracket_parametroNaOrigem : noAngleBracket parametroNaOrigem.
Proof. vm_compute. repeat constructor; discriminate. Qed.

(** X26. [buildRoutineDocumentation] always answers with Markdown content
    (the [undefined] its callers test for never comes), and unless the
    options ask for the code block with the raw label at the head of a
    hover, that content has no [<] and no [>]: every piece of the label it
    shows went through the escaping.  This holds for the options of the two
    hovers and of the signature help. *)
Theorem buildRoutineDocumentation_has_no_angle_bracket :
  forall (signature : SignatureInformation.t) (activeIndex : option Z)
         (options : option DocOptions),
    exists v,
      buildRoutineDocumentation signature activeIndex options
      = Some {| kind := Markdown; value := v |}
      /\ (showsHeader options = false -> noAngleBracket v).
Proof.
  intros signature activeIndex options.
  unfold buildRoutineDocumentation. cbv zeta. eexists. split; [reflexivity|].
  intros Hheader. apply noAngleBracket_join.
  apply Forall_app. split; [|apply Forall_app; split].
  - unfold showsHeader in Hheader.
    destruct options as [o|]; [|constructor].
    destruct (context o) as [[|]|]; cbn [andb]; try constructor.
    destruct (showHeaderInHover o) as [b|]; [|discriminate Hheader].
    rewrite Hheader. constructor.
  - match goal with |- Forall _ (if ?b then _ else _) => destruct b end;
      [|constructor].
    constructor; [|constructor; constructor].
    destruct (at_ _ _) as [info|]; [|apply noAngleBracket_esc].
    destruct (ParameterInformation.label info) as [s e|t].
    + destruct (s <? e); [|apply noAngleBracket_esc].
      apply noAngleBracket_app; [apply noAngleBracket_esc|].
      apply noAngleBracket_app; [|apply noAngleBracket_esc].
      apply noAngleBracket_inlineCode, noAngleBracket_esc.
    + destruct (negb (streq t [])); [|apply noAngleBracket_esc].
      destruct (_ >=? 0); [|apply noAngleBracket_esc].
      apply noAngleBracket_app; [apply noAngleBracket_slice, noAngleBracket_esc|].
      apply noAngleBracket_app; [apply noAngleBracket_inlineCode, noAngleBracket_esc|].
      apply noAngleBracket_slice, noAngleBracket_esc.
  - constructor; [|constructor].
    match goal with |- noAngleBracket (if ?b then _ else _) => destruct b end;
      [|apply noAngleBracket_parametroNaOrigem].
    apply noAngleBracket_app; [apply noAngleBracket_parametroNaOrigem|].
    apply noAngleBracket_app; [repeat constructor; discriminate|].
    apply noAngleBracket_inlineCode, noAngleBracket_esc.
Qed.

Lemma buildRoutineDocumentation_has_no_angle_bracket_witness :
  (exists v,
      buildRoutineDocumentation Scenario.saveSignature (Some 1) hoverOptions
      = Some {| kind := Markdown; value := v |}
      /\ noAngleBracket v)
  /\ (exists v,
         buildRoutineDocumentation Scenario.saveSignature (Some 1) signatureOptions
         = Some {| kind := Markdown; value := v |}
         /\ noAngleBracket v).
Proof.
  split.
  - destruct (buildRoutineDocumentation_has_no_angle_bracket Scenario.saveSignature
                (Some 1) hoverOptions) as [v [Hv Hclean]].
    exists v. split; [exact Hv|exact (Hclean eq_refl)].
  - destruct (buildRoutineDocumentation_has_no_angle_bracket Scenario.saveSignature
                (Some 1) signatureOptions) as [v [Hv Hclean]].
    exists v. split; [exact Hv|exact (Hclean eq_refl)].
Defined.

(* ================================================================== *)
(** ** A class member in an argument list *)
(* ================================================================== *)

Lemma resolveStub_session (env : Env) (server : ServerSpec env) (baseclass : jsstring)
    (row0 : Row.t) (w : World) :
  exists memobj w',
    resolveStub env server baseclass row0 w = (Ret memobj, w')
    /\ sameSession w w'.
Proof.
  unfold resolveStub.
  destruct (negb (streq (Row.Stub row0) []));
    [|eexists _, _; split; [reflexivity|apply sameSession_refl]].
  cbv zeta.
  match goal with
  | |- context [if negb (streq ?q []) then _ else _] => destruct (negb (streq q []))
  end; [|eexists _, _; split; [reflexivity|apply sameSession_refl]].
  unfold makeQueryRequest, bind, send, ret.
  destruct (query env server _ _) as [[|r rs]|];
    eexists _, _; (split; [reflexivity|repeat split]).
Qed.

Lemma boundedActive_valid (active : option Z) (n : Z) :
  match boundedActive active n with
  | Some i => 0 <= i < n
  | None => True
  end.
Proof.
  unfold boundedActive, clampIndex. destruct active as [a|]; [|exact I].
  destruct (n >? 0) eqn:E; [|exact I]. lia.
Qed.

(** X27. In an argument list, a signature the class-member resolver of
    [onSignatureHelp] answers with has an active parameter that is an index
    of its parameters, or none: the index computed from the text is clamped
    here, as it is not on a retrigger.  The result shows that one
    signature, and the session starts at the offset after the open
    parenthesis, with the macro cache as it was. *)
Theorem memberInvoked_active_parameter_in_range :
  forall (env : Env) (doc : TextDocument.t) (parsed : list compressedline)
         (server : ServerSpec env) (uri : jsstring) (position : Position.t)
         (sigstartln sigstarttkn : Z) (membertok : Token.t) (parentok : option Token.t)
         (w w' : World) (h : SignatureHelp.t),
    memberInvoked env doc parsed server uri position sigstartln sigstarttkn membertok
      parentok w
    = (Ret (Some h), w') ->
    exists sig tok,
      SignatureHelp.signatures h = [sig]
      /\ SignatureHelp.activeSignature h = Some 0
      /\ match SignatureHelp.activeParameter h with
         | Some i => 0 <= i < paramCount sig
         | None => True
         end
      /\ parentok = Some tok
      /\ signatureHelpStartPosition w'
         = Some (Position.create sigstartln (Token.p tok + 1))
      /\ signatureHelpMacroCache w' = signatureHelpMacroCache w.
Proof.
  intros env doc parsed server uri position sigstartln sigstarttkn membertok parentok
    w w' h E.
  unfold memberInvoked in E. cbv zeta in E.
  set (member := TextDocument.getText doc _) in E.
  set (baseclass := getClassMemberContext env doc parsed (sigstarttkn - 2) sigstartln
                      server) in E.
  destruct (streq baseclass []); [discriminate E|].
  unfold bind at 1 in E.
  assert (Hquery : exists rows w1,
             makeMemberQuery env server member baseclass
               (quoteUDLIdentifier env member 0) w = (Ret rows, w1)
             /\ sameSession w w1).
  { unfold makeMemberQuery, makeQueryRequest, bind, send, ret.
    destruct (streq member (js "%New")); eexists _, _; (split; [reflexivity|repeat split]). }
  destruct Hquery as (rows & w1 & Hq & (Hm1 & _ & _)). rewrite Hq in E.
  destruct rows as [[|row0 rows']|]; try discriminate E.
  destruct (streq member (js "%New")).
  { destruct (onNewOverridden (row0 :: rows')); [|discriminate E].
    unfold bind at 1 in E.
    match type of E with
    | context [memberSignature env uri ?raw ?label ?description ?w0] =>
        destruct (memberSignature_returns env uri raw label description w0)
          as (sig & w2 & Hs & _)
    end.
    rewrite Hs in E. unfold bind, defined, ret, throw, setStartPosition in E.
    destruct parentok; discriminate E. }
  unfold bind at 1 in E.
  destruct (resolveStub_session env server baseclass row0 w1)
    as (memobj & w2 & Hstub & (Hm2 & _ & _)).
  rewrite Hstub in E.
  destruct (negb (streq (Row.FormalSpec memobj) [])); [|discriminate E].
  unfold bind at 1 in E.
  match type of E with
  | context [memberSignature env uri ?raw ?label ?description ?w0] =>
      destruct (memberSignature_returns env uri raw label description w0)
        as (sig & w3 & Hs & _ & Hm3 & _)
  end.
  rewrite Hs in E. unfold bind, defined, ret, throw, setStartPosition in E.
  destruct parentok as [tok|]; [|discriminate E].
  injection E as <- <-.
  exists sig, tok. split; [reflexivity|]. split; [reflexivity|].
  split; [apply boundedActive_valid|]. split; [reflexivity|]. split; [reflexivity|].
  cbn [signatureHelpMacroCache]. congruence.
Qed.

Lemma memberInvoked_active_parameter_in_range_witness :
  exists sig tok,
    SignatureHelp.signatures Scenario.savedHelp = [sig]
    /\ SignatureHelp.activeSignature Scenario.savedHelp = Some 0
    /\ match SignatureHelp.activeParameter Scenario.savedHelp with
       | Some i => 0 <= i < paramCount sig
       | None => True
       end
    /\ Some (Example.token 10 1 Scenario.delimiter) = Some tok
    /\ signatureHelpStartPosition Scenario.savedSession
       = Some (Position.create 0 (Token.p tok + 1))
    /\ signatureHelpMacroCache Scenario.savedSession
       = signatureHelpMacroCache Example.idle.
Proof.
  exact (memberInvoked_active_parameter_in_range Scenario.savedEnv Scenario.saveDocument
           Scenario.saveTokens tt Scenario.uri (Position.create 0 15) 0 3
           (Example.token 6 4 7) (Some (Example.token 10 1 Scenario.delimiter))
           Example.idle Scenario.savedSession Scenario.savedHelp eq_refl).
Defined.

(* ================================================================== *)
(** ** Outside of ObjectScript code *)
(* ================================================================== *)



(* ================================================================== *)
(** ** The markers of the emphasis *)
(* ================================================================== *)

Module ReplaceFacts.

Section Marker.

(** [q] is a marker made of characters of the class [Q]; the replacement
    [rep] is not empty and has no character of that class. *)
Variable Q : N -> bool.
Variables pat rep q : jsstring.
Hypothesis q_marker : forallb Q q = true.
Hypothesis q_nonempty : q <> [].
Hypothesis rep_plain : forallb (fun c => negb (Q c)) rep = true.
Hypothesis rep_nonempty : rep <> [].

Lemma replaceAllAux_skip :
  forall (s : jsstring) (k : nat),
    replaceAllAux pat rep k s = replaceAllAux pat rep O (skipn k s).
Proof.
  induction s as [|c s IH]; intros [|k]; try reflexivity.
  cbn [replaceAllAux skipn]. apply IH.
Qed.

Lemma startsWith_plain_head (c : N) (x : jsstring) :
  Q c = false -> startsWith (c :: x) q = false.
Proof.
  intros Hc. destruct q as [|y q'] eqn:E; [contradiction|].
  cbn [startsWith]. cbn [forallb] in q_marker.
  apply andb_true_iff in q_marker. destruct q_marker as [Hy _].
  destruct (N.eqb_spec y c) as [->|]; [congruence|reflexivity].
Qed.

(** A marker that begins the text after the replacement began the text
    before it, where the pattern did not match. *)
Lemma startsWith_replaced :
  forall (s p : jsstring),
    forallb Q p = true ->
    p <> [] ->
    startsWith (replaceAllAux pat rep O s) p = true ->
    startsWith s p = true /\ startsWith s pat = false.
Proof.
  induction s as [|c s IH]; intros p Hp Hne H.
  - destruct p; [contradiction|discriminate H].
  - cbn [replaceAllAux] in H.
    destruct (startsWith (c :: s) pat) eqn:Ematch.
    + exfalso. destruct rep as [|r rep'] eqn:Erep; [contradiction|].
      cbn [forallb] in rep_plain. apply andb_true_iff in rep_plain.
      destruct rep_plain as [Hr _]. apply negb_true_iff in Hr.
      destruct p as [|y p']; [contradiction|].
      cbn [app startsWith] in H. cbn [forallb] in Hp.
      apply andb_true_iff in Hp. destruct Hp as [Hy _].
      apply andb_true_iff in H. destruct H as [H _].
      apply N.eqb_eq in H. congruence.
    + split; [|reflexivity].
      destruct p as [|y p']; [contradiction|].
      cbn [startsWith] in *. apply andb_true_iff in H. destruct H as [Hc H].
      rewrite Hc. cbn [andb].
      destruct p' as [|z p'']; [destruct s; reflexivity|].
      cbn [forallb] in Hp. apply andb_true_iff in Hp. destruct Hp as [_ Hp].
      exact (proj1 (IH (z :: p'') Hp ltac:(discriminate) H)).
Qed.

Lemma occursIn_plain_prefix (pre x : jsstring) :
  forallb (fun c => negb (Q c)) pre = true ->
  occursIn q x = false ->
  occursIn q (pre ++ x) = false.
Proof.
  induction pre as [|c pre IH]; intros Hpre Hx; [exact Hx|].
  cbn [forallb] in Hpre. apply andb_true_iff in Hpre. destruct Hpre as [Hc Hpre].
  apply negb_true_iff in Hc.
  cbn [app occursIn]. rewrite (startsWith_plain_head c _ Hc), (IH Hpre Hx). reflexivity.
Qed.

(** No marker is left where every marker of the text was an occurrence of
    the pattern. *)
Lemma occursIn_replaced :
  forall (n : nat) (s : jsstring),
    (List.length s <= n)%nat ->
    (forall a b, s = a ++ b -> startsWith b q = true -> startsWith b pat = true) ->
    occursIn q (replaceAllAux pat rep O s) = false.
Proof.
  induction n as [|n IH]; intros s Hlen Hs.
  - destruct s; [|cbn in Hlen; lia].
    cbn [replaceAllAux occursIn]. destruct q; [contradiction|reflexivity].
  - destruct s as [|c s].
    + cbn [replaceAllAux occursIn]. destruct q; [contradiction|reflexivity].
    + cbn [replaceAllAux]. destruct (startsWith (c :: s) pat) eqn:Ematch.
      * rewrite replaceAllAux_skip. apply occursIn_plain_prefix; [exact rep_plain|].
        apply IH.
        -- rewrite length_skipn. cbn [List.length] in Hlen. lia.
        -- intros a b Hab. apply (Hs (c :: firstn (List.length pat - 1) s ++ a) b).
           cbn [app]. rewrite <- app_assoc, <- Hab, firstn_skipn. reflexivity.
      * cbn [occursIn]. apply orb_false_iff. split.
        -- destruct (startsWith (c :: replaceAllAux pat rep O s) q) eqn:E; [|reflexivity].
           assert (H : startsWith (replaceAllAux pat rep O (c :: s)) q = true)
             by (cbn [replaceAllAux]; rewrite Ematch; exact E).
           apply (startsWith_replaced (c :: s) q q_marker q_nonempty) in H.
           rewrite (Hs [] (c :: s) eq_refl (proj1 H)) in Ematch. discriminate Ematch.
        -- apply IH; [cbn [List.length] in Hlen; lia|].
           intros a b Hab. apply (Hs (c :: a) b). rewrite Hab. reflexivity.
Qed.

Lemma occursIn_suffix (s : jsstring) :
  occursIn q s = false ->
  forall a b, s = a ++ b -> startsWith b q = false.
Proof.
  intros H a. revert s H.
  induction a as [|c a IH]; intros s H b ->.
  - cbn [app] in H. destruct b; cbn [occursIn] in H;
      apply orb_false_iff in H; exact (proj1 H).
  - cbn [app occursIn] in H. apply orb_false_iff in H.
    exact (IH _ (proj2 H) b eq_refl).
Qed.

(** A marker that begins a text followed by plain characters begins the
    text itself. *)
Lemma startsWith_plain_suffix (post : jsstring) :
  forallb (fun c => negb (Q c)) post = true ->
  forall (s p : jsstring),
    forallb Q p = true ->
    startsWith (s ++ post) p = true ->
    startsWith s p = true.
Proof.
  intros Hpost. induction s as [|c s IH]; intros p Hp H.
  - destruct p as [|y p']; [reflexivity|]. exfalso.
    cbn [app] in H. destruct post as [|d post']; [discriminate H|].
    cbn [startsWith] in H. apply andb_true_iff in H. destruct H as [H _].
    apply N.eqb_eq in H. subst d.
    cbn [forallb] in Hp, Hpost.
    apply andb_true_iff in Hp. apply andb_true_iff in Hpost.
    destruct Hp as [Hy _]. destruct Hpost as [Hd _].
    apply negb_true_iff in Hd. congruence.
  - destruct p as [|y p']; [reflexivity|].
    cbn [app startsWith] in *. apply andb_true_iff in H. destruct H as [Hc H].
    rewrite Hc. cbn [andb]. cbn [forallb] in Hp.
    apply andb_true_iff in Hp. exact (IH p' (proj2 Hp) H).
Qed.

Lemma occursIn_plain_suffix (post : jsstring) :
  forallb (fun c => negb (Q c)) post = true ->
  forall (s : jsstring),
    occursIn q s = false ->
    occursIn q (s ++ post) = false.
Proof.
  intros Hpost. induction s as [|c s IH]; intros H.
  - cbn [app]. rewrite <- (app_nil_r post).
    apply occursIn_plain_prefix; [exact Hpost|].
    cbn [occursIn]. destruct q; [contradiction|reflexivity].
  - cbn [app occursIn] in *. apply orb_false_iff in H. destruct H as [H1 H2].
    apply orb_false_iff. split; [|exact (IH H2)].
    destruct (startsWith (c :: s ++ post) q) eqn:E; [|reflexivity].
    rewrite (startsWith_plain_suffix post Hpost (c :: s) q q_marker E) in H1.
    discriminate H1.
Qed.

End Marker.

End ReplaceFacts.

(** X29. The markers of the emphasis never reach the editor: whatever the
    lines of the expansion, the text [markdownifyExpansion] answers with
    contains neither the marker before an argument nor the marker after
    it. *)
Theorem markdownifyExpansion_leaves_no_marker :
  forall (exp : list jsstring),
    occursIn emphasizePrefix (markdownifyExpansion exp) = false
    /\ occursIn emphasizeSuffix (markdownifyExpansion exp) = false.
Proof.
  intros exp. unfold markdownifyExpansion, replaceAll.
  set (text := join [10%N] (map trimEnd exp)).
  set (isPercent := fun c : N => (c =? cu "%")%N).
  set (isAt := fun c : N => (c =? cu "@")%N).
  assert (H1 : occursIn emphasizePrefix
                 (replaceAllAux emphasizePrefix (js "<b><i><u>") O text) = false).
  { apply (ReplaceFacts.occursIn_replaced isPercent emphasizePrefix (js "<b><i><u>")
             emphasizePrefix eq_refl ltac:(discriminate) eq_refl ltac:(discriminate)
             (List.length text) text (Nat.le_refl _)).
    intros a b _ H. exact H. }
  assert (H2 : occursIn emphasizePrefix
                 (replaceAllAux emphasizeSuffix (js "</u></i></b>") O
                    (replaceAllAux emphasizePrefix (js "<b><i><u>") O text)) = false).
  { apply (ReplaceFacts.occursIn_replaced isPercent emphasizeSuffix (js "</u></i></b>")
             emphasizePrefix eq_refl ltac:(discriminate) eq_refl ltac:(discriminate)
             _ _ (Nat.le_refl _)).
    intros a b Hab H.
    rewrite (ReplaceFacts.occursIn_suffix emphasizePrefix _ H1 a b Hab) in H.
    discriminate H. }
  assert (H3 : occursIn emphasizeSuffix
                 (replaceAllAux emphasizeSuffix (js "</u></i></b>") O
                    (replaceAllAux emphasizePrefix (js "<b><i><u>") O text)) = false).
  { apply (ReplaceFacts.occursIn_replaced isAt emphasizeSuffix (js "</u></i></b>")
             emphasizeSuffix eq_refl ltac:(discriminate) eq_refl ltac:(discriminate)
             _ _ (Nat.le_refl _)).
    intros a b _ H. exact H. }
  split.
  - apply (ReplaceFacts.occursIn_plain_prefix isPercent emphasizePrefix eq_refl
             ltac:(discriminate) (js "<pre>" ++ [10%N]) _ eq_refl).
    apply (ReplaceFacts.occursIn_plain_suffix isPercent emphasizePrefix eq_refl
             ltac:(discriminate) ([10%N] ++ js "</pre>") eq_refl _ H2).
  - apply (ReplaceFacts.occursIn_plain_prefix isAt emphasizeSuffix eq_refl
             ltac:(discriminate) (js "<pre>" ++ [10%N]) _ eq_refl).
    apply (ReplaceFacts.occursIn_plain_suffix isAt emphasizeSuffix eq_refl
             ltac:(discriminate) ([10%N] ++ js "</pre>") eq_refl _ H3).
Qed.

(* ================================================================== *)
(** ** Which routine calls reach the remote service *)
(* ================================================================== *)

(** X30. A routine call that names no routine ([$$Label(] or [do Label(])
    is resolved without the remote service: [getRoutineSignatureDetails]
    reads the live buffer of the document, or gives up when the document is
    no routine, and leaves the world as it is.  A call that names a routine
    other than the current one sends one index request, for that routine
    with [.int] behind it. *)
Theorem getRoutineSignatureDetails_local_label_sends_nothing :
  forall (env : Env) (doc : TextDocument.t) (parsed : list compressedline)
         (parenLine parenToken : Z) (paramsUri : jsstring) (server : ServerSpec env)
         (w : World) (tokens : compressedline) (parenTok : Token.t)
         (callContext : RoutineCallContext.t),
    at_ parsed parenLine = Some tokens ->
    at_ tokens parenToken = Some parenTok ->
    extractRoutineCall
      (TextDocument.getText doc
         (Range.create (Position.create parenLine 0)
            (Position.create parenLine (Token.p parenTok))))
    = Some callContext ->
    let routine := RoutineCallContext.routine callContext in
    let w' :=
      snd (getRoutineSignatureDetails env doc parsed parenLine parenToken paramsUri
             server w) in
    (routine = [] -> w' = w)
    /\ (routine <> [] ->
        routine <> currentRoutineOf doc parsed ->
        sameSession w w'
        /\ requests w' = requests w ++ [Index [routine ++ js ".int"]]).
Proof.
  intros env doc parsed parenLine parenToken paramsUri server w tokens parenTok
    callContext Hline Htok Hcall routine w'.
  unfold w'. clear w'.
  destruct (getRoutineSignatureDetails env doc parsed parenLine parenToken paramsUri
              server w) as [o w'] eqn:E.
  cbn [snd].
  unfold getRoutineSignatureDetails in E. rewrite Hline, Htok, Hcall in E.
  cbv zeta in E. fold routine in E.
  set (currentRoutine := currentRoutineOf doc parsed) in *.
  split.
  - intros Hnone. rewrite Hnone, streq_refl in E.
    destruct (streq currentRoutine []) eqn:Ecur; [injection E as _ <-; reflexivity|].
    assert (Hlang : isRoutineLanguage doc = true).
    { unfold currentRoutine, currentRoutineOf in Ecur.
      destruct (isRoutineLanguage doc); [reflexivity|discriminate Ecur]. }
    unfold bind, routineLinesOf in E. rewrite streq_refl, Hlang in E.
    cbn [andb ret] in E.
    destruct (findLabelLine _ _ 0 =? -1); [injection E as _ <-; reflexivity|].
    unfold signatureOfLabel, bind, defined, ret, throw in E.
    destruct (at_ (splitLines _) _); injection E as _ <-; reflexivity.
  - intros Hnamed Hother.
    destruct (streq routine []) eqn:Eempty; [apply streq_eq in Eempty; contradiction|].
    assert (Ecur : streq routine currentRoutine = false).
    { destruct (streq routine currentRoutine) eqn:Ec; [|reflexivity].
      apply streq_eq in Ec. contradiction. }
    rewrite Eempty in E. unfold bind at 1 in E.
    destruct (routineLinesOf_frame env doc routine currentRoutine paramsUri server w)
      as (fetched & w1 & Hfetch & Hsame & Hreq).
    rewrite Ecur in Hreq. cbn [andb] in Hreq. rewrite Hfetch in E.
    destruct fetched as [routineLines|];
      [|injection E as _ <-; split; assumption].
    destruct (findLabelLine _ _ 0 =? -1);
      [injection E as _ <-; split; assumption|].
    unfold signatureOfLabel, bind, defined, ret, throw in E.
    destruct (at_ routineLines _); injection E as _ <-; split; assumption.
Qed.

Lemma getRoutineSignatureDetails_local_label_sends_nothing_witness :
  sameSession Example.idle
    (snd (getRoutineSignatureDetails Scenario.callEnv Scenario.callDocument
            Scenario.callTokens 0 4 Scenario.uri tt Example.idle))
  /\ requests
       (snd (getRoutineSignatureDetails Scenario.callEnv Scenario.callDocument
               Scenario.callTokens 0 4 Scenario.uri tt Example.idle))
     = requests Example.idle ++ [Index [js "Routine" ++ js ".int"]].
Proof.
  refine (proj2 (getRoutineSignatureDetails_local_label_sends_nothing Scenario.callEnv
                   Scenario.callDocument Scenario.callTokens 0 4 Scenario.uri tt
                   Example.idle _ (Example.token 17 1 Scenario.delimiter)
                   {| RoutineCallContext.label := js "Label";
                      RoutineCallContext.routine := js "Routine" |}
                   eq_refl eq_refl eq_refl) _ _); discriminate.
Defined.
